(** * QAI pipeline: run / suite / test hierarchy

    A shallow embedding of the [QAIPipeline] class (the CI/CD driver that
    turns generated scenarios into a run -> suite -> test hierarchy, dispatches
    the run to the execution agent and reads the verdict back), with the
    properties of its scenario partitioning, persistence and rollup.

    JavaScript values are modelled as far as the pipeline inspects them:
    strings are sequences of UTF-16 code units, plain objects used as
    dictionaries are association lists in insertion order together with the
    two places where a plain object differs from a dictionary (keys inherited
    from [Object.prototype], and array-index keys enumerated first), and the
    [Map] used for deduplication is an association list whose [set] keeps the
    position of an existing key.  The store, the execution agent and the
    process environment are explicit arguments. *)

From Stdlib Require Import List Bool Arith NArith PArith ZArith Lia String Ascii Permutation.
From Stdlib Require DecimalN.
Import ListNotations.

Set Implicit Arguments.

(* ================================================================= *)
(** ** JavaScript strings and values *)

Module JS.

(** A string is its sequence of UTF-16 code units. *)
Definition jsstring := list N.

(** Literals: every character of a Rocq string literal is one code unit. *)
Definition str (s : string) : jsstring :=
  map N_of_ascii (list_ascii_of_string s).

Fixpoint eqb (a b : jsstring) : bool :=
  match a, b with
  | [], [] => true
  | x :: a', y :: b' => N.eqb x y && eqb a' b'
  | _, _ => false
  end.

(** The values a parsed JSON field can hold, as far as the pipeline tells
    them apart. *)
Inductive jsval :=
| JUndefined
| JNull
| JBool (b : bool)
| JNum (n : Z)
| JStr (s : jsstring)
| JObj.

(** ToBoolean. *)
Definition truthy (v : jsval) : bool :=
  match v with
  | JUndefined | JNull => false
  | JBool b => b
  | JNum n => negb (Z.eqb n 0)
  | JStr s => match s with [] => false | _ => true end
  | JObj => true
  end.

(** [x || d] on an optional string field: absent and empty are both falsy. *)
Definition or_default (x : option jsstring) (d : jsstring) : jsstring :=
  match x with
  | Some (c :: s) => c :: s
  | _ => d
  end.

(** WhiteSpace and LineTerminator code units, the ones [trim] strips. *)
Definition is_whitespace (c : N) : bool :=
  match c with
  | 9 | 10 | 11 | 12 | 13 | 32 | 160 | 5760
  | 8232 | 8233 | 8239 | 8287 | 12288 | 65279 => true
  | _ => N.leb 8192 c && N.leb c 8202
  end%N.

Fixpoint trimStart (s : jsstring) : jsstring :=
  match s with
  | c :: s' => if is_whitespace c then trimStart s' else s
  | [] => []
  end.

Definition trimEnd (s : jsstring) : jsstring := rev (trimStart (rev s)).

Definition trim (s : jsstring) : jsstring := trimEnd (trimStart s).

(** *** Property keys of a plain object

    A key that is the canonical decimal form of an integer below [2^32 - 1]
    is an array index: [Object.keys] lists those first, in ascending numeric
    order, and the other string keys after them in insertion order. *)

Definition is_digit (c : N) : bool := (N.leb 48 c && N.leb c 57)%N.

Definition to_number (s : jsstring) : N :=
  fold_left (fun acc c => (acc * 10 + (c - 48))%N) s 0%N.

Definition is_array_index (s : jsstring) : bool :=
  match s with
  | [] => false
  | [c] => is_digit c
  | c :: _ =>
      is_digit c && negb (N.eqb c 48) && forallb is_digit s
      && Nat.leb (List.length s) 10 && N.ltb (to_number s) 4294967295
  end.

(** Own property names of [Object.prototype]: reading one of them on an
    object literal finds the inherited member, not [undefined]. *)
Definition inherited_names : list jsstring :=
  map str
    [ "constructor"; "__defineGetter__"; "__defineSetter__"; "hasOwnProperty";
      "__lookupGetter__"; "__lookupSetter__"; "isPrototypeOf";
      "propertyIsEnumerable"; "toString"; "valueOf"; "__proto__";
      "toLocaleString" ]%string.

Definition is_inherited (k : jsstring) : bool :=
  existsb (eqb k) inherited_names.

(** A plain object used as a dictionary: own properties in creation order. *)
Definition object (V : Type) := list (jsstring * V).

Inductive lookup_result (V : Type) :=
| Own (v : V)
| Inherited
| Undefined.
Arguments Inherited {V}.
Arguments Undefined {V}.

Fixpoint own {V} (o : object V) (k : jsstring) : option V :=
  match o with
  | [] => None
  | (k', v) :: o' => if eqb k k' then Some v else own o' k
  end.

(** [o[k]] *)
Definition get {V} (o : object V) (k : jsstring) : lookup_result V :=
  match own o k with
  | Some v => Own v
  | None => if is_inherited k then Inherited else Undefined
  end.

(** [o[k] = v] for a key that is not inherited. *)
Fixpoint set {V} (o : object V) (k : jsstring) (v : V) : object V :=
  match o with
  | [] => [(k, v)]
  | (k', v') :: o' =>
      if eqb k k' then (k, v) :: o' else (k', v') :: set o' k v
  end.

Fixpoint insert_index (k : jsstring) (l : list jsstring) : list jsstring :=
  match l with
  | [] => [k]
  | k' :: l' =>
      if N.leb (to_number k) (to_number k') then k :: l
      else k' :: insert_index k l'
  end.

Definition sort_indices (l : list jsstring) : list jsstring :=
  fold_right insert_index [] l.

(** [Object.keys(o)] *)
Definition keys {V} (o : object V) : list jsstring :=
  let ks := map fst o in
  sort_indices (filter is_array_index ks)
  ++ filter (fun k => negb (is_array_index k)) ks.

(** *** [Map]

    [new Map(entries)] sets the entries from left to right; setting a key
    that is present replaces its value and keeps its position. *)
Definition Map (V : Type) := list (jsstring * V).

Fixpoint Map_set {V} (m : Map V) (k : jsstring) (v : V) : Map V :=
  match m with
  | [] => [(k, v)]
  | (k', v') :: m' =>
      if eqb k k' then (k, v) :: m' else (k', v') :: Map_set m' k v
  end.

Definition Map_new {V} (entries : list (jsstring * V)) : Map V :=
  fold_left (fun m e => Map_set m (fst e) (snd e)) entries [].

Definition Map_values {V} (m : Map V) : list V := map snd m.

(** [a.slice(0, n)] *)
Definition slice0 {A} (n : nat) (a : list A) : list A := firstn n a.

End JS.

Import JS.

Declare Scope js_scope.
Delimit Scope js_scope with js.
Notation "a +++ b" := (@app N a b) (at level 60, right associativity) : js_scope.
Local Open Scope js_scope.

(* ================================================================= *)
(** ** Data model: scenarios and the three tables *)

(** A generated scenario.  [description] is a string; [type] and [persona]
    may be absent; [summary] is whatever the generator returned. *)
Record Scenario := {
  description : jsstring;
  priority : jsstring;
  type : option jsstring;
  persona : option jsstring;
  steps : list jsstring;
  summary : jsval
}.

Inductive RunStatus := RUNNING | PASSED | FAILED.

Definition RunStatus_eqb (a b : RunStatus) : bool :=
  match a, b with
  | RUNNING, RUNNING | PASSED, PASSED | FAILED, FAILED => true
  | _, _ => false
  end.

(** [overall_result]: [{}] on creation, the three counts once rolled up. *)
Record Counts := { passed : nat; failed : nat; total : nat }.

Module Results.
Record record := {
  pr_link : jsstring;
  pr_name : jsstring;
  overall_result : option Counts;
  run_status : RunStatus
}.
Record row := { id : positive; data : record }.
End Results.

Module Suites.
Record record := { result_id : positive; name : jsstring }.
Record row := { id : positive; data : record }.
End Suites.

Module Tests.
Record record := {
  suite_id : positive;
  name : jsstring;
  summary : jsval;
  test_success : option bool;
  run_status : RunStatus;
  steps : list jsstring
}.
Record row := { id : positive; data : record }.
End Tests.

Record Store := {
  results : list Results.row;
  suites : list Suites.row;
  tests : list Tests.row
}.

(** What the final nested select returns: the run with its suites
    nested, each with its tests nested.  The code guards both levels with
    [?.], so either array may be missing. *)
Module Hierarchy.
Record suite := { suite_row : Suites.row; tests : option (list Tests.row) }.
Record run := { run_row : Results.row; suites : option (list suite) }.
End Hierarchy.

(* ================================================================= *)
(** ** The store

    The relational store is an external service.  It assigns identities,
    answers an insert either with the new row's id or with an error, and
    upserts tests on a conflict of [name].  Which requests it rejects is
    given by a [Faults] value, one per pipeline phase. *)

Definition fresh_id (ids : list positive) : positive :=
  fold_right (fun i next => Pos.max (Pos.succ i) next) 1%positive ids.

Inductive ReadFault := ReadOk | ReadNoData | ReadThrows (message : jsstring).

Record Faults := {
  results_insert_error : option jsstring;
  suites_insert_error : Suites.record -> option jsstring;
  tests_upsert_error : list Tests.record -> option jsstring;
  results_update_error : bool;
  hierarchy_read : ReadFault
}.

Definition no_faults : Faults := {|
  results_insert_error := None;
  suites_insert_error := fun _ => None;
  tests_upsert_error := fun _ => None;
  results_update_error := false;
  hierarchy_read := ReadOk
|}.

Definition insert_result (F : Faults) (r : Results.record) (s : Store)
  : jsstring + (positive * Store) :=
  match results_insert_error F with
  | Some e => inl e
  | None =>
      let i := fresh_id (map Results.id (results s)) in
      inr (i, {| results := results s ++ [ {| Results.id := i; Results.data := r |} ];
                 suites := suites s; tests := tests s |})
  end.

Definition insert_suite (F : Faults) (r : Suites.record) (s : Store)
  : jsstring + (positive * Store) :=
  match suites_insert_error F r with
  | Some e => inl e
  | None =>
      let i := fresh_id (map Suites.id (suites s)) in
      inr (i, {| results := results s;
                 suites := suites s ++ [ {| Suites.id := i; Suites.data := r |} ];
                 tests := tests s |})
  end.

(** One row of an upsert with [onConflict: 'name']: the row that has the
    name is overwritten in place and keeps its id, otherwise a row is added. *)
Fixpoint upsert_at (i : positive) (r : Tests.record) (rows : list Tests.row)
  : list Tests.row :=
  match rows with
  | [] => [ {| Tests.id := i; Tests.data := r |} ]
  | x :: rows' =>
      if eqb (Tests.name (Tests.data x)) (Tests.name r)
      then {| Tests.id := Tests.id x; Tests.data := r |} :: rows'
      else x :: upsert_at i r rows'
  end.

Definition upsert_row (rows : list Tests.row) (r : Tests.record) : list Tests.row :=
  upsert_at (fresh_id (map Tests.id rows)) r rows.

Definition upsert_rows (rows : list Tests.row) (rs : list Tests.record)
  : list Tests.row :=
  fold_left upsert_row rs rows.

Definition upsert_tests (F : Faults) (rs : list Tests.record) (s : Store)
  : jsstring + Store :=
  match tests_upsert_error F rs with
  | Some e => inl e
  | None => inr {| results := results s; suites := suites s;
                   tests := upsert_rows (tests s) rs |}
  end.

(** [update({run_status}).eq('id', i)]; a rejected update changes nothing. *)
Definition set_run_status (st : RunStatus) (r : Results.row) : Results.row :=
  {| Results.id := Results.id r;
     Results.data :=
       {| Results.pr_link := Results.pr_link (Results.data r);
          Results.pr_name := Results.pr_name (Results.data r);
          Results.overall_result := Results.overall_result (Results.data r);
          Results.run_status := st |} |}.

Definition update_run_status (F : Faults) (i : positive) (st : RunStatus) (s : Store)
  : Store :=
  if results_update_error F then s
  else {| results := map (fun r => if Pos.eqb (Results.id r) i
                                   then set_run_status st r else r) (results s);
          suites := suites s; tests := tests s |}.

(** The nested read for one run id; [single()] yields no data when the id
    matches no row. *)
Definition tests_of (s : Store) (sid : positive) : list Tests.row :=
  filter (fun t => Pos.eqb (Tests.suite_id (Tests.data t)) sid) (tests s).

Definition suites_of (s : Store) (rid : positive) : list Suites.row :=
  filter (fun x => Pos.eqb (Suites.result_id (Suites.data x)) rid) (suites s).

Definition read_hierarchy (s : Store) (rid : positive) : option Hierarchy.run :=
  match find (fun r => Pos.eqb (Results.id r) rid) (results s) with
  | None => None
  | Some r =>
      Some {| Hierarchy.run_row := r;
              Hierarchy.suites :=
                Some (map (fun x => {| Hierarchy.suite_row := x;
                                       Hierarchy.tests := Some (tests_of s (Suites.id x)) |})
                          (suites_of s rid)) |}
  end.

(* ================================================================= *)
(** ** The pipeline object *)

(** What the pipeline throws or catches, as written by [console.error]. *)
Inductive Error :=
| MissingEndpoint                      (* QAI_ENDPOINT environment variable is required *)
| NoResultId                           (* No result_id available *)
| RequestError (message : jsstring)    (* network error or error status *)
| Timeout                              (* the request timed out *)
| NonSuccessStatus (status : jsval)    (* API returned non-success status *)
| TypeError.                           (* a member read on a non-array *)

Inductive LogEntry :=
| FailedCreateResults (message : jsstring)
| FailedCreateSuite (message : jsstring)
| FailedCreateTests (message : jsstring)
| DatabaseUploadError (e : Error)
| QAIExecutionFailed (e : Error)
| FailedVerify (message : jsstring).

(** The requests that leave the process, in the order they are made. *)
Inductive Op :=
| InsertResult (r : Results.record) (answer : option positive)
| InsertSuite (r : Suites.record) (answer : option positive)
| UpsertTests (rs : list Tests.record) (accepted : bool)
| UpdateRunStatus (rid : positive) (st : RunStatus)
| CallAgent (rid : positive)
| ReadHierarchy (rid : option positive).

(** [this] together with the world it acts on: the two fields the phases
    share, the store, the error console and the requests made so far.
    [pr_link] and [pr_name] are the strings derived from the repository and
    the pull-request number when the object is constructed. *)
Record State := {
  pr_link : jsstring;
  pr_name : jsstring;
  resultId : option positive;
  suiteIds : object positive;
  db : Store;
  console : list LogEntry;
  calls : list Op
}.

Definition with_db (s : Store) (st : State) : State :=
  {| pr_link := pr_link st; pr_name := pr_name st; resultId := resultId st;
     suiteIds := suiteIds st; db := s; console := console st; calls := calls st |}.

Definition with_resultId (i : positive) (st : State) : State :=
  {| pr_link := pr_link st; pr_name := pr_name st; resultId := Some i;
     suiteIds := suiteIds st; db := db st; console := console st; calls := calls st |}.

Definition with_suiteIds (o : object positive) (st : State) : State :=
  {| pr_link := pr_link st; pr_name := pr_name st; resultId := resultId st;
     suiteIds := o; db := db st; console := console st; calls := calls st |}.

Definition log_error (e : LogEntry) (st : State) : State :=
  {| pr_link := pr_link st; pr_name := pr_name st; resultId := resultId st;
     suiteIds := suiteIds st; db := db st; console := console st ++ [e];
     calls := calls st |}.

Definition call (o : Op) (st : State) : State :=
  {| pr_link := pr_link st; pr_name := pr_name st; resultId := resultId st;
     suiteIds := suiteIds st; db := db st; console := console st;
     calls := calls st ++ [o] |}.

Record Env := {
  QAI_ENDPOINT : option jsstring;
  DEPLOYMENT_URL : option jsstring
}.

(** The execution agent: given the run id it answers the request, or the
    request fails or times out; meanwhile it may have written to the store. *)
Inductive AgentReply :=
| RequestFailed (message : jsstring)
| TimedOut
| Responded (data : option jsval).

Definition Agent := positive -> Store -> AgentReply * Store.

(* ----------------------------------------------------------------- *)
(** *** analyzePR: capping and summaries *)

Definition cap_scenarios (parsedScenarios : list Scenario) : list Scenario :=
  if Nat.ltb 4 (List.length parsedScenarios)
  then slice0 4 parsedScenarios
  else parsedScenarios.

Definition summary_template (deploymentUrl : jsstring) (s : Scenario) : jsstring :=
  str "On " +++ deploymentUrl +++ str ", you are testing "
  +++ or_default (type s) (str "a") +++ str " scenario: " +++ description s
  +++ str ". In this test, follow the steps to validate the expected behavior and surface any validation or UX issues.".

(** [s.summary && typeof s.summary === 'string' && s.summary.trim()] *)
Definition summary_given (v : jsval) : bool :=
  truthy v &&
  match v with
  | JStr s => truthy (JStr (trim s))
  | _ => false
  end.

Definition with_summary (v : jsval) (s : Scenario) : Scenario :=
  {| description := description s; priority := priority s; type := type s;
     persona := persona s; steps := steps s; summary := v |}.

Definition fill_summary (deploymentUrl : jsstring) (s : Scenario) : Scenario :=
  with_summary
    (if summary_given (summary s) then summary s
     else JStr (summary_template deploymentUrl s))
    s.

Definition scenarios_of (env : Env) (parsedScenarios : list Scenario) : list Scenario :=
  let deploymentUrl := or_default (DEPLOYMENT_URL env) (str "the app") in
  map (fill_summary deploymentUrl) (cap_scenarios parsedScenarios).

(* ----------------------------------------------------------------- *)
(** *** uploadScenariosToDatabase *)

Fixpoint reduce {A B} (f : B -> A -> option B) (l : list A) (acc : B) : option B :=
  match l with
  | [] => Some acc
  | x :: l' =>
      match f acc x with
      | Some acc' => reduce f l' acc'
      | None => None
      end
  end.

Definition persona_key (scenario : Scenario) : jsstring :=
  or_default (persona scenario) (str "default").

(** The reducer: [groups[persona]] is an array once it was created, is
    [undefined] for a new ordinary label, and is an inherited member for a
    label that [Object.prototype] defines, on which [push] is not callable. *)
Definition group_step (groups : object (list Scenario)) (scenario : Scenario)
  : option (object (list Scenario)) :=
  let persona := persona_key scenario in
  match get groups persona with
  | Undefined => Some (set groups persona [scenario])
  | Own arr => Some (set groups persona (arr ++ [scenario]))
  | Inherited => None
  end.

Definition personaGroups (scenarios : list Scenario)
  : option (object (list Scenario)) :=
  reduce group_step scenarios [].

Definition limitedPersonas (groups : object (list Scenario)) : list jsstring :=
  slice0 4 (keys groups).

Definition uniqueScenarios (personaScenarios : list Scenario) : list Scenario :=
  Map_values (Map_new (map (fun s => (description s, s)) personaScenarios)).

Definition testRecord (sid : positive) (scenario : Scenario) : Tests.record :=
  {| Tests.suite_id := sid;
     Tests.name := description scenario;
     Tests.summary := summary scenario;
     Tests.test_success := None;
     Tests.run_status := RUNNING;
     Tests.steps := [] |}.

Definition testRecords (sid : positive) (personaScenarios : list Scenario)
  : list Tests.record :=
  map (testRecord sid) (uniqueScenarios personaScenarios).

Definition suiteRecord (rid : positive) (persona : jsstring) : Suites.record :=
  {| Suites.result_id := rid; Suites.name := persona +++ str " Agent Suite" |}.

(** The loop over [limitedPersonas]. *)
Fixpoint createSuites (F : Faults) (rid : positive)
    (groups : object (list Scenario)) (personas : list jsstring) (st : State)
  : State :=
  match personas with
  | [] => st
  | persona :: rest =>
      match get groups persona with
      | Own personaScenarios =>
          let r := suiteRecord rid persona in
          match insert_suite F r (db st) with
          | inl e =>
              createSuites F rid groups rest
                (log_error (FailedCreateSuite e) (call (InsertSuite r None) st))
          | inr (sid, db1) =>
              let st1 :=
                with_suiteIds (set (suiteIds st) persona sid)
                  (with_db db1 (call (InsertSuite r (Some sid)) st)) in
              let rs := testRecords sid personaScenarios in
              match upsert_tests F rs db1 with
              | inl e =>
                  createSuites F rid groups rest
                    (log_error (FailedCreateTests e) (call (UpsertTests rs false) st1))
              | inr db2 =>
                  createSuites F rid groups rest
                    (with_db db2 (call (UpsertTests rs true) st1))
              end
          end
      | _ => log_error (DatabaseUploadError TypeError) st
      end
  end.

Definition prData (st : State) : Results.record :=
  {| Results.pr_link := pr_link st;
     Results.pr_name := pr_name st;
     Results.overall_result := None;
     Results.run_status := RUNNING |}.

Definition uploadScenariosToDatabase (F : Faults) (scenarios : list Scenario)
    (st : State) : State :=
  match insert_result F (prData st) (db st) with
  | inl e =>
      log_error (FailedCreateResults e) (call (InsertResult (prData st) None) st)
  | inr (rid, db1) =>
      let st1 :=
        with_resultId rid (with_db db1 (call (InsertResult (prData st) (Some rid)) st)) in
      match personaGroups scenarios with
      | None => log_error (DatabaseUploadError TypeError) st1
      | Some groups =>
          createSuites F rid groups (limitedPersonas groups)
            (with_suiteIds [] st1)
      end
  end.

Definition analyzePR (env : Env) (F : Faults) (parsedScenarios : list Scenario)
    (st : State) : list Scenario * State :=
  let scenarios := scenarios_of env parsedScenarios in
  (scenarios, uploadScenariosToDatabase F scenarios st).

(* ----------------------------------------------------------------- *)
(** *** verifyFinalResults and the rollup of updateTestResults *)

Definition is_true (o : option bool) : bool :=
  match o with
  | Some true => true
  | _ => false
  end.

Definition passed_of (ts : list Tests.row) : list Tests.row :=
  filter (fun t => is_true (Tests.test_success (Tests.data t))) ts.

(** [result.suites?.reduce((acc, s) => acc + (s.tests?.length || 0), 0) || 0] *)
Definition totalTests (result : Hierarchy.run) : nat :=
  match Hierarchy.suites result with
  | Some ss =>
      fold_left
        (fun acc s =>
           acc + match Hierarchy.tests s with
                 | Some ts => List.length ts
                 | None => 0
                 end)
        ss 0
  | None => 0
  end.

Definition passedTests (result : Hierarchy.run) : nat :=
  match Hierarchy.suites result with
  | Some ss =>
      fold_left
        (fun acc s =>
           acc + match Hierarchy.tests s with
                 | Some ts => List.length (passed_of ts)
                 | None => 0
                 end)
        ss 0
  | None => 0
  end.

Definition overallSuccess (result : Hierarchy.run) : bool :=
  RunStatus_eqb (Results.run_status (Results.data (Hierarchy.run_row result))) PASSED
  || (Nat.eqb (passedTests result) (totalTests result)
      && Nat.ltb 0 (totalTests result)).

(** The value the function returns for what the read produced: the verdict
    for a run, [undefined] when there is no data, [false] when the read
    threw. *)
Inductive ReadResult :=
| Data (result : option Hierarchy.run)
| Thrown (message : jsstring).

Definition verdict (r : ReadResult) : jsval :=
  match r with
  | Data (Some result) => JBool (overallSuccess result)
  | Data None => JUndefined
  | Thrown _ => JBool false
  end.

Definition read (F : Faults) (st : State) : ReadResult :=
  match hierarchy_read F with
  | ReadThrows e => Thrown e
  | ReadNoData => Data None
  | ReadOk =>
      match resultId st with
      | Some rid => Data (read_hierarchy (db st) rid)
      | None => Data None
      end
  end.

Definition verifyFinalResults (F : Faults) (st : State) : jsval * State :=
  let st1 := call (ReadHierarchy (resultId st)) st in
  let r := read F st in
  (verdict r,
   match r with
   | Thrown e => log_error (FailedVerify e) st1
   | Data _ => st1
   end).

(** The run-level part of [updateTestResults]: from the tests selected for
    the run's suites, the update written to the run, if any. *)
Definition overallUpdate (allTests : option (list Tests.row))
  : option (RunStatus * Counts) :=
  let totalTests :=
    match allTests with Some ts => List.length ts | None => 0 end in
  let passedTests :=
    match allTests with Some ts => List.length (passed_of ts) | None => 0 end in
  let allTestsPassed := Nat.ltb 0 totalTests && Nat.eqb passedTests totalTests in
  if Nat.ltb 0 totalTests
  then Some (if allTestsPassed then PASSED else FAILED,
             {| passed := passedTests; failed := totalTests - passedTests;
                total := totalTests |})
  else None.

(* ----------------------------------------------------------------- *)
(** *** runTests *)

Definition env_set (v : option jsstring) : bool :=
  match v with
  | Some (_ :: _) => true
  | _ => false
  end.

(** [response.data?.status] *)
Definition status_of (data : option jsval) : jsval :=
  match data with
  | Some v => v
  | None => JUndefined
  end.

Definition is_success (v : jsval) : bool :=
  match v with
  | JStr s => eqb s (str "success")
  | _ => false
  end.

(** The body of the [try]: the value returned, or the error thrown.  The
    scenarios passed to [runTests] are only written to the agent's
    configuration files before the [try]; they play no part here. *)
Definition runTests_try (env : Env) (F : Faults) (agent : Agent) (st : State)
  : (Error + jsval) * State :=
  if negb (env_set (QAI_ENDPOINT env)) then (inl MissingEndpoint, st)
  else
    match resultId st with
    | None => (inl NoResultId, st)
    | Some rid =>
        let '(reply, db1) := agent rid (db st) in
        let st1 := with_db db1 (call (CallAgent rid) st) in
        match reply with
        | RequestFailed e => (inl (RequestError e), st1)
        | TimedOut => (inl Timeout, st1)
        | Responded data =>
            if is_success (status_of data)
            then let '(finalSuccess, st2) := verifyFinalResults F st1 in
                 (inr finalSuccess, st2)
            else (inl (NonSuccessStatus (status_of data)), st1)
        end
    end.

Definition runTests (env : Env) (F : Faults) (agent : Agent) (st : State)
  : jsval * State :=
  match runTests_try env F agent st with
  | (inr finalSuccess, st') => (finalSuccess, st')
  | (inl error, st') =>
      let st1 := log_error (QAIExecutionFailed error) st' in
      (JBool false,
       match resultId st1 with
       | Some rid =>
           with_db (update_run_status F rid FAILED (db st1))
                   (call (UpdateRunStatus rid FAILED) st1)
       | None => st1
       end)
  end.

(** The [full] action of [main]: analysis, then testing; the process exits
    with a failure unless the test phase returned a truthy value. *)
Definition full (env : Env) (F : Faults) (agent : Agent)
    (parsedScenarios : list Scenario) (st : State) : bool * State :=
  let '(_, st1) := analyzePR env F parsedScenarios st in
  let '(testSuccess, st2) := runTests env F agent st1 in
  (truthy testSuccess, st2).

(** A freshly constructed pipeline over a store. *)
Definition new_pipeline (link name : jsstring) (s : Store) : State :=
  {| pr_link := link; pr_name := name; resultId := None; suiteIds := [];
     db := s; console := []; calls := [] |}.

Definition empty_store : Store := {| results := []; suites := []; tests := [] |}.

(* ================================================================= *)
(** ** Vocabulary of the specification *)

(** The union of all tests under all suites of a snapshot. *)
Definition all_tests (result : Hierarchy.run) : list Tests.row :=
  match Hierarchy.suites result with
  | Some ss =>
      flat_map (fun s => match Hierarchy.tests s with
                         | Some ts => ts
                         | None => []
                         end) ss
  | None => []
  end.

Definition outcome (t : Tests.row) : option bool :=
  Tests.test_success (Tests.data t).

Definition stored_status (result : Hierarchy.run) : RunStatus :=
  Results.run_status (Results.data (Hierarchy.run_row result)).

(** A summary that is absent, not a string, or blank after trimming. *)
Definition blank_summary (v : jsval) : Prop :=
  match v with
  | JStr s => trim s = []
  | _ => True
  end.

(** The distinct elements of a list of labels, in order of first appearance. *)
Fixpoint first_appearance (l : list jsstring) : list jsstring :=
  match l with
  | [] => []
  | x :: l' => x :: filter (fun y => negb (eqb y x)) (first_appearance l')
  end.

(** A label that a plain object treats as an ordinary dictionary key. *)
Definition ordinary_label (k : jsstring) : Prop :=
  is_inherited k = false /\ is_array_index k = false.

(** A snapshot whose stored status is PASSED although its only test failed. *)
Definition passed_run_with_failed_test : Hierarchy.run :=
  let t := {| Tests.id := 1%positive;
              Tests.data := {| Tests.suite_id := 1%positive;
                               Tests.name := str "login";
                               Tests.summary := JStr (str "log in");
                               Tests.test_success := Some false;
                               Tests.run_status := FAILED;
                               Tests.steps := [] |} |} in
  let s := {| Suites.id := 1%positive;
              Suites.data := {| Suites.result_id := 1%positive;
                                Suites.name := str "admin Agent Suite" |} |} in
  let r := {| Results.id := 1%positive;
              Results.data := {| Results.pr_link := str "https://github.com/o/r/pull/7";
                                 Results.pr_name := str "PR #7";
                                 Results.overall_result := None;
                                 Results.run_status := PASSED |} |} in
  {| Hierarchy.run_row := r;
     Hierarchy.suites := Some [ {| Hierarchy.suite_row := s;
                                   Hierarchy.tests := Some [t] |} ] |}.

(** The last scenario of a group that has a given description. *)
Definition last_with (d : jsstring) (personaScenarios : list Scenario)
  : option Scenario :=
  find (fun s => eqb (description s) d) (rev personaScenarios).

(** The scenarios of a list that carry a given persona label. *)
Definition scenarios_with (k : jsstring) (scenarios : list Scenario)
  : list Scenario :=
  filter (fun s => eqb (persona_key s) k) scenarios.

(** Membership of a label in a list of labels. *)
Definition mem (k : jsstring) (l : list jsstring) : bool := existsb (eqb k) l.

(** The requests of one kind among the calls made, in order. *)
Definition suite_requests (ops : list Op) : list Suites.record :=
  flat_map (fun o => match o with InsertSuite r _ => [r] | _ => [] end) ops.

Definition test_batches (ops : list Op) : list (list Tests.record) :=
  flat_map (fun o => match o with UpsertTests rs _ => [rs] | _ => [] end) ops.

Definition agent_calls (ops : list Op) : list positive :=
  flat_map (fun o => match o with CallAgent rid => [rid] | _ => [] end) ops.

Definition hierarchy_reads (ops : list Op) : list (option positive) :=
  flat_map (fun o => match o with ReadHierarchy rid => [rid] | _ => [] end) ops.

Definition status_updates (ops : list Op) : list (positive * RunStatus) :=
  flat_map (fun o => match o with UpdateRunStatus rid st => [(rid, st)] | _ => [] end) ops.

(** The array stored for a persona, empty when there is none. *)
Definition group_of (groups : object (list Scenario)) (persona : jsstring)
  : list Scenario :=
  match own groups persona with
  | Some personaScenarios => personaScenarios
  | None => []
  end.

(** The suites the loop creates, given the ids in the table when it starts:
    every accepted insert is answered with the next fresh id. *)
Fixpoint created (F : Faults) (rid : positive) (personas : list jsstring)
    (ids : list positive) : list (jsstring * positive) :=
  match personas with
  | [] => []
  | p :: rest =>
      match suites_insert_error F (suiteRecord rid p) with
      | Some _ => created F rid rest ids
      | None =>
          let i := fresh_id ids in
          (p, i) :: created F rid rest (ids ++ [i])
      end
  end.

Definition suite_row (rid : positive) (c : jsstring * positive) : Suites.row :=
  {| Suites.id := snd c; Suites.data := suiteRecord rid (fst c) |}.

(** The batch submitted for a created suite, and the records of it that the
    store accepted. *)
Definition batch (groups : object (list Scenario)) (c : jsstring * positive)
  : list Tests.record :=
  testRecords (snd c) (group_of groups (fst c)).

Definition accepted_batch (F : Faults) (groups : object (list Scenario))
    (c : jsstring * positive) : list Tests.record :=
  match tests_upsert_error F (batch groups c) with
  | Some _ => []
  | None => batch groups c
  end.

(** Integrity of a store: test names are unique, every test belongs to a
    suite of the store and every suite to a run of the store. *)
Definition test_names (rows : list Tests.row) : list jsstring :=
  map (fun t => Tests.name (Tests.data t)) rows.

Record store_ok (s : Store) : Prop := {
  unique_names : NoDup (test_names (tests s));
  tests_in_suites :
    forall t, In t (tests s) ->
      In (Tests.suite_id (Tests.data t)) (map Suites.id (suites s));
  suites_in_results :
    forall x, In x (suites s) ->
      In (Suites.result_id (Suites.data x)) (map Results.id (results s))
}.

(** The number of tests the final read finds under a run. *)
Definition readback_total (s : Store) (rid : positive) : nat :=
  match read_hierarchy s rid with
  | Some result => totalTests result
  | None => 0
  end.

(** The tests table seen as a dictionary from name to row, and the row an
    upsert leaves for a record: the id of the row it overwrites, or a fresh
    one. *)
Definition by_name (rows : list Tests.row) : object Tests.row :=
  map (fun t => (Tests.name (Tests.data t), t)) rows.

Definition upserted (m : object Tests.row) (r : Tests.record) : Tests.row :=
  {| Tests.id :=
       match own m (Tests.name r) with
       | Some t => Tests.id t
       | None => fresh_id (map (fun e => Tests.id (snd e)) m)
       end;
     Tests.data := r |}.

(** What the loop over the personas does to a state: which rows it adds,
    which requests it makes and what it writes to the error console. *)
Definition suite_error (e : LogEntry) : Prop :=
  match e with
  | FailedCreateSuite _ | FailedCreateTests _ => True
  | _ => False
  end.

Definition loop_effect (F : Faults) (rid : positive)
    (groups : object (list Scenario)) (personas : list jsstring)
    (st st' : State) : Prop :=
  let C := created F rid personas (map Suites.id (suites (db st))) in
  results (db st') = results (db st)
  /\ suites (db st') = suites (db st) ++ map (suite_row rid) C
  /\ tests (db st') =
     upsert_rows (tests (db st)) (flat_map (accepted_batch F groups) C)
  /\ resultId st' = resultId st
  /\ (exists ops,
        calls st' = calls st ++ ops
        /\ suite_requests ops = map (suiteRecord rid) personas
        /\ test_batches ops = map (batch groups) C
        /\ agent_calls ops = []
        /\ hierarchy_reads ops = []
        /\ status_updates ops = [])
  /\ (exists errs,
        console st' = console st ++ errs
        /\ Forall suite_error errs
        /\ (forall p e, In p personas ->
              suites_insert_error F (suiteRecord rid p) = Some e ->
              In (FailedCreateSuite e) errs)).

(** Whether the store accepts the suite of a persona. *)
Definition suite_accepted (F : Faults) (rid : positive) (p : jsstring) : bool :=
  match suites_insert_error F (suiteRecord rid p) with
  | None => true
  | Some _ => false
  end.

(** Example inputs. *)
Definition scenario (d p : string) : Scenario :=
  {| description := str d; priority := str "high"; type := Some (str "e2e");
     persona := Some (str p); steps := []; summary := JStr (str "On the app") |}.

(** Five scenarios, five personas; the fifth label is an array index. *)
Definition five_personas : list Scenario :=
  [ scenario "d1" "admin"; scenario "d2" "guest"; scenario "d3" "editor";
    scenario "d4" "viewer"; scenario "d5" "2" ].

(** Five ordinary personas, with a duplicate description under the first. *)
Definition five_ordinary_personas : list Scenario :=
  [ scenario "d1" "admin"; scenario "d2" "guest"; scenario "d1" "admin";
    scenario "d3" "editor"; scenario "d4" "viewer"; scenario "d5" "auditor" ].

Definition pipeline0 : State :=
  new_pipeline (str "https://github.com/o/r/pull/7") (str "PR #7") empty_store.

(** A store that rejects the run record, and one that rejects the suite of
    the persona guest. *)
Definition rejecting_runs : Faults := {|
  results_insert_error := Some (str "permission denied for table results");
  suites_insert_error := fun _ => None;
  tests_upsert_error := fun _ => None;
  results_update_error := false;
  hierarchy_read := ReadOk
|}.

Definition rejecting_guest : Faults := {|
  results_insert_error := None;
  suites_insert_error :=
    fun r => if eqb (Suites.name r) (str "guest Agent Suite")
             then Some (str "violates row-level security policy")
             else None;
  tests_upsert_error := fun _ => None;
  results_update_error := false;
  hierarchy_read := ReadOk
|}.

(** An agent whose request times out, and an environment with the endpoint
    configured. *)
Definition timing_out_agent : Agent := fun _ s => (TimedOut, s).

Definition env0 : Env :=
  {| QAI_ENDPOINT := Some (str "https://qai.example"); DEPLOYMENT_URL := None |}.

(** The same description under two personas. *)
Definition colliding : list Scenario :=
  [ scenario "d3" "buyer"; scenario "d3" "seller" ].

Definition groups_of (scenarios : list Scenario) : object (list Scenario) :=
  match personaGroups scenarios with
  | Some groups => groups
  | None => []
  end.

(* ================================================================= *)
(** ** The rest of the pipeline class *)

(** *** Strings: split, join, negative slice, conversion to string *)

(** [s.split(c)] for a separator of one code unit. *)
Fixpoint js_split (sep : N) (s : jsstring) : list jsstring :=
  match s with
  | [] => [[]]
  | c :: s' =>
      if N.eqb c sep then [] :: js_split sep s'
      else match js_split sep s' with
           | l :: ls => (c :: l) :: ls
           | [] => [[c]]
           end
  end.

(** [a.join(sep)] *)
Fixpoint js_join (sep : jsstring) (a : list jsstring) : jsstring :=
  match a with
  | [] => []
  | x :: a' =>
      match a' with
      | [] => x
      | _ :: _ => x +++ sep +++ js_join sep a'
      end
  end.

(** [a.slice(-n)] for a positive [n]: the last [n] elements. *)
Definition slice_neg {A} (n : nat) (a : list A) : list A :=
  skipn (List.length a - n) a.

Definition nl : jsstring := [10%N].

Fixpoint uint_digits (d : Decimal.uint) : jsstring :=
  match d with
  | Decimal.Nil => []
  | Decimal.D0 d' => 48%N :: uint_digits d'
  | Decimal.D1 d' => 49%N :: uint_digits d'
  | Decimal.D2 d' => 50%N :: uint_digits d'
  | Decimal.D3 d' => 51%N :: uint_digits d'
  | Decimal.D4 d' => 52%N :: uint_digits d'
  | Decimal.D5 d' => 53%N :: uint_digits d'
  | Decimal.D6 d' => 54%N :: uint_digits d'
  | Decimal.D7 d' => 55%N :: uint_digits d'
  | Decimal.D8 d' => 56%N :: uint_digits d'
  | Decimal.D9 d' => 57%N :: uint_digits d'
  end.

(** The decimal digits of a natural number. *)
Definition decimal (n : N) : jsstring := uint_digits (N.to_uint n).

(** The integers that a number holds exactly and prints digit by digit. *)
Definition safe_integer (n : Z) : bool :=
  Z.leb (Z.abs n) 9007199254740991.

(** The string a template literal inserts for a value.  The text of a
    number outside the safe integers (rounded digits, exponent form) and of
    an object or array (its own [toString]) is not computed here: it is
    whatever [print] gives for the value. *)
Definition to_string (print : jsval -> jsstring) (v : jsval) : jsstring :=
  match v with
  | JUndefined => str "undefined"
  | JNull => str "null"
  | JBool true => str "true"
  | JBool false => str "false"
  | JNum n =>
      if safe_integer n
      then if Z.ltb n 0 then str "-" +++ decimal (Z.abs_N n)
           else decimal (Z.abs_N n)
      else print v
  | JStr s => s
  | JObj => print v
  end.

(** An optional string field inside a template literal. *)
Definition field_string (o : option jsstring) : jsstring :=
  match o with
  | Some s => s
  | None => str "undefined"
  end.

(* ----------------------------------------------------------------- *)
(** *** constructor and getPRNumber *)

(** The variables the constructor reads.  [client_rejected] stands for
    what [createClient] checks beyond the presence of its two arguments. *)
Record GitHubEnv := {
  GITHUB_EVENT_NUMBER : option jsstring;
  GITHUB_EVENT_PATH : option jsstring;
  GITHUB_REPOSITORY : option jsstring;
  SUPABASE_URL : option jsstring;
  SUPABASE_KEY : option jsstring;
  client_rejected : bool
}.

(** [createClient(process.env.SUPABASE_URL, process.env.SUPABASE_KEY)]
    returns a client ([true]) or throws: it requires both values. *)
Definition createClient (g : GitHubEnv) : bool :=
  env_set (SUPABASE_URL g) && env_set (SUPABASE_KEY g)
  && negb (client_rejected g).

(** [event_number] is the [number] member of the parsed event file, [None]
    when reading or parsing the file throws.  The result is [None] when the
    function throws. *)
Definition getPRNumber (g : GitHubEnv) (event_number : option jsval)
  : option jsval :=
  match GITHUB_EVENT_NUMBER g with
  | Some (c :: n) => Some (JStr (c :: n))
  | _ =>
      if env_set (GITHUB_EVENT_PATH g) then event_number else Some JNull
  end.

(** [process.env.GITHUB_REPOSITORY?.split('/') || []] *)
Definition repo (g : GitHubEnv) : list jsstring :=
  match GITHUB_REPOSITORY g with
  | Some r => js_split 47 r
  | None => []
  end.

(** The object after [new QAIPipeline()], with the two strings the upload
    derives from [repo] and [prNumber]; [None] when the constructor throws. *)
Definition construct (print : jsval -> jsstring) (g : GitHubEnv)
    (event_number : option jsval) (s : Store) : option State :=
  if createClient g
  then
    match getPRNumber g event_number with
    | Some prNumber =>
        Some (new_pipeline
                (str "https://github.com/" +++ js_join (str "/") (repo g)
                 +++ str "/pull/" +++ to_string print prNumber)
                (str "PR #" +++ to_string print prNumber)
                s)
    | None => None
    end
  else None.

(* ----------------------------------------------------------------- *)
(** *** createAgentFiles: test-cases.json *)

Record TestCase := {
  tc_id : jsstring;
  tc_name : jsstring;
  tc_description : jsstring;
  tc_priority : jsstring;
  tc_type : option jsstring;
  tc_steps : list jsstring
}.

(** [scenarios.map((scenario, index) => ...)], from a starting index. *)
Fixpoint testCases_from (index : nat) (scenarios : list Scenario) : list TestCase :=
  match scenarios with
  | [] => []
  | scenario :: rest =>
      {| tc_id := str "suite_" +++ decimal (N.of_nat (index + 1));
         tc_name := field_string (persona scenario) +++ str " - "
                    +++ field_string (type scenario) +++ str " testing";
         tc_description := description scenario;
         tc_priority := priority scenario;
         tc_type := type scenario;
         tc_steps := steps scenario |}
      :: testCases_from (S index) rest
  end.

Definition testCases (scenarios : list Scenario) : list TestCase :=
  testCases_from 0 scenarios.

(** The files the pipeline writes, and what a [saveFile] call stores: the
    fixed system prompt, the options (of which the deployment URL is
    recorded here), the test cases, the scenarios and the codebase summary. *)
Inductive File :=
| system_prompt_txt
| options_json
| test_cases_json
| test_scenarios_json
| codebase_summary_txt.

Inductive Saved :=
| SavedSystemPrompt
| SavedOptions (deployment_url : jsstring)
| SavedTestCases (suites : list TestCase)
| SavedScenarios (scenarios : list Scenario)
| SavedSummary (text : jsstring).

(** The three writes of [createAgentFiles], in order; the first that throws
    ends the function.  The result is the list of the files written and
    whether the function returned. *)
Definition createAgentFiles (env : Env) (write_throws : File -> bool)
    (scenarios : list Scenario) : list Saved * bool :=
  let options :=
    SavedOptions (or_default (DEPLOYMENT_URL env)
                             (str "https://staging.example.com")) in
  if write_throws system_prompt_txt then ([], false)
  else if write_throws options_json then ([SavedSystemPrompt], false)
  else if write_throws test_cases_json then ([SavedSystemPrompt; options], false)
  else ([SavedSystemPrompt; options; SavedTestCases (testCases scenarios)], true).

(* ----------------------------------------------------------------- *)
(** *** updateCodebaseSummary *)

(** The summary file: its text, or [None] when it does not exist. *)
Definition loadCodebaseSummary (file : option jsstring) : jsstring :=
  match file with
  | Some text => text
  | None => []
  end.

(** The entry appended; [now] is the ISO timestamp, and the second line
    starts with the same text as [pr_name], "PR #" followed by the number. *)
Definition summary_entry (now : jsstring) (st : State) : jsstring :=
  nl +++ str "=== " +++ now +++ str " ===" +++ nl
  +++ pr_name st +++ str " merged after QAI testing" +++ nl.

Definition updated_summary (now : jsstring) (st : State) (file : option jsstring)
  : jsstring :=
  let summary := loadCodebaseSummary file in
  let entry := summary_entry now st in
  js_join nl (slice_neg 500 (js_split 10 (summary +++ entry))).

(** The file afterwards; a write that throws is caught and leaves it. *)
Definition updateCodebaseSummary (write_throws : bool) (now : jsstring)
    (st : State) (file : option jsstring) : option jsstring :=
  if write_throws then file else Some (updated_summary now st file).

(* ----------------------------------------------------------------- *)
(** *** updateTestResults *)

(** A result reported for a scenario; [success] is any value,
    [JUndefined] when the member is absent. *)
Record TestResult := { success : jsval; scenario_of : Scenario }.

(** The answers of the store.  [cast_boolean] is the boolean that the
    column [test_success] holds after the store has accepted a value that is
    neither a boolean nor null. *)
Record UpdateFaults := {
  tests_update_error : TestResult -> option jsstring;
  cast_boolean : jsval -> bool;
  suites_select_null : bool;
  tests_select_null : bool;
  results_update_rejected : bool
}.

Definition no_update_faults (cast : jsval -> bool) : UpdateFaults := {|
  tests_update_error := fun _ => None;
  cast_boolean := cast;
  suites_select_null := false;
  tests_select_null := false;
  results_update_rejected := false
|}.

(** A row with a boolean outcome and the status that goes with it. *)
Definition set_outcome (b : bool) (t : Tests.row) : Tests.row :=
  {| Tests.id := Tests.id t;
     Tests.data :=
       {| Tests.suite_id := Tests.suite_id (Tests.data t);
          Tests.name := Tests.name (Tests.data t);
          Tests.summary := Tests.summary (Tests.data t);
          Tests.test_success := Some b;
          Tests.run_status := if b then PASSED else FAILED;
          Tests.steps := Tests.steps (Tests.data t) |} |}.

(** What an accepted [update({test_success: v, run_status})] leaves in the
    column [test_success]: an undefined member is not part of the request,
    so the column keeps its value; null clears it; a boolean is stored. *)
Definition written_success (U : UpdateFaults) (v : jsval) (old : option bool)
  : option bool :=
  match v with
  | JUndefined => old
  | JNull => None
  | JBool b => Some b
  | _ => Some (cast_boolean U v)
  end.

(** [update({test_success: result.success,
             run_status: result.success ? 'PASSED' : 'FAILED'})] on one row. *)
Definition set_result (U : UpdateFaults) (v : jsval) (t : Tests.row)
  : Tests.row :=
  {| Tests.id := Tests.id t;
     Tests.data :=
       {| Tests.suite_id := Tests.suite_id (Tests.data t);
          Tests.name := Tests.name (Tests.data t);
          Tests.summary := Tests.summary (Tests.data t);
          Tests.test_success :=
            written_success U v (Tests.test_success (Tests.data t));
          Tests.run_status := if truthy v then PASSED else FAILED;
          Tests.steps := Tests.steps (Tests.data t) |} |}.

(** The update of one result, on every row with [name] equal to the
    description; a rejected update is logged and changes nothing. *)
Definition update_test (U : UpdateFaults) (acc : list Tests.row * list jsstring)
    (result : TestResult) : list Tests.row * list jsstring :=
  match tests_update_error U result with
  | Some e => (fst acc, snd acc ++ [e])
  | None =>
      (map (fun t => if eqb (Tests.name (Tests.data t))
                            (description (scenario_of result))
                     then set_result U (success result) t else t)
           (fst acc),
       snd acc)
  end.

Definition set_overall (st : RunStatus) (c : Counts) (r : Results.row) : Results.row :=
  {| Results.id := Results.id r;
     Results.data :=
       {| Results.pr_link := Results.pr_link (Results.data r);
          Results.pr_name := Results.pr_name (Results.data r);
          Results.overall_result := Some c;
          Results.run_status := st |} |}.

(** The tests selected with [suite_id] in the ids of the run's suites. *)
Definition selected_tests (U : UpdateFaults) (resultId : option positive)
    (s : Store) : option (list Tests.row) :=
  let suites :=
    if suites_select_null U then None
    else match resultId with
         | Some rid => Some (suites_of s rid)
         | None => None
         end in
  let ids := match suites with
             | Some ss => map Suites.id ss
             | None => []
             end in
  if tests_select_null U then None
  else Some (filter (fun t => existsb (Pos.eqb (Tests.suite_id (Tests.data t))) ids)
                    (tests s)).

(** The store afterwards, with the messages of the rejected test updates. *)
Definition updateTestResults (U : UpdateFaults) (resultId : option positive)
    (results_ : list TestResult) (s : Store) : Store * list jsstring :=
  let '(rows, errors) := fold_left (update_test U) results_ (tests s, []) in
  let s1 := {| results := results s; suites := suites s; tests := rows |} in
  let s2 :=
    match overallUpdate (selected_tests U resultId s1), resultId with
    | Some (st, c), Some rid =>
        if results_update_rejected U then s1
        else {| results := map (fun r => if Pos.eqb (Results.id r) rid
                                         then set_overall st c r else r)
                               (results s1);
                suites := suites s1; tests := tests s1 |}
    | _, _ => s1
    end in
  (s2, errors).

(* ----------------------------------------------------------------- *)
(** *** main *)

Inductive Action := Analyze | Test | Update | Full.

(** [process.argv[2] || 'full'], and the branch of the [switch] taken. *)
Definition action_of (argv2 : option jsstring) : Action :=
  let action := or_default argv2 (str "full") in
  if eqb action (str "analyze") then Analyze
  else if eqb action (str "test") then Test
  else if eqb action (str "update") then Update
  else Full.

(** The two files the actions read: the codebase summary, and the
    scenarios saved by the analysis ([None]: missing or unreadable). *)
Record Files := {
  summary_file : option jsstring;
  scenarios_file : option (list Scenario)
}.

(** How the process ends: its exit code, the pipeline object, the two files
    afterwards, and the files written, in order. *)
Record Exit := {
  exit_code : nat;
  pipeline : option State;
  files : Files;
  saved : list Saved
}.

(** [analyzePR] with its write of test-scenarios.json, which comes before
    the upload; [None] when the method throws.  [generated] is what the
    calls to the source host and to the generator produce, [None] when one
    of them throws. *)
Definition analyzePR_saving (env : Env) (F : Faults) (write_throws : File -> bool)
    (generated : option (list Scenario)) (this : State)
  : option (list Scenario * State) :=
  match generated with
  | None => None
  | Some parsedScenarios =>
      if write_throws test_scenarios_json then None
      else Some (analyzePR env F parsedScenarios this)
  end.

(** [runTests] with the agent files, which it writes before its [try];
    [None] when the method throws. *)
Definition runTests_saving (env : Env) (F : Faults) (agent : Agent)
    (write_throws : File -> bool) (scenarios : list Scenario) (st : State)
  : option (jsval * State) * list Saved :=
  let '(written, returned) := createAgentFiles env write_throws scenarios in
  if returned then (Some (runTests env F agent st), written)
  else (None, written).

(** The write of [updateCodebaseSummary], when it does not throw. *)
Definition summary_saved (write_throws : File -> bool) (now : jsstring)
    (st : State) (file : option jsstring) : list Saved :=
  if write_throws codebase_summary_txt then []
  else [SavedSummary (updated_summary now st file)].

(** One run of the process.  [now] is the timestamp of the summary entry.
    An exception inside the [try] of [main] ends the process with code 1;
    so does one that escapes the constructor, which rejects the promise of
    [main] (a rejection nobody handles ends the process with code 1 since
    Node 15). *)
Definition main (print : jsval -> jsstring) (env : Env) (g : GitHubEnv)
    (event_number : option jsval) (F : Faults) (agent : Agent)
    (write_throws : File -> bool) (now : jsstring)
    (argv2 : option jsstring) (generated : option (list Scenario))
    (s : Store) (fs : Files) : Exit :=
  match construct print g event_number s with
  | None => {| exit_code := 1; pipeline := None; files := fs; saved := [] |}
  | Some this =>
      match action_of argv2 with
      | Analyze =>
          match analyzePR_saving env F write_throws generated this with
          | None =>
              {| exit_code := 1; pipeline := Some this; files := fs;
                 saved := [] |}
          | Some (scenarios, st1) =>
              {| exit_code := 0; pipeline := Some st1;
                 files := {| summary_file := summary_file fs;
                             scenarios_file := Some scenarios |};
                 saved := [SavedScenarios scenarios] |}
          end
      | Test =>
          match scenarios_file fs with
          | None =>
              {| exit_code := 1; pipeline := Some this; files := fs;
                 saved := [] |}
          | Some scenarios =>
              match runTests_saving env F agent write_throws scenarios this with
              | (None, written) =>
                  {| exit_code := 1; pipeline := Some this; files := fs;
                     saved := written |}
              | (Some (success, st1), written) =>
                  {| exit_code := if truthy success then 0 else 1;
                     pipeline := Some st1; files := fs; saved := written |}
              end
          end
      | Update =>
          {| exit_code := 0; pipeline := Some this;
             files := {| summary_file :=
                           updateCodebaseSummary
                             (write_throws codebase_summary_txt) now this
                             (summary_file fs);
                         scenarios_file := scenarios_file fs |};
             saved := summary_saved write_throws now this (summary_file fs) |}
      | Full =>
          match analyzePR_saving env F write_throws generated this with
          | None =>
              {| exit_code := 1; pipeline := Some this; files := fs;
                 saved := [] |}
          | Some (testScenarios, st1) =>
              let fs1 := {| summary_file := summary_file fs;
                            scenarios_file := Some testScenarios |} in
              match runTests_saving env F agent write_throws testScenarios st1 with
              | (None, written) =>
                  {| exit_code := 1; pipeline := Some st1; files := fs1;
                     saved := SavedScenarios testScenarios :: written |}
              | (Some (testSuccess, st2), written) =>
                  if truthy testSuccess
                  then
                    {| exit_code := 0; pipeline := Some st2;
                       files :=
                         {| summary_file :=
                              updateCodebaseSummary
                                (write_throws codebase_summary_txt) now st2
                                (summary_file fs);
                            scenarios_file := Some testScenarios |};
                       saved :=
                         SavedScenarios testScenarios :: written
                         ++ summary_saved write_throws now st2 (summary_file fs) |}
                  else
                    {| exit_code := 1; pipeline := Some st2; files := fs1;
                       saved := SavedScenarios testScenarios :: written |}
              end
          end
      end
  end.

(** Outcome and status of a test agree: null with RUNNING, true with PASSED,
    false with FAILED. *)
Definition consistent (t : Tests.row) : Prop :=
  Tests.run_status (Tests.data t) =
  match Tests.test_success (Tests.data t) with
  | None => RUNNING
  | Some true => PASSED
  | Some false => FAILED
  end.

(** The results whose update the store accepts, and the last of them
    reported for a description. *)
Definition update_accepted (U : UpdateFaults) (r : TestResult) : bool :=
  match tests_update_error U r with
  | None => true
  | Some _ => false
  end.

Definition last_result (U : UpdateFaults) (d : jsstring) (results_ : list TestResult)
  : option TestResult :=
  find (fun r => update_accepted U r && eqb d (description (scenario_of r)))
       (rev results_).

(** The last of them that carries a [success] member. *)
Definition is_undefined (v : jsval) : bool :=
  match v with
  | JUndefined => true
  | _ => false
  end.

Definition last_written (U : UpdateFaults) (d : jsstring)
    (results_ : list TestResult) : option TestResult :=
  find (fun r => update_accepted U r && eqb d (description (scenario_of r))
                 && negb (is_undefined (success r)))
       (rev results_).

(** What the accepted updates do to one row, one result after the other. *)
Definition apply_result (U : UpdateFaults) (t : Tests.row) (r : TestResult)
  : Tests.row :=
  if update_accepted U r
     && eqb (Tests.name (Tests.data t)) (description (scenario_of r))
  then set_result U (success r) t
  else t.

Definition apply_results (U : UpdateFaults) (results_ : list TestResult)
    (t : Tests.row) : Tests.row :=
  fold_left (apply_result U) results_ t.

(** A result with a boolean [success]. *)
Definition boolean_result (r : TestResult) : Prop :=
  exists b, success r = JBool b.

(** The tests that belong to the suites of a run. *)
Definition run_tests (s : Store) (rid : positive) : list Tests.row :=
  filter (fun t => existsb (Pos.eqb (Tests.suite_id (Tests.data t)))
                           (map Suites.id (suites_of s rid)))
         (tests s).

Definition all_passed (ts : list Tests.row) : bool :=
  forallb (fun t => is_true (outcome t)) ts.

(** A test that has not run: no outcome, status RUNNING, no steps. *)
Definition pending (t : Tests.row) : Prop :=
  Tests.test_success (Tests.data t) = None
  /\ Tests.run_status (Tests.data t) = RUNNING
  /\ Tests.steps (Tests.data t) = [].

(** A scenario whose persona names a member of Object.prototype. *)
Definition inherited_persona : list Scenario :=
  [ scenario "d1" "admin"; scenario "d2" "constructor" ].

(** Example inputs for the rest of the class: an agent that reports success
    after marking every test of the store as passed, one that reports
    success without writing, a store whose final read returns no data, an
    environment without endpoint, and the environment of a pull request
    number 7 of the repository o/r. *)
Definition passing_agent : Agent :=
  fun _ s =>
    (Responded (Some (JStr (str "success"))),
     {| results := results s; suites := suites s;
        tests := map (set_outcome true) (tests s) |}).

Definition idle_agent : Agent :=
  fun _ s => (Responded (Some (JStr (str "success"))), s).

Definition unreadable : Faults := {|
  results_insert_error := None;
  suites_insert_error := fun _ => None;
  tests_upsert_error := fun _ => None;
  results_update_error := false;
  hierarchy_read := ReadNoData
|}.

Definition env_without_endpoint : Env :=
  {| QAI_ENDPOINT := None; DEPLOYMENT_URL := None |}.

Definition github0 : GitHubEnv :=
  {| GITHUB_EVENT_NUMBER := Some (str "7"); GITHUB_EVENT_PATH := None;
     GITHUB_REPOSITORY := Some (str "o/r");
     SUPABASE_URL := Some (str "https://db.example");
     SUPABASE_KEY := Some (str "key");
     client_rejected := false |}.

(** A text for the values whose text is not computed, and a disk on which
    every write succeeds. *)
Definition object_text : jsval -> jsstring := fun _ => str "[object Object]".

Definition writable : File -> bool := fun _ => false.

Definition no_files : Files :=
  {| summary_file := None; scenarios_file := None |}.

Definition uploaded0 : State :=
  uploadScenariosToDatabase no_faults five_ordinary_personas pipeline0.

(* ================================================================= *)
(** ** The stand-alone test script

    The script that posts the saved scenarios to the agent and judges the
    array of results it gets back.  A result is an object whose [success]
    member is any value, [JUndefined] when absent. *)

Module TestScript.

Record Result := { success : jsval }.

(** [result.success === true] *)
Definition is_true (v : jsval) : bool :=
  match v with
  | JBool true => true
  | _ => false
  end.

(** [results.every(result => result.success === true)] *)
Definition allPassed (results : list Result) : bool :=
  forallb (fun result => is_true (success result)) results.

(** [results.filter(r => !r.success)] *)
Definition failedTests (results : list Result) : list Result :=
  filter (fun r => negb (truthy (success r))) results.

Record Summary := { total : nat; passed : nat; failed : nat }.

Definition summary (results : list Result) : Summary :=
  {| total := List.length results;
     passed := List.length (filter (fun r => truthy (success r)) results);
     failed := List.length (filter (fun r => negb (truthy (success r))) results) |}.

End TestScript.

(* ================================================================= *)
(** ** The stand-alone summary script

    The script that appends an entry for the merged pull request to the
    codebase summary and cuts the summary down when it has grown. *)

Module SummaryScript.

(** [s.startsWith(sep)] *)
Fixpoint starts_with (sep s : jsstring) : bool :=
  match sep, s with
  | [], _ => true
  | a :: sep', b :: s' => N.eqb a b && starts_with sep' s'
  | _ :: _, [] => false
  end.

(** [s.split(sep)] for a non-empty separator: the occurrences are found from
    left to right and do not overlap; [skip] counts the code units of the
    occurrence just found that are still to be passed. *)
Fixpoint split_from (sep : jsstring) (skip : nat) (s : jsstring)
  : list jsstring :=
  match s with
  | [] => [[]]
  | c :: s' =>
      match skip with
      | S k => split_from sep k s'
      | O =>
          if starts_with sep s
          then [] :: split_from sep (List.length sep - 1) s'
          else match split_from sep 0 s' with
               | p :: ps => (c :: p) :: ps
               | [] => [[c]]
               end
      end
  end.

Definition split (sep s : jsstring) : list jsstring := split_from sep 0 s.

Definition marker : jsstring := str "=== UPDATE ".

(** The template of the entry; [body] is [pr.body], which may be null. *)
Definition updateEntry (print : jsval -> jsstring) (timestamp : jsstring)
    (prNumber : jsval) (title : jsstring) (body : option jsstring) : jsstring :=
  nl +++ str "=== UPDATE " +++ timestamp +++ str " ===" +++ nl
  +++ str "PR #" +++ to_string print prNumber +++ str ": " +++ title +++ nl
  +++ or_default body (str "No description provided") +++ nl
  +++ nl
  +++ str "Changes merged successfully after QAI testing." +++ nl.

(** [(updatedSummary.match(/=== UPDATE/g) || []).length] *)
Definition updateCount (updatedSummary : jsstring) : nat :=
  List.length (split (str "=== UPDATE") updatedSummary) - 1.

(** [sections.map((section, index) => index === 0 ? section : marker + section)] *)
Fixpoint with_markers (index : nat) (sections : list jsstring)
  : list jsstring :=
  match sections with
  | [] => []
  | section :: rest =>
      (if Nat.eqb index 0 then section else marker +++ section)
      :: with_markers (S index) rest
  end.

Definition too_long (updatedSummary : jsstring) : bool :=
  Nat.ltb 50 (updateCount updatedSummary)
  || N.ltb 10000 (N.of_nat (List.length updatedSummary)).

Definition finalSummary (existingSummary updateEntry : jsstring) : jsstring :=
  let updatedSummary := existingSummary +++ updateEntry in
  if too_long updatedSummary
  then
    let updateSections := slice_neg 25 (split marker updatedSummary) in
    List.concat (with_markers 0 updateSections)
  else updatedSummary.

(** A summary of sixty entries. *)
Definition sixty_updates : jsstring :=
  List.concat (repeat (str "=== UPDATE 2026 ===") 60).

End SummaryScript.

(** Example inputs for the within-group deduplication: a group with two
    scenarios of one description and different summaries; a description
    shared by a later persona; and a description shared with a fifth
    persona. *)
Definition duplicate_in_group : list Scenario :=
  [ with_summary (JStr (str "first draft")) (scenario "d1" "admin");
    scenario "d2" "guest";
    with_summary (JStr (str "second draft")) (scenario "d1" "admin") ].

Definition shared_description : list Scenario :=
  [ scenario "d3" "buyer"; scenario "d3" "buyer"; scenario "d3" "seller" ].

Definition beyond_the_cap : list Scenario :=
  [ scenario "d1" "admin"; scenario "d2" "guest"; scenario "d3" "editor";
    scenario "d4" "viewer"; scenario "d1" "auditor" ].

(* ================================================================= *)
(** ** Strings *)

Lemma eqb_refl (a : jsstring) : eqb a a = true.
Proof.
  induction a as [|x a IH]; simpl; [reflexivity|].
  now rewrite N.eqb_refl, IH.
Qed.

Lemma eqb_eq (a b : jsstring) : eqb a b = true <-> a = b.
Proof.
  split.
  - revert b. induction a as [|x a IH]; intros [|y b] H; simpl in H;
      try discriminate; [reflexivity|].
    apply andb_true_iff in H. destruct H as [Hx Hab].
    apply N.eqb_eq in Hx. apply IH in Hab. now subst.
  - intros ->. apply eqb_refl.
Qed.

Lemma eqb_neq (a b : jsstring) : eqb a b = false <-> a <> b.
Proof.
  rewrite <- eqb_eq. destruct (eqb a b); split; congruence.
Qed.

Lemma eqb_sym (a b : jsstring) : eqb a b = eqb b a.
Proof.
  destruct (eqb a b) eqn:E.
  - apply eqb_eq in E. subst. symmetry. apply eqb_refl.
  - destruct (eqb b a) eqn:E'; [|reflexivity].
    apply eqb_eq in E'. subst. now rewrite eqb_refl in E.
Qed.

Lemma jsstring_eq_dec (a b : jsstring) : {a = b} + {a <> b}.
Proof.
  destruct (eqb a b) eqn:E.
  - left. now apply eqb_eq.
  - right. now apply eqb_neq.
Defined.

Ltac eqb_cases k k' :=
  let E := fresh "E" in
  destruct (eqb k k') eqn:E;
  [apply eqb_eq in E; try subst | apply eqb_neq in E].

(* ================================================================= *)
(** ** Rollup *)

Section Rollup.

Variable A : Type.

Lemma fold_left_add_length (f : A -> nat) (l : list A) (n : nat) :
  fold_left (fun acc s => acc + f s) l n = n + list_sum (map f l).
Proof.
  revert n. induction l as [|x l IH]; intros n; simpl.
  - lia.
  - rewrite IH. lia.
Qed.

Lemma length_flat_map (B : Type) (g : A -> list B) (l : list A) :
  List.length (flat_map g l) = list_sum (map (fun x => List.length (g x)) l).
Proof.
  induction l as [|x l IH]; simpl; [reflexivity|].
  now rewrite length_app, IH.
Qed.

Lemma filter_flat_map (B : Type) (p : B -> bool) (g : A -> list B) (l : list A) :
  filter p (flat_map g l) = flat_map (fun x => filter p (g x)) l.
Proof.
  induction l as [|x l IH]; simpl; [reflexivity|].
  now rewrite filter_app, IH.
Qed.

Lemma filter_length_le (p : A -> bool) (l : list A) :
  List.length (filter p l) <= List.length l.
Proof.
  induction l as [|x l IH]; simpl; [lia|].
  destruct (p x); simpl; lia.
Qed.

Lemma filter_length_all (p : A -> bool) (l : list A) :
  List.length (filter p l) = List.length l <-> Forall (fun x => p x = true) l.
Proof.
  induction l as [|x l IH]; simpl.
  - split; [constructor | reflexivity].
  - pose proof (filter_length_le p l) as Hle.
    destruct (p x) eqn:Hp; simpl.
    + split.
      * intros H. constructor; [assumption|]. apply IH. lia.
      * intros H. inversion H; subst. f_equal. now apply IH.
    + split.
      * intros H. lia.
      * intros H. inversion H; subst. congruence.
Qed.

End Rollup.

Lemma is_true_iff (o : option bool) : is_true o = true <-> o = Some true.
Proof.
  destruct o as [[|]|]; simpl; split; congruence.
Qed.

Lemma totalTests_all_tests (result : Hierarchy.run) :
  totalTests result = List.length (all_tests result).
Proof.
  unfold totalTests, all_tests.
  destruct (Hierarchy.suites result) as [ss|]; [|reflexivity].
  rewrite fold_left_add_length, length_flat_map. simpl.
  f_equal. apply map_ext. intros s. now destruct (Hierarchy.tests s).
Qed.

Lemma passedTests_all_tests (result : Hierarchy.run) :
  passedTests result = List.length (passed_of (all_tests result)).
Proof.
  unfold passedTests, all_tests, passed_of.
  destruct (Hierarchy.suites result) as [ss|]; [|reflexivity].
  rewrite fold_left_add_length, filter_flat_map, length_flat_map. simpl.
  f_equal. apply map_ext. intros s. now destruct (Hierarchy.tests s).
Qed.

Lemma all_passed_iff (ts : list Tests.row) :
  List.length (passed_of ts) = List.length ts
  <-> Forall (fun t => outcome t = Some true) ts.
Proof.
  unfold passed_of. rewrite filter_length_all.
  split; intros H; eapply Forall_impl; try exact H;
    intros t Ht; now apply is_true_iff.
Qed.

Lemma overallSuccess_iff (result : Hierarchy.run) :
  overallSuccess result = true <->
  stored_status result = PASSED
  \/ (0 < List.length (all_tests result)
      /\ Forall (fun t => outcome t = Some true) (all_tests result)).
Proof.
  unfold overallSuccess, stored_status.
  rewrite passedTests_all_tests, totalTests_all_tests.
  rewrite orb_true_iff, andb_true_iff, Nat.eqb_eq, Nat.ltb_lt, all_passed_iff.
  split; intros [H|H]; try (right; tauto); left.
  - destruct (Results.run_status _); simpl in H; congruence.
  - now rewrite H.
Qed.

(** C1, as stated, fails: a snapshot whose stored status is already PASSED
    is reported as passed although its only test has outcome false. *)
Lemma C1_stored_status_overrides :
  verdict (Data (Some passed_run_with_failed_test)) = JBool true
  /\ ~ (0 < List.length (all_tests passed_run_with_failed_test)
        /\ Forall (fun t => outcome t = Some true)
                  (all_tests passed_run_with_failed_test)).
Proof.
  split; [reflexivity|].
  intros [_ H]. simpl in H. inversion H as [|t l Ht _]; subst.
  discriminate Ht.
Qed.

(** C1, amended: the verdict computed from a snapshot is a pass exactly when
    the run's stored status is already PASSED, or the number of tests under
    all suites is positive and every outcome is exactly true.  The totals are
    counts over the union of the tests; a null outcome is not a pass; with no
    test at all the verdict is a pass only through the stored status.  The
    rollup that writes the run computes PASSED exactly when there is a test
    and all outcomes are true, with passed + failed = total, and writes
    nothing when there is no test. *)
Theorem C1_verdict_rollup (result : Hierarchy.run) :
  totalTests result = List.length (all_tests result)
  /\ passedTests result = List.length (passed_of (all_tests result))
  /\ (verdict (Data (Some result)) = JBool true <->
      stored_status result = PASSED
      \/ (0 < List.length (all_tests result)
          /\ Forall (fun t => outcome t = Some true) (all_tests result)))
  /\ (stored_status result <> PASSED ->
      Exists (fun t => outcome t = None) (all_tests result) ->
      verdict (Data (Some result)) = JBool false)
  /\ (stored_status result <> PASSED -> all_tests result = [] ->
      verdict (Data (Some result)) = JBool false)
  /\ (forall ts,
        overallUpdate (Some ts) =
        match ts with
        | [] => None
        | _ :: _ =>
            Some (if List.length (passed_of ts) =? List.length ts
                  then PASSED else FAILED,
                  {| passed := List.length (passed_of ts);
                     failed := List.length ts - List.length (passed_of ts);
                     total := List.length ts |})
        end).
Proof.
  pose proof (overallSuccess_iff result) as Hiff.
  assert (Hfalse : ~ (stored_status result = PASSED
                      \/ (0 < List.length (all_tests result)
                          /\ Forall (fun t => outcome t = Some true)
                                    (all_tests result)))
                   -> verdict (Data (Some result)) = JBool false).
  { intros Hn. simpl. destruct (overallSuccess result); [|reflexivity].
    exfalso. apply Hn, Hiff. reflexivity. }
  repeat split.
  - apply totalTests_all_tests.
  - apply passedTests_all_tests.
  - simpl. intros H. apply Hiff. congruence.
  - simpl. intros H. apply Hiff in H. now rewrite H.
  - intros Hs Hex. apply Hfalse. intros [H|[_ H]]; [contradiction|].
    apply Exists_exists in Hex. destruct Hex as [t [Hin Ht]].
    rewrite Forall_forall in H. specialize (H t Hin). congruence.
  - intros Hs Hnil. apply Hfalse. intros [H|[H _]]; [contradiction|].
    rewrite Hnil in H. simpl in H. lia.
  - intros [|t ts]; [reflexivity|].
    unfold overallUpdate. simpl Nat.ltb. cbv iota. simpl andb.
    reflexivity.
Qed.

(* ================================================================= *)
(** ** Dictionaries: plain objects and [Map] *)

Lemma mem_In (k : jsstring) (l : list jsstring) : mem k l = true <-> In k l.
Proof.
  unfold mem. rewrite existsb_exists. split.
  - intros [x [Hin Hx]]. apply eqb_eq in Hx. now subst.
  - intros H. exists k. split; [assumption | apply eqb_refl].
Qed.

Lemma mem_not_In (k : jsstring) (l : list jsstring) : mem k l = false <-> ~ In k l.
Proof.
  rewrite <- mem_In. destruct (mem k l); split; congruence.
Qed.

Lemma mem_app (k : jsstring) (l1 l2 : list jsstring) :
  mem k (l1 ++ l2) = mem k l1 || mem k l2.
Proof. unfold mem. apply existsb_app. Qed.

Lemma find_snoc (A : Type) (p : A -> bool) (l : list A) (e : A) :
  find p (l ++ [e]) =
  match find p l with
  | Some x => Some x
  | None => if p e then Some e else None
  end.
Proof.
  induction l as [|x l IH]; simpl; [reflexivity|].
  destruct (p x); [reflexivity | exact IH].
Qed.

Lemma filter_filter (A : Type) (p q : A -> bool) (l : list A) :
  filter p (filter q l) = filter (fun x => q x && p x) l.
Proof.
  induction l as [|x l IH]; simpl; [reflexivity|].
  destruct (q x); simpl; [destruct (p x)|]; now rewrite IH.
Qed.

Lemma filter_all (A : Type) (p : A -> bool) (l : list A) :
  (forall x, In x l -> p x = true) -> filter p l = l.
Proof.
  induction l as [|x l IH]; intros H; simpl; [reflexivity|].
  rewrite (H x (or_introl eq_refl)). f_equal. apply IH.
  intros y Hy. apply H. now right.
Qed.

Lemma filter_none (A : Type) (p : A -> bool) (l : list A) :
  (forall x, In x l -> p x = false) -> filter p l = [].
Proof.
  induction l as [|x l IH]; intros H; simpl; [reflexivity|].
  rewrite (H x (or_introl eq_refl)). apply IH.
  intros y Hy. apply H. now right.
Qed.

Section Dictionary.

Variable V : Type.

Lemma Map_set_set (m : Map V) k v : Map_set m k v = set m k v.
Proof.
  induction m as [|[k' v'] m IH]; simpl; [reflexivity|].
  now rewrite IH.
Qed.

Lemma set_keys (o : object V) k v :
  map fst (set o k v) = map fst o ++ (if mem k (map fst o) then [] else [k]).
Proof.
  induction o as [|[k' v'] o IH]; simpl; [reflexivity|].
  eqb_cases k k'; simpl.
  - now rewrite app_nil_r.
  - now rewrite IH.
Qed.

Lemma own_set (o : object V) k v k' :
  own (set o k v) k' = if eqb k' k then Some v else own o k'.
Proof.
  induction o as [|[k0 v0] o IH]; simpl.
  - reflexivity.
  - eqb_cases k k0; simpl.
    + destruct (eqb k' k0); reflexivity.
    + rewrite IH. eqb_cases k' k0; [|reflexivity].
      rewrite (proj2 (eqb_neq k0 k)); [reflexivity | congruence].
Qed.

Lemma own_None (o : object V) k : own o k = None <-> mem k (map fst o) = false.
Proof.
  induction o as [|[k' v'] o IH]; simpl; [tauto|].
  destruct (eqb k k'); simpl; [split; discriminate | exact IH].
Qed.

Lemma own_Some_In (o : object V) k v : own o k = Some v -> In (k, v) o.
Proof.
  induction o as [|[k' v'] o IH]; simpl; [discriminate|].
  eqb_cases k k'.
  - intros H. injection H as ->. now left.
  - intros H. right. now apply IH.
Qed.

Lemma In_own (o : object V) k v :
  NoDup (map fst o) -> In (k, v) o -> own o k = Some v.
Proof.
  induction o as [|[k' v'] o IH]; simpl; intros Hnd Hin; [contradiction|].
  inversion Hnd as [|? ? Hnotin Hnd']; subst.
  destruct Hin as [Heq|Hin].
  - injection Heq as -> ->. now rewrite eqb_refl.
  - eqb_cases k k'.
    + exfalso. apply Hnotin. now apply (in_map fst) in Hin.
    + now apply IH.
Qed.

Lemma In_keys_own (o : object V) k :
  In k (map fst o) -> exists v, own o k = Some v.
Proof.
  intros H. destruct (own o k) as [v|] eqn:E; [now exists v|].
  apply own_None in E. apply mem_not_In in E. contradiction.
Qed.

End Dictionary.

Lemma first_appearance_In (l : list jsstring) x :
  In x (first_appearance l) <-> In x l.
Proof.
  induction l as [|y l IH]; simpl; [tauto|].
  rewrite filter_In, IH. split.
  - intros [H|[H _]]; auto.
  - intros [H|H]; [now left|].
    destruct (jsstring_eq_dec y x) as [->|Hne]; [now left|].
    right. split; [assumption|].
    apply negb_true_iff, eqb_neq. congruence.
Qed.

Lemma first_appearance_NoDup (l : list jsstring) : NoDup (first_appearance l).
Proof.
  induction l as [|y l IH]; simpl; constructor.
  - rewrite filter_In. intros [_ H]. now rewrite eqb_refl in H.
  - now apply NoDup_filter.
Qed.

(** Folding [set] over a list of items, each with a key and a value that may
    depend on the dictionary so far. *)
Section Fold.

Variables (A V W : Type).
Variable key : A -> jsstring.
Variable val : object V -> A -> V.
Variable proj : V -> W.
Variable w : A -> W.
Hypothesis proj_val : forall m a, proj (val m a) = w a.

Lemma fold_keys (l : list A) (m : object V) :
  map fst (fold_left (fun m a => set m (key a) (val m a)) l m) =
  map fst m
  ++ filter (fun y => negb (mem y (map fst m))) (first_appearance (map key l)).
Proof.
  revert m. induction l as [|x l IH]; intros m; simpl.
  - now rewrite app_nil_r.
  - rewrite IH, set_keys. cbn [filter].
    destruct (mem (key x) (map fst m)) eqn:Hx.
    + rewrite app_nil_r. cbn [negb]. f_equal.
      rewrite filter_filter. apply filter_ext. intros y.
      eqb_cases y (key x); simpl; [now rewrite Hx | reflexivity].
    + rewrite <- app_assoc. cbn [negb app]. do 2 f_equal.
      rewrite filter_filter. apply filter_ext. intros y.
      rewrite mem_app. simpl. rewrite orb_false_r, negb_orb.
      apply andb_comm.
Qed.

Lemma fold_own (l : list A) (m : object V) k :
  option_map proj (own (fold_left (fun m a => set m (key a) (val m a)) l m) k) =
  match find (fun a => eqb (key a) k) (rev l) with
  | Some a => Some (w a)
  | None => option_map proj (own m k)
  end.
Proof.
  revert m. induction l as [|x l IH]; intros m; simpl; [reflexivity|].
  rewrite IH, find_snoc.
  destruct (find _ (rev l)); [reflexivity|].
  rewrite own_set. rewrite (eqb_sym k (key x)).
  destruct (eqb (key x) k); simpl; [now rewrite proj_val | reflexivity].
Qed.

Lemma fold_own_other (l : list A) (m : object V) k :
  ~ In k (map key l) ->
  own (fold_left (fun m a => set m (key a) (val m a)) l m) k = own m k.
Proof.
  revert m. induction l as [|x l IH]; intros m Hk; simpl; [reflexivity|].
  simpl in Hk. rewrite IH by tauto. rewrite own_set.
  rewrite (proj2 (eqb_neq k (key x))); [reflexivity|].
  intros ->. tauto.
Qed.

End Fold.

Lemma find_map (A B : Type) (g : A -> B) (p : B -> bool) (l : list A) :
  find p (map g l) = option_map g (find (fun x => p (g x)) l).
Proof.
  induction l as [|x l IH]; simpl; [reflexivity|].
  destruct (p (g x)); [reflexivity | exact IH].
Qed.

Lemma NoDup_count_one (A : Type) (f : A -> jsstring) (l : list A) d :
  NoDup (map f l) -> In d (map f l) ->
  List.length (filter (fun x => eqb (f x) d) l) = 1.
Proof.
  induction l as [|x l IH]; simpl; intros Hnd Hin; [contradiction|].
  inversion Hnd as [|? ? Hnotin Hnd']; subst.
  eqb_cases (f x) d.
  - simpl. f_equal. rewrite filter_none; [reflexivity|].
    intros y Hy. apply eqb_neq. intros Heq. apply Hnotin.
    rewrite <- Heq. now apply in_map.
  - apply IH; [assumption|]. destruct Hin; [contradiction | assumption].
Qed.

(* ================================================================= *)
(** ** Deduplication by description *)

Lemma Map_new_fold (V : Type) (es : list (jsstring * V)) :
  Map_new es = fold_left (fun m e => set m (fst e) (snd e)) es [].
Proof.
  unfold Map_new. generalize (@nil (jsstring * V)) as m.
  induction es as [|e es IH]; intros m; simpl; [reflexivity|].
  now rewrite IH, Map_set_set.
Qed.

Lemma dedup_keys (ps : list Scenario) :
  map fst (Map_new (map (fun s => (description s, s)) ps)) =
  first_appearance (map description ps).
Proof.
  rewrite Map_new_fold.
  rewrite (fold_keys (@fst jsstring Scenario) (fun _ e => snd e)).
  simpl. rewrite map_map. simpl. apply filter_all. reflexivity.
Qed.

Lemma dedup_own (ps : list Scenario) d :
  own (Map_new (map (fun s => (description s, s)) ps)) d = last_with d ps.
Proof.
  rewrite Map_new_fold.
  pose proof (@fold_own (jsstring * Scenario) Scenario Scenario fst
                (fun _ e => snd e) (fun v => v) snd (fun _ _ => eq_refl)
                (map (fun s => (description s, s)) ps) [] d) as H.
  simpl in H. rewrite <- map_rev, find_map in H. simpl in H.
  unfold last_with.
  destruct (own _ d); destruct (find _ (rev ps)); simpl in H; congruence.
Qed.

Lemma last_with_Some (ps : list Scenario) d s :
  last_with d ps = Some s -> In s ps /\ description s = d.
Proof.
  unfold last_with. intros H. apply find_some in H. destruct H as [Hin Hd].
  split; [now apply in_rev | now apply eqb_eq].
Qed.

Lemma last_with_In (ps : list Scenario) s :
  In s ps -> exists s', last_with (description s) ps = Some s'.
Proof.
  unfold last_with. intros Hin.
  destruct (find _ (rev ps)) as [s'|] eqn:E; [now exists s'|].
  apply in_rev in Hin. pose proof (find_none _ _ E s Hin) as Hn.
  simpl in Hn. now rewrite eqb_refl in Hn.
Qed.

Lemma uniqueScenarios_In (ps : list Scenario) s :
  In s (uniqueScenarios ps) <-> last_with (description s) ps = Some s.
Proof.
  unfold uniqueScenarios, Map_values.
  pose proof (dedup_keys ps) as Hk.
  pose proof (first_appearance_NoDup (map description ps)) as Hnd.
  rewrite <- Hk in Hnd. split.
  - intros H. apply in_map_iff in H. destruct H as [[k v] [Hv Hin]].
    simpl in Hv. subst v. apply In_own in Hin; [|assumption].
    rewrite dedup_own in Hin. pose proof (last_with_Some _ _ Hin) as [_ Hd].
    now rewrite Hd.
  - intros H. rewrite <- dedup_own in H. apply own_Some_In in H.
    now apply (in_map snd) in H.
Qed.

Lemma uniqueScenarios_descriptions (ps : list Scenario) :
  map description (uniqueScenarios ps) = first_appearance (map description ps).
Proof.
  rewrite <- dedup_keys. unfold uniqueScenarios, Map_values.
  rewrite map_map. apply map_ext_in. intros [k v] Hin. simpl.
  assert (Hu : In v (uniqueScenarios ps)).
  { unfold uniqueScenarios, Map_values. now apply (in_map snd) in Hin. }
  pose proof (dedup_keys ps) as Hk.
  pose proof (first_appearance_NoDup (map description ps)) as Hnd.
  rewrite <- Hk in Hnd. apply In_own in Hin; [|assumption].
  rewrite dedup_own in Hin. now apply last_with_Some in Hin.
Qed.

Lemma testRecords_names (sid : positive) (ps : list Scenario) :
  map Tests.name (testRecords sid ps) = first_appearance (map description ps).
Proof.
  unfold testRecords. rewrite map_map. simpl.
  apply uniqueScenarios_descriptions.
Qed.

Lemma testRecords_In (sid : positive) (ps : list Scenario) r :
  In r (testRecords sid ps) <->
  exists s, last_with (Tests.name r) ps = Some s /\ r = testRecord sid s.
Proof.
  unfold testRecords. rewrite in_map_iff. split.
  - intros [s [Hr Hin]]. exists s. subst r. simpl.
    split; [now apply uniqueScenarios_In | reflexivity].
  - intros [s [Hl Hr]]. exists s. split; [now symmetry|].
    apply uniqueScenarios_In. subst r. exact Hl.
Qed.

(* ================================================================= *)
(** ** Upsert on the name *)

Lemma by_name_keys (rows : list Tests.row) : map fst (by_name rows) = test_names rows.
Proof. unfold by_name, test_names. now rewrite map_map. Qed.

Lemma by_name_rows (rows : list Tests.row) : map snd (by_name rows) = rows.
Proof. unfold by_name. rewrite map_map. simpl. apply map_id. Qed.

Lemma by_name_own (rows : list Tests.row) k t :
  own (by_name rows) k = Some t -> In t rows /\ Tests.name (Tests.data t) = k.
Proof.
  intros H. apply own_Some_In in H. unfold by_name in H.
  apply in_map_iff in H. destruct H as [t' [Heq Hin]].
  injection Heq as <- ->. tauto.
Qed.

Lemma by_name_In (rows : list Tests.row) t :
  NoDup (test_names rows) -> In t rows ->
  own (by_name rows) (Tests.name (Tests.data t)) = Some t.
Proof.
  intros Hnd Hin. apply In_own.
  - now rewrite by_name_keys.
  - unfold by_name. apply in_map_iff. now exists t.
Qed.

Lemma by_name_upsert_at (i : positive) (r : Tests.record) (rows : list Tests.row) :
  by_name (upsert_at i r rows) =
  set (by_name rows) (Tests.name r)
      {| Tests.id := match own (by_name rows) (Tests.name r) with
                     | Some t => Tests.id t
                     | None => i
                     end;
         Tests.data := r |}.
Proof.
  induction rows as [|x rows IH]; simpl; [reflexivity|].
  rewrite (eqb_sym (Tests.name (Tests.data x)) (Tests.name r)).
  destruct (eqb (Tests.name r) (Tests.name (Tests.data x))); simpl.
  - reflexivity.
  - now rewrite IH.
Qed.

Lemma by_name_upsert_rows (rs : list Tests.record) (rows : list Tests.row) :
  by_name (upsert_rows rows rs) =
  fold_left (fun m r => set m (Tests.name r) (upserted m r)) rs (by_name rows).
Proof.
  unfold upsert_rows. revert rows.
  induction rs as [|r rs IH]; intros rows; simpl; [reflexivity|].
  rewrite IH. f_equal. unfold upsert_row. rewrite by_name_upsert_at.
  unfold upserted. f_equal. f_equal.
  destruct (own (by_name rows) (Tests.name r)); [reflexivity|].
  f_equal. unfold by_name. now rewrite map_map.
Qed.

Lemma upsert_rows_names (rs : list Tests.record) (rows : list Tests.row) :
  test_names (upsert_rows rows rs) =
  test_names rows
  ++ filter (fun y => negb (mem y (test_names rows)))
            (first_appearance (map Tests.name rs)).
Proof.
  rewrite <- !by_name_keys, by_name_upsert_rows.
  apply (fold_keys Tests.name upserted).
Qed.

Lemma upsert_rows_unique (rs : list Tests.record) (rows : list Tests.row) :
  NoDup (test_names rows) -> NoDup (test_names (upsert_rows rows rs)).
Proof.
  intros Hnd. rewrite upsert_rows_names. apply NoDup_app; [assumption | |].
  - apply NoDup_filter, first_appearance_NoDup.
  - intros k Hk Hk'. apply filter_In in Hk'. destruct Hk' as [_ Hk'].
    apply negb_true_iff, mem_not_In in Hk'. contradiction.
Qed.

(** Every row after an upsert carries the last record submitted under its
    name, or, when none was, is a row from before. *)
Lemma upsert_rows_row (rs : list Tests.record) (rows : list Tests.row) t :
  NoDup (test_names rows) -> In t (upsert_rows rows rs) ->
  match find (fun r => eqb (Tests.name r) (Tests.name (Tests.data t))) (rev rs) with
  | Some r => Tests.data t = r
  | None => In t rows
  end.
Proof.
  intros Hnd Hin.
  pose proof (@by_name_In _ _ (@upsert_rows_unique rs rows Hnd) Hin) as Hown.
  pose proof (@fold_own Tests.record Tests.row Tests.record Tests.name upserted
                Tests.data (fun r => r) (fun _ _ => eq_refl) rs (by_name rows)
                (Tests.name (Tests.data t))) as H.
  rewrite <- by_name_upsert_rows, Hown in H. simpl in H.
  destruct (find _ (rev rs)) as [r|] eqn:E.
  - congruence.
  - assert (Hk : ~ In (Tests.name (Tests.data t)) (map Tests.name rs)).
    { intros Hk. apply in_map_iff in Hk. destruct Hk as [r [Hr Hinr]].
      apply in_rev in Hinr. pose proof (find_none _ _ E r Hinr) as Hn.
      simpl in Hn. rewrite Hr, eqb_refl in Hn. discriminate. }
    pose proof (fold_own_other Tests.name upserted rs (by_name rows) _ Hk) as Ho.
    rewrite <- by_name_upsert_rows, Hown in Ho. symmetry in Ho.
    now apply by_name_own in Ho.
Qed.

Lemma find_last_unique (rs : list Tests.record) r :
  NoDup (map Tests.name rs) -> In r rs ->
  find (fun r' => eqb (Tests.name r') (Tests.name r)) (rev rs) = Some r.
Proof.
  intros Hnd Hin.
  destruct (find _ (rev rs)) as [r'|] eqn:E.
  - apply find_some in E. destruct E as [Hin' Hn]. apply in_rev in Hin'.
    apply eqb_eq in Hn. f_equal.
    clear - Hnd Hin Hin' Hn. induction rs as [|x rs IH]; [contradiction|].
    simpl in Hnd. inversion Hnd as [|? ? Hnotin Hnd']; subst.
    destruct Hin as [->|Hin]; destruct Hin' as [->|Hin']; try reflexivity.
    + exfalso. apply Hnotin. rewrite <- Hn. now apply in_map.
    + exfalso. apply Hnotin. rewrite Hn. now apply in_map.
    + now apply IH.
  - apply in_rev in Hin. pose proof (find_none _ _ E r Hin) as Hn.
    simpl in Hn. now rewrite eqb_refl in Hn.
Qed.

(** Every record of a batch with distinct names is in the table afterwards. *)
Lemma upsert_rows_landed (rs : list Tests.record) (rows : list Tests.row) r :
  NoDup (map Tests.name rs) -> In r rs ->
  exists t, In t (upsert_rows rows rs) /\ Tests.data t = r.
Proof.
  intros Hnd Hin.
  pose proof (@fold_own Tests.record Tests.row Tests.record Tests.name upserted
                Tests.data (fun r => r) (fun _ _ => eq_refl) rs (by_name rows)
                (Tests.name r)) as H.
  rewrite (@find_last_unique rs r Hnd Hin), <- by_name_upsert_rows in H.
  destruct (own _ (Tests.name r)) as [t|] eqn:E; simpl in H; [|discriminate].
  exists t. apply by_name_own in E. split; [tauto | congruence].
Qed.

(** The records built for a persona group carry each distinct description
    of the group exactly once, in order of first appearance; the record with
    a description is built from the last scenario of the group that has it;
    and one upsert of them leaves every one in the tests table. *)
Lemma testRecords_one_per_description
    (sid : positive) (personaScenarios : list Scenario) :
  let rs := testRecords sid personaScenarios in
  map Tests.name rs = first_appearance (map description personaScenarios)
  /\ NoDup (map Tests.name rs)
  /\ (forall s, In s personaScenarios ->
        List.length (filter (fun r => eqb (Tests.name r) (description s)) rs) = 1)
  /\ (forall r, In r rs ->
        exists s, last_with (Tests.name r) personaScenarios = Some s
                  /\ r = testRecord sid s)
  /\ (forall rows r, In r rs ->
        exists t, In t (upsert_rows rows rs) /\ Tests.data t = r).
Proof.
  intros rs.
  assert (Hn : map Tests.name rs = first_appearance (map description personaScenarios))
    by apply testRecords_names.
  assert (Hnd : NoDup (map Tests.name rs))
    by (rewrite Hn; apply first_appearance_NoDup).
  repeat split; try assumption.
  - intros s Hs. apply NoDup_count_one; [assumption|].
    rewrite Hn. apply first_appearance_In. now apply in_map.
  - intros r Hr. now apply testRecords_In.
  - intros rows r Hr. now apply upsert_rows_landed.
Qed.

(* ================================================================= *)
(** ** Grouping by persona *)

Lemma group_step_set (groups g' : object (list Scenario)) (s : Scenario) :
  group_step groups s = Some g' ->
  g' = set groups (persona_key s) (group_of groups (persona_key s) ++ [s]).
Proof.
  unfold group_step, get, group_of.
  destruct (own groups (persona_key s)) as [arr|].
  - intros H. now injection H as <-.
  - destruct (is_inherited (persona_key s)); [discriminate|].
    intros H. now injection H as <-.
Qed.

Lemma reduce_fold (l : list Scenario) (g g' : object (list Scenario)) :
  reduce group_step l g = Some g' ->
  g' = fold_left
         (fun m s => set m (persona_key s) (group_of m (persona_key s) ++ [s]))
         l g.
Proof.
  revert g. induction l as [|s l IH]; intros g; simpl.
  - intros H. now injection H as <-.
  - destruct (group_step g s) as [g1|] eqn:E; [|discriminate].
    apply group_step_set in E. subst g1. apply IH.
Qed.

Lemma reduce_Some (l : list Scenario) (g : object (list Scenario)) :
  (forall s, In s l -> is_inherited (persona_key s) = false) ->
  exists g', reduce group_step l g = Some g'.
Proof.
  revert g. induction l as [|s l IH]; intros g H; simpl.
  - now exists g.
  - assert (Hs : is_inherited (persona_key s) = false) by (apply H; now left).
    unfold group_step, get. rewrite Hs.
    destruct (own g (persona_key s)); apply IH; intros x Hx; apply H; now right.
Qed.

Lemma fold_group_of (l : list Scenario) (g : object (list Scenario)) k :
  group_of
    (fold_left
       (fun m s => set m (persona_key s) (group_of m (persona_key s) ++ [s]))
       l g) k
  = group_of g k ++ scenarios_with k l.
Proof.
  revert g. induction l as [|s l IH]; intros g; simpl.
  - now rewrite app_nil_r.
  - rewrite IH. unfold group_of at 1. rewrite own_set.
    rewrite (eqb_sym k (persona_key s)).
    eqb_cases (persona_key s) k.
    + now rewrite <- app_assoc.
    + reflexivity.
Qed.

(** The groups: the labels in order of first appearance, each with its
    scenarios in input order. *)
Lemma personaGroups_keys (scenarios : list Scenario) groups :
  personaGroups scenarios = Some groups ->
  map fst groups = first_appearance (map persona_key scenarios).
Proof.
  intros H. apply reduce_fold in H. subst groups.
  rewrite (fold_keys persona_key
             (fun m s => group_of m (persona_key s) ++ [s])).
  simpl. apply filter_all. reflexivity.
Qed.

Lemma personaGroups_group_of (scenarios : list Scenario) groups k :
  personaGroups scenarios = Some groups ->
  group_of groups k = scenarios_with k scenarios.
Proof.
  intros H. apply reduce_fold in H. subst groups.
  now rewrite fold_group_of.
Qed.

Lemma get_own_key (groups : object (list Scenario)) k :
  In k (map fst groups) -> get groups k = Own (group_of groups k).
Proof.
  intros H. apply In_keys_own in H. destruct H as [v Hv].
  unfold get, group_of. now rewrite Hv.
Qed.

(* ----------------------------------------------------------------- *)
(** *** Object.keys *)

Lemma insert_index_perm k l : Permutation (insert_index k l) (k :: l).
Proof.
  induction l as [|x l IH]; simpl; [apply Permutation_refl|].
  destruct (N.leb _ _); [apply Permutation_refl|].
  eapply perm_trans; [apply perm_skip, IH | apply perm_swap].
Qed.

Lemma sort_indices_perm l : Permutation (sort_indices l) l.
Proof.
  induction l as [|x l IH]; simpl; [constructor|].
  eapply perm_trans; [apply insert_index_perm | now apply perm_skip].
Qed.

Lemma filter_partition_perm (A : Type) (p : A -> bool) (l : list A) :
  Permutation (filter p l ++ filter (fun x => negb (p x)) l) l.
Proof.
  induction l as [|x l IH]; simpl; [constructor|].
  destruct (p x); simpl.
  - now apply perm_skip.
  - apply Permutation_sym, Permutation_cons_app, Permutation_sym, IH.
Qed.

Lemma keys_perm (V : Type) (o : object V) : Permutation (keys o) (map fst o).
Proof.
  unfold keys. eapply perm_trans; [|apply (filter_partition_perm is_array_index)].
  apply Permutation_app_tail, sort_indices_perm.
Qed.

Lemma keys_ordinary (V : Type) (o : object V) :
  (forall k, In k (map fst o) -> is_array_index k = false) ->
  keys o = map fst o.
Proof.
  intros H. unfold keys. rewrite (filter_none is_array_index) by assumption.
  simpl. apply filter_all. intros k Hk. now rewrite (H k Hk).
Qed.

Lemma firstn_incl (A : Type) (n : nat) (l : list A) x :
  In x (firstn n l) -> In x l.
Proof.
  intros H. rewrite <- (firstn_skipn n l). apply in_or_app. now left.
Qed.

Lemma firstn_NoDup (A : Type) (n : nat) (l : list A) :
  NoDup l -> NoDup (firstn n l).
Proof.
  intros H. rewrite <- (firstn_skipn n l) in H.
  now apply NoDup_app_remove_r in H.
Qed.

Lemma limitedPersonas_keys (groups : object (list Scenario)) p :
  In p (limitedPersonas groups) -> In p (map fst groups).
Proof.
  intros H. apply firstn_incl in H.
  eapply Permutation_in; [apply keys_perm | exact H].
Qed.

Lemma limitedPersonas_NoDup (groups : object (list Scenario)) :
  NoDup (map fst groups) -> NoDup (limitedPersonas groups).
Proof.
  intros H. apply firstn_NoDup.
  eapply Permutation_NoDup; [apply Permutation_sym, keys_perm | exact H].
Qed.

Lemma limitedPersonas_length (groups : object (list Scenario)) :
  List.length (limitedPersonas groups) <= 4.
Proof. apply firstn_le_length. Qed.

(* ================================================================= *)
(** ** Fresh identities and the suites the loop creates *)

Lemma fresh_id_gt (ids : list positive) x :
  In x ids -> (x < fresh_id ids)%positive.
Proof.
  unfold fresh_id. induction ids as [|y ids IH]; simpl; [contradiction|].
  intros [->|H]; [lia|]. specialize (IH H). lia.
Qed.

Lemma fresh_id_fresh (ids : list positive) : ~ In (fresh_id ids) ids.
Proof.
  intros H. apply fresh_id_gt in H. lia.
Qed.

Lemma created_personas F rid personas ids :
  map fst (created F rid personas ids) = filter (suite_accepted F rid) personas.
Proof.
  revert ids. induction personas as [|p personas IH]; intros ids; simpl;
    [reflexivity|].
  unfold suite_accepted at 1.
  destruct (suites_insert_error F (suiteRecord rid p)); simpl; now rewrite IH.
Qed.

Lemma created_fresh F rid personas ids c :
  In c (created F rid personas ids) -> ~ In (snd c) ids.
Proof.
  revert ids. induction personas as [|p personas IH]; intros ids; simpl;
    [contradiction|].
  destruct (suites_insert_error F (suiteRecord rid p)); [apply IH|].
  intros [<-|H]; simpl; [apply fresh_id_fresh|].
  apply IH in H. intros Hin. apply H, in_or_app. now left.
Qed.

Lemma created_ids_NoDup F rid personas ids :
  NoDup (map snd (created F rid personas ids)).
Proof.
  revert ids. induction personas as [|p personas IH]; intros ids; simpl;
    [constructor|].
  destruct (suites_insert_error F (suiteRecord rid p)); [apply IH|].
  simpl. constructor; [|apply IH].
  intros H. apply in_map_iff in H. destruct H as [c [Hc Hin]].
  apply created_fresh in Hin. apply Hin. rewrite Hc.
  apply in_or_app. right. now left.
Qed.

Lemma created_In F rid personas ids c :
  In c (created F rid personas ids) ->
  In (fst c) personas /\ suites_insert_error F (suiteRecord rid (fst c)) = None.
Proof.
  intros H. apply (in_map fst) in H. rewrite created_personas in H.
  apply filter_In in H. destruct H as [Hin Hacc]. split; [assumption|].
  unfold suite_accepted in Hacc.
  now destruct (suites_insert_error F (suiteRecord rid (fst c))).
Qed.

(* ================================================================= *)
(** ** The loop over the personas *)

Lemma flat_map_snoc (A B : Type) (f : A -> list B) (l : list A) (x : A) :
  flat_map f (l ++ [x]) = flat_map f l ++ f x.
Proof. rewrite flat_map_app. simpl. now rewrite app_nil_r. Qed.

Lemma createSuites_effect F rid groups personas st :
  (forall p, In p personas -> In p (map fst groups)) ->
  loop_effect F rid groups personas st (createSuites F rid groups personas st).
Proof.
  revert st. induction personas as [|p personas IH]; intros st Hkeys.
  - unfold loop_effect. simpl. rewrite app_nil_r.
    repeat split; try reflexivity.
    + exists []. rewrite app_nil_r. repeat split; reflexivity.
    + exists []. rewrite app_nil_r. repeat split; try reflexivity.
      * constructor.
      * intros ? ? [].
  - assert (Hp : In p (map fst groups)) by (apply Hkeys; now left).
    assert (Hrest : forall q, In q personas -> In q (map fst groups))
      by (intros q Hq; apply Hkeys; now right).
    cbn [createSuites]. rewrite (get_own_key _ _ Hp).
    unfold insert_suite, loop_effect. cbn [created].
    destruct (suites_insert_error F (suiteRecord rid p)) as [e|] eqn:Eins.
    + (* the insert is rejected: logged, next persona *)
      specialize (IH (log_error (FailedCreateSuite e)
                        (call (InsertSuite (suiteRecord rid p) None) st)) Hrest).
      destruct IH as (Hr & Hs & Ht & Hid & [ops Hops] & [errs Herrs]).
      simpl in Hr, Hs, Ht, Hid, Hops, Herrs.
      destruct Hops as (Hc & Hsr & Htb & Hac & Hhr & Hsu).
      destruct Herrs as (Hcon & Hall & Hlog).
      repeat split; try assumption.
      * exists (InsertSuite (suiteRecord rid p) None :: ops).
        rewrite Hc, <- app_assoc. simpl. rewrite Hsr.
        repeat split; assumption.
      * exists (FailedCreateSuite e :: errs).
        rewrite Hcon, <- app_assoc. simpl.
        repeat split; [constructor; [exact I | assumption]|].
        intros q e' [<-|Hq] He'.
        -- left. congruence.
        -- right. now apply (Hlog q).
    + (* the suite is created; its batch is upserted *)
      set (sid := fresh_id (map Suites.id (suites (db st)))).
      set (rs := testRecords sid (group_of groups p)).
      unfold upsert_tests.
      assert (Hbatch : batch groups (p, sid) = rs) by reflexivity.
      destruct (tests_upsert_error F rs) as [e|] eqn:Eup.
      * match goal with |- context [createSuites F rid groups personas ?s] =>
          specialize (IH s Hrest) end.
        destruct IH as (Hr & Hs & Ht & Hid & [ops Hops] & [errs Herrs]).
        simpl in Hr, Hs, Ht, Hid, Hops, Herrs.
        rewrite map_app in Hs, Ht, Hops. simpl in Hs, Ht, Hops.
        destruct Hops as (Hc & Hsr & Htb & Hac & Hhr & Hsu).
        destruct Herrs as (Hcon & Hall & Hlog).
        cbn [map flat_map]. unfold accepted_batch at 1.
        rewrite Hbatch, Eup. cbn [app].
        repeat split; try assumption.
        -- rewrite Hs, <- app_assoc. reflexivity.
        -- exists (InsertSuite (suiteRecord rid p) (Some sid)
                   :: UpsertTests rs false :: ops).
           rewrite Hc, <- !app_assoc. simpl. rewrite Hsr, Htb.
           repeat split; assumption.
        -- exists (FailedCreateTests e :: errs).
           rewrite Hcon, <- app_assoc. simpl.
           repeat split; [constructor; [exact I | assumption]|].
           intros q e' [<-|Hq] He'; [congruence|].
           right. now apply (Hlog q).
      * match goal with |- context [createSuites F rid groups personas ?s] =>
          specialize (IH s Hrest) end.
        destruct IH as (Hr & Hs & Ht & Hid & [ops Hops] & [errs Herrs]).
        simpl in Hr, Hs, Ht, Hid, Hops, Herrs.
        rewrite map_app in Hs, Ht, Hops. simpl in Hs, Ht, Hops.
        destruct Hops as (Hc & Hsr & Htb & Hac & Hhr & Hsu).
        destruct Herrs as (Hcon & Hall & Hlog).
        cbn [map flat_map]. unfold accepted_batch at 1.
        rewrite Hbatch, Eup. cbn [results suites tests].
        repeat split; try assumption.
        -- rewrite Hs, <- app_assoc. reflexivity.
        -- rewrite Ht. unfold upsert_rows. now rewrite fold_left_app.
        -- exists (InsertSuite (suiteRecord rid p) (Some sid)
                   :: UpsertTests rs true :: ops).
           rewrite Hc, <- !app_assoc. simpl. rewrite Hsr, Htb.
           repeat split; assumption.
        -- exists errs. repeat split; try assumption.
           intros q e' [<-|Hq] He'; [congruence|].
           now apply (Hlog q).
Qed.

(* ================================================================= *)
(** ** uploadScenariosToDatabase *)

Lemma upload_rejected F scenarios st e :
  results_insert_error F = Some e ->
  uploadScenariosToDatabase F scenarios st =
  log_error (FailedCreateResults e) (call (InsertResult (prData st) None) st).
Proof.
  intros H. unfold uploadScenariosToDatabase, insert_result. now rewrite H.
Qed.

Lemma upload_effect F scenarios groups st :
  results_insert_error F = None ->
  personaGroups scenarios = Some groups ->
  let rid := fresh_id (map Results.id (results (db st))) in
  let C := created F rid (limitedPersonas groups) (map Suites.id (suites (db st))) in
  let st' := uploadScenariosToDatabase F scenarios st in
  resultId st' = Some rid
  /\ results (db st') =
     results (db st) ++ [ {| Results.id := rid; Results.data := prData st |} ]
  /\ suites (db st') = suites (db st) ++ map (suite_row rid) C
  /\ tests (db st') =
     upsert_rows (tests (db st)) (flat_map (accepted_batch F groups) C)
  /\ (exists ops,
        calls st' = calls st ++ InsertResult (prData st) (Some rid) :: ops
        /\ suite_requests ops = map (suiteRecord rid) (limitedPersonas groups)
        /\ test_batches ops = map (batch groups) C
        /\ agent_calls ops = []
        /\ hierarchy_reads ops = []
        /\ status_updates ops = [])
  /\ (exists errs,
        console st' = console st ++ errs
        /\ Forall suite_error errs
        /\ (forall p e, In p (limitedPersonas groups) ->
              suites_insert_error F (suiteRecord rid p) = Some e ->
              In (FailedCreateSuite e) errs)).
Proof.
  intros Hins Hg rid C st'.
  unfold st', uploadScenariosToDatabase, insert_result. rewrite Hins, Hg.
  fold rid.
  match goal with |- context [createSuites F rid groups _ ?s] =>
    pose proof (@createSuites_effect F rid groups (limitedPersonas groups) s
                  (@limitedPersonas_keys groups)) as H;
    set (s0 := s) in * end.
  destruct H as (Hr & Hs & Ht & Hid & [ops Hops] & Herrs).
  subst s0. simpl in Hr, Hs, Ht, Hid, Hops, Herrs.
  destruct Hops as (Hc & Hrest).
  repeat split; try assumption.
  exists ops. rewrite Hc, <- app_assoc. simpl. tauto.
Qed.

Lemma upsert_at_In i r rows t :
  In t (upsert_at i r rows) -> In t rows \/ Tests.data t = r.
Proof.
  induction rows as [|x rows IH]; simpl.
  - intros [<-|[]]. now right.
  - destruct (eqb _ _); simpl.
    + intros [<-|H]; [now right | tauto].
    + intros [<-|H]; [tauto|]. apply IH in H. tauto.
Qed.

Lemma upsert_rows_In rs rows t :
  In t (upsert_rows rows rs) -> In t rows \/ In (Tests.data t) rs.
Proof.
  unfold upsert_rows. revert rows.
  induction rs as [|r rs IH]; intros rows; simpl; [tauto|].
  intros H. apply IH in H. destruct H as [H|H]; [|tauto].
  apply upsert_at_In in H. destruct H as [H|H]; [tauto|]. right. now left.
Qed.

Lemma accepted_batch_In F groups c r :
  In r (accepted_batch F groups c) -> In r (batch groups c).
Proof.
  unfold accepted_batch. destruct (tests_upsert_error F _); [contradiction|tauto].
Qed.

(** A record of a batch comes from a scenario of that persona: the last one
    of the persona's scenarios with the record's name. *)
Lemma batch_record scenarios groups c r :
  personaGroups scenarios = Some groups ->
  In r (batch groups c) ->
  exists s,
    In s scenarios /\ persona_key s = fst c /\ r = testRecord (snd c) s
    /\ last_with (Tests.name r) (scenarios_with (fst c) scenarios) = Some s.
Proof.
  intros Hg Hr. unfold batch in Hr.
  rewrite (@personaGroups_group_of scenarios groups (fst c) Hg) in Hr.
  apply testRecords_In in Hr. destruct Hr as [s [Hl Hr]].
  exists s. pose proof (@last_with_Some _ _ _ Hl) as [Hin _].
  unfold scenarios_with in Hin. apply filter_In in Hin.
  destruct Hin as [Hin Hk]. apply eqb_eq in Hk. tauto.
Qed.

Lemma limitedPersonas_ordinary scenarios groups :
  personaGroups scenarios = Some groups ->
  (forall s, In s scenarios -> ordinary_label (persona_key s)) ->
  limitedPersonas groups = firstn 4 (first_appearance (map persona_key scenarios)).
Proof.
  intros Hg Hord. unfold limitedPersonas, slice0.
  rewrite keys_ordinary; [now rewrite (@personaGroups_keys scenarios groups Hg)|].
  intros k Hk. rewrite (@personaGroups_keys scenarios groups Hg) in Hk.
  apply first_appearance_In, in_map_iff in Hk.
  destruct Hk as [s [<- Hs]]. now apply Hord.
Qed.

(** C2 at a failing input: a label that is an array index is enumerated
    before the other keys.  Of the personas admin, guest, editor, viewer, 2
    (in this order) the suites requested are those of 2, admin, guest,
    editor, not those of the first 4 personas in input order: the fourth
    persona is dropped and the scenario of the fifth is stored. *)
Lemma C2_index_label_reordered :
  let st' := uploadScenariosToDatabase no_faults five_personas pipeline0 in
  4 < List.length (first_appearance (map persona_key five_personas))
  /\ firstn 4 (first_appearance (map persona_key five_personas))
     = [str "admin"; str "guest"; str "editor"; str "viewer"]
  /\ map Suites.name (suite_requests (calls st'))
     = [str "2 Agent Suite"; str "admin Agent Suite"; str "guest Agent Suite";
        str "editor Agent Suite"]
  /\ test_names (tests (db st')) = [str "d5"; str "d1"; str "d2"; str "d3"]
  /\ suite_requests (calls st')
     <> map (suiteRecord 1)
            (firstn 4 (first_appearance (map persona_key five_personas))).
Proof.
  vm_compute. repeat split; try reflexivity; try lia. discriminate.
Qed.

(** The cap for ordinary labels: when every persona label is an ordinary
    dictionary key (not an array index, not a name inherited from
    Object.prototype) and the run record is created, a scenario list with
    more than 4 distinct personas has suites requested for exactly its first
    4 distinct personas, in order of first appearance; the suite rows added
    are those of them the store accepts; and every test record submitted, and
    every test row that was not in the store before, is built from a scenario
    of one of these 4. *)
Theorem first_four_ordinary_personas F scenarios st :
  (forall s, In s scenarios -> ordinary_label (persona_key s)) ->
  results_insert_error F = None ->
  4 < List.length (first_appearance (map persona_key scenarios)) ->
  let kept := firstn 4 (first_appearance (map persona_key scenarios)) in
  let rid := fresh_id (map Results.id (results (db st))) in
  let st' := uploadScenariosToDatabase F scenarios st in
  List.length kept = 4
  /\ (exists ops,
        calls st' = calls st ++ InsertResult (prData st) (Some rid) :: ops
        /\ suite_requests ops = map (suiteRecord rid) kept
        /\ forall rs r, In rs (test_batches ops) -> In r rs ->
             exists s, In s scenarios /\ In (persona_key s) kept
                       /\ r = testRecord (Tests.suite_id r) s)
  /\ (exists rows,
        suites (db st') = suites (db st) ++ rows
        /\ map Suites.data rows =
           map (suiteRecord rid) (filter (suite_accepted F rid) kept))
  /\ (forall t, In t (tests (db st')) ->
        In t (tests (db st))
        \/ exists s, In s scenarios /\ In (persona_key s) kept
                     /\ Tests.data t = testRecord (Tests.suite_id (Tests.data t)) s).
Proof.
  intros Hord Hins Hlen kept rid st'.
  destruct (@reduce_Some scenarios []) as [groups Hg].
  { intros s Hs. now apply Hord. }
  fold (personaGroups scenarios) in Hg.
  pose proof (@upload_effect F scenarios groups st Hins Hg) as H.
  cbv zeta in H. fold rid st' in H.
  rewrite (@limitedPersonas_ordinary scenarios groups Hg Hord) in H. fold kept in H.
  destruct H as (Hid & Hr & Hs & Ht & [ops Hops] & _).
  destruct Hops as (Hc & Hsr & Htb & _).
  assert (Hrec : forall c r,
             In c (created F rid kept (map Suites.id (suites (db st)))) ->
             In r (batch groups c) ->
             exists s, In s scenarios /\ In (persona_key s) kept
                       /\ r = testRecord (Tests.suite_id r) s).
  { intros c r Hc' Hr'.
    pose proof (@created_In F rid kept _ c Hc') as [Hk _].
    destruct (@batch_record scenarios groups c r Hg Hr') as [s (Hin & Hp & Hrs & _)].
    exists s. repeat split; [assumption | now rewrite Hp |].
    rewrite Hrs at 1. now rewrite Hrs. }
  repeat split.
  - unfold kept. rewrite length_firstn. lia.
  - exists ops. repeat split; try assumption.
    intros rs r Hrs Hr'. rewrite Htb in Hrs. apply in_map_iff in Hrs.
    destruct Hrs as [c [<- Hc']]. now apply (Hrec c).
  - exists (map (suite_row rid)
             (created F rid kept (map Suites.id (suites (db st))))).
    split; [assumption|]. rewrite map_map. simpl.
    rewrite <- (created_personas F rid kept (map Suites.id (suites (db st)))).
    rewrite map_map. reflexivity.
  - intros t Hin. rewrite Ht in Hin. apply upsert_rows_In in Hin.
    destruct Hin as [Hin|Hin]; [now left | right].
    apply in_flat_map in Hin. destruct Hin as [c [Hc' Hr']].
    apply accepted_batch_In in Hr'. now apply (Hrec c).
Qed.

Lemma suiteRecord_inj rid p q : suiteRecord rid p = suiteRecord rid q -> p = q.
Proof.
  unfold suiteRecord. intros H. injection H as H.
  now apply app_inv_tail in H.
Qed.

Lemma created_of_accepted F rid personas ids q :
  In q personas -> suites_insert_error F (suiteRecord rid q) = None ->
  exists sid, In (q, sid) (created F rid personas ids).
Proof.
  intros Hq Hacc.
  assert (H : In q (map fst (created F rid personas ids))).
  { rewrite created_personas. apply filter_In. split; [assumption|].
    unfold suite_accepted. now rewrite Hacc. }
  apply in_map_iff in H. destruct H as [[q' sid] [Hfst Hin]].
  simpl in Hfst. subst q'. now exists sid.
Qed.

(** C7: when the insert of a persona's suite is rejected, the failure is
    written to the error console, no suite row is added for that persona and
    no test record built from its scenarios is submitted; the loop goes on:
    a suite is requested for every retained persona, the suite rows of the
    personas the store accepts are added, their batches are submitted, and
    the run record stays in place. *)
Theorem C7_failed_suite_is_skipped F scenarios groups st p e :
  let rid := fresh_id (map Results.id (results (db st))) in
  let st' := uploadScenariosToDatabase F scenarios st in
  results_insert_error F = None ->
  personaGroups scenarios = Some groups ->
  In p (limitedPersonas groups) ->
  suites_insert_error F (suiteRecord rid p) = Some e ->
  In (FailedCreateSuite e) (console st')
  /\ (exists rows,
        suites (db st') = suites (db st) ++ rows
        /\ (forall x, In x rows -> Suites.data x <> suiteRecord rid p)
        /\ map Suites.data rows =
           map (suiteRecord rid)
               (filter (suite_accepted F rid) (limitedPersonas groups)))
  /\ (exists ops,
        calls st' = calls st ++ InsertResult (prData st) (Some rid) :: ops
        /\ suite_requests ops = map (suiteRecord rid) (limitedPersonas groups)
        /\ (forall rs r, In rs (test_batches ops) -> In r rs ->
              exists s, In s scenarios /\ persona_key s <> p
                        /\ r = testRecord (Tests.suite_id r) s)
        /\ (forall q, In q (limitedPersonas groups) ->
              suites_insert_error F (suiteRecord rid q) = None ->
              exists sid, In (batch groups (q, sid)) (test_batches ops)))
  /\ resultId st' = Some rid
  /\ In {| Results.id := rid; Results.data := prData st |} (results (db st')).
Proof.
  intros rid st' Hins Hg Hp He.
  pose proof (@upload_effect F scenarios groups st Hins Hg) as H.
  cbv zeta in H. fold rid st' in H.
  destruct H as (Hid & Hr & Hs & Ht & [ops Hops] & [errs Herrs]).
  destruct Hops as (Hc & Hsr & Htb & _).
  destruct Herrs as (Hcon & _ & Hlog).
  set (C := created F rid (limitedPersonas groups)
              (map Suites.id (suites (db st)))) in *.
  repeat split.
  - rewrite Hcon. apply in_or_app. right. now apply (Hlog p).
  - exists (map (suite_row rid) C). repeat split; [assumption | |].
    + intros x Hx Heq. apply in_map_iff in Hx. destruct Hx as [c [<- Hc']].
      simpl in Heq. apply suiteRecord_inj in Heq.
      pose proof (@created_In F rid (limitedPersonas groups) _ c Hc') as [_ Hacc].
      rewrite Heq in Hacc. congruence.
    + rewrite map_map. simpl. unfold C.
      rewrite <- (created_personas F rid (limitedPersonas groups)
                    (map Suites.id (suites (db st)))).
      now rewrite map_map.
  - exists ops. repeat split; try assumption.
    + intros rs r Hrs Hr'. rewrite Htb in Hrs. apply in_map_iff in Hrs.
      destruct Hrs as [c [<- Hc']].
      pose proof (@created_In F rid (limitedPersonas groups) _ c Hc') as [_ Hacc].
      destruct (@batch_record scenarios groups c r Hg Hr')
        as [s (Hin & Hk & Hrs & _)].
      exists s. repeat split; [assumption | | ].
      * intros Heq. rewrite Hk in Heq. rewrite Heq in Hacc. congruence.
      * rewrite Hrs at 1. now rewrite Hrs.
    + intros q Hq Hacc.
      destruct (@created_of_accepted F rid (limitedPersonas groups)
                  (map Suites.id (suites (db st))) q Hq Hacc) as [sid Hsid].
      exists sid. rewrite Htb. apply in_map_iff. now exists (q, sid).
  - assumption.
  - rewrite Hr. apply in_or_app. right. now left.
Qed.

Lemma NoDup_map_inj (A B : Type) (f : A -> B) (l : list A) a b :
  NoDup (map f l) -> In a l -> In b l -> f a = f b -> a = b.
Proof.
  induction l as [|x l IH]; simpl; intros Hnd Ha Hb Hf; [contradiction|].
  inversion Hnd as [|? ? Hnotin Hnd']; subst.
  destruct Ha as [->|Ha]; destruct Hb as [->|Hb]; try reflexivity.
  - exfalso. apply Hnotin. rewrite Hf. now apply in_map.
  - exfalso. apply Hnotin. rewrite <- Hf. now apply in_map.
  - now apply IH.
Qed.

Lemma batch_has_description scenarios groups s sid :
  personaGroups scenarios = Some groups ->
  In s scenarios ->
  exists r, In r (batch groups (persona_key s, sid))
            /\ Tests.name r = description s /\ Tests.suite_id r = sid.
Proof.
  intros Hg Hs. unfold batch. simpl.
  rewrite (@personaGroups_group_of scenarios groups (persona_key s) Hg).
  assert (Hin : In s (scenarios_with (persona_key s) scenarios)).
  { unfold scenarios_with. apply filter_In. split; [assumption|apply eqb_refl]. }
  destruct (@last_with_In _ _ Hin) as [s' Hl].
  exists (testRecord sid s').
  pose proof (@last_with_Some _ _ _ Hl) as [_ Hd].
  repeat split; [|exact Hd].
  apply testRecords_In. exists s'. simpl. now rewrite Hd.
Qed.

(** Two scenarios with the same description under different personas each
    leave a draft with that description in the group of their own persona;
    and when the run record is created, both personas are retained and the
    store accepts their suites, a record with that description is submitted
    for each of the two suites, which are different suites. *)
Lemma retained_groups_are_submitted F scenarios groups st s1 s2 :
  let rid := fresh_id (map Results.id (results (db st))) in
  let st' := uploadScenariosToDatabase F scenarios st in
  personaGroups scenarios = Some groups ->
  In s1 scenarios -> In s2 scenarios ->
  description s1 = description s2 ->
  persona_key s1 <> persona_key s2 ->
  (exists x1 x2 g1 g2,
      own groups (persona_key s1) = Some g1
      /\ own groups (persona_key s2) = Some g2
      /\ In x1 (uniqueScenarios g1) /\ In x2 (uniqueScenarios g2)
      /\ description x1 = description s1 /\ description x2 = description s1)
  /\ (results_insert_error F = None ->
      In (persona_key s1) (limitedPersonas groups) ->
      In (persona_key s2) (limitedPersonas groups) ->
      suites_insert_error F (suiteRecord rid (persona_key s1)) = None ->
      suites_insert_error F (suiteRecord rid (persona_key s2)) = None ->
      exists sid1 sid2 rs1 rs2 r1 r2,
        sid1 <> sid2
        /\ In (suite_row rid (persona_key s1, sid1)) (suites (db st'))
        /\ In (suite_row rid (persona_key s2, sid2)) (suites (db st'))
        /\ In rs1 (test_batches (calls st')) /\ In rs2 (test_batches (calls st'))
        /\ In r1 rs1 /\ In r2 rs2
        /\ Tests.name r1 = description s1 /\ Tests.name r2 = description s1
        /\ Tests.suite_id r1 = sid1 /\ Tests.suite_id r2 = sid2).
Proof.
  intros rid st' Hg H1 H2 Hd Hne.
  split.
  - assert (Hk : forall s, In s scenarios -> In (persona_key s) (map fst groups)).
    { intros s Hs. rewrite (@personaGroups_keys scenarios groups Hg).
      apply first_appearance_In. now apply in_map. }
    pose proof (Hk s1 H1) as Hk1. pose proof (Hk s2 H2) as Hk2.
    destruct (@batch_has_description scenarios groups s1 1%positive Hg H1)
      as [r1 (Hr1 & Hn1 & _)].
    destruct (@batch_has_description scenarios groups s2 1%positive Hg H2)
      as [r2 (Hr2 & Hn2 & _)].
    unfold batch, testRecords in Hr1, Hr2. simpl in Hr1, Hr2.
    apply in_map_iff in Hr1. destruct Hr1 as [x1 [Hx1 Hu1]].
    apply in_map_iff in Hr2. destruct Hr2 as [x2 [Hx2 Hu2]].
    subst r1 r2. simpl in Hn1, Hn2.
    destruct (In_keys_own groups _ Hk1) as [g1 Hg1].
    destruct (In_keys_own groups _ Hk2) as [g2 Hg2].
    unfold group_of in Hu1, Hu2. rewrite Hg1 in Hu1. rewrite Hg2 in Hu2.
    exists x1, x2, g1, g2. repeat split; try assumption. congruence.
  - intros Hins Hp1 Hp2 Ha1 Ha2.
    pose proof (@upload_effect F scenarios groups st Hins Hg) as H.
    cbv zeta in H. fold rid st' in H.
    destruct H as (_ & _ & Hs & _ & [ops Hops] & _).
    destruct Hops as (Hc & _ & Htb & _).
    set (C := created F rid (limitedPersonas groups)
                (map Suites.id (suites (db st)))) in *.
    destruct (@created_of_accepted F rid (limitedPersonas groups)
                (map Suites.id (suites (db st))) _ Hp1 Ha1) as [sid1 Hc1].
    destruct (@created_of_accepted F rid (limitedPersonas groups)
                (map Suites.id (suites (db st))) _ Hp2 Ha2) as [sid2 Hc2].
    fold C in Hc1, Hc2.
    destruct (@batch_has_description scenarios groups s1 sid1 Hg H1)
      as [r1 (Hr1 & Hn1 & Hi1)].
    destruct (@batch_has_description scenarios groups s2 sid2 Hg H2)
      as [r2 (Hr2 & Hn2 & Hi2)].
    exists sid1, sid2, (batch groups (persona_key s1, sid1)),
           (batch groups (persona_key s2, sid2)), r1, r2.
    assert (Hb : forall c, In c C -> In (batch groups c) (test_batches (calls st'))).
    { intros c Hc'. rewrite Hc. unfold test_batches. rewrite flat_map_app.
      apply in_or_app. right. simpl. fold (test_batches ops). rewrite Htb.
      now apply in_map. }
    assert (Hrow : forall c, In c C -> In (suite_row rid c) (suites (db st'))).
    { intros c Hc'. rewrite Hs. apply in_or_app. right. now apply in_map. }
    repeat split; try assumption; try (now apply Hb); try (now apply Hrow);
      try congruence.
    intros Heq.
    pose proof (@NoDup_map_inj _ _ snd C _ _
                  (created_ids_NoDup F rid (limitedPersonas groups)
                     (map Suites.id (suites (db st)))) Hc1 Hc2 Heq) as Hcc.
    congruence.
Qed.

(* ================================================================= *)
(** ** Summaries *)

Lemma summary_given_iff (v : jsval) :
  summary_given v = false <-> blank_summary v.
Proof.
  unfold summary_given, blank_summary.
  destruct v as [| |b|n|s|]; simpl; rewrite ?andb_false_r; try tauto.
  destruct s as [|c s]; simpl; [tauto|].
  destruct (trim (c :: s)); simpl; split; congruence.
Qed.

Lemma with_summary_same (s : Scenario) : with_summary (summary s) s = s.
Proof. now destruct s. Qed.


(* ================================================================= *)
(** ** Dispatch *)

Lemma is_success_iff (data : option jsval) :
  is_success (status_of data) = true <-> data = Some (JStr (str "success")).
Proof.
  destruct data as [[| |b|n|s|]|]; simpl; try (split; congruence).
  rewrite eqb_eq. split; congruence.
Qed.

Lemma update_run_status_forced F rid s :
  results_update_error F = false ->
  let s' := update_run_status F rid FAILED s in
  map Results.id (results s') = map Results.id (results s)
  /\ forall x, In x (results s') -> Results.id x = rid ->
       Results.run_status (Results.data x) = FAILED.
Proof.
  intros HF. unfold update_run_status. rewrite HF. simpl. split.
  - rewrite map_map. apply map_ext. intros x. now destruct (Pos.eqb _ _).
  - intros x Hx Hid. apply in_map_iff in Hx. destruct Hx as [y [<- Hy]].
    destruct (Pos.eqb (Results.id y) rid) eqn:E; [reflexivity|].
    apply Pos.eqb_neq in E. contradiction.
Qed.

(** C6: when the run record cannot be created, the pipeline leaves the
    store as it was (no suite, no test), makes no request other than the
    rejected insert (no call of the agent), logs the failure and reports
    failure. *)
Theorem C6_no_run_no_dispatch env F agent parsedScenarios link name s e :
  results_insert_error F = Some e ->
  let r := full env F agent parsedScenarios (new_pipeline link name s) in
  fst r = false
  /\ db (snd r) = s
  /\ resultId (snd r) = None
  /\ calls (snd r) = [InsertResult (prData (new_pipeline link name s)) None]
  /\ suite_requests (calls (snd r)) = []
  /\ test_batches (calls (snd r)) = []
  /\ agent_calls (calls (snd r)) = []
  /\ In (FailedCreateResults e) (console (snd r)).
Proof.
  intros He. unfold full, analyzePR.
  rewrite (@upload_rejected F _ _ e He).
  unfold runTests, runTests_try.
  destruct (env_set (QAI_ENDPOINT env)); simpl; repeat split; auto.
Qed.

(** C5: once the agent is dispatched, the test phase goes on to the final
    verification only for a response whose status is the string "success".
    For every other answer (another status, no status, a failed request, a
    timeout) it returns false, reads no hierarchy back, and issues the update
    of the run's status to FAILED, which, when the store applies it, leaves
    every row of that run id with status FAILED. *)
Theorem C5_only_success_is_accepted env F agent st rid reply db1 :
  env_set (QAI_ENDPOINT env) = true ->
  resultId st = Some rid ->
  agent rid (db st) = (reply, db1) ->
  let st1 := with_db db1 (call (CallAgent rid) st) in
  let r := runTests env F agent st in
  (reply = Responded (Some (JStr (str "success"))) ->
   r = verifyFinalResults F st1)
  /\ (reply <> Responded (Some (JStr (str "success"))) ->
      fst r = JBool false
      /\ calls (snd r) = calls st ++ [CallAgent rid; UpdateRunStatus rid FAILED]
      /\ hierarchy_reads (calls (snd r)) = hierarchy_reads (calls st)
      /\ (exists error, console (snd r) = console st ++ [QAIExecutionFailed error])
      /\ suites (db (snd r)) = suites db1
      /\ tests (db (snd r)) = tests db1
      /\ (results_update_error F = false ->
          map Results.id (results (db (snd r))) = map Results.id (results db1)
          /\ forall x, In x (results (db (snd r))) -> Results.id x = rid ->
               Results.run_status (Results.data x) = FAILED)).
Proof.
  intros Henv Hid Hagent st1 r. unfold r, runTests, runTests_try.
  rewrite Henv, Hid, Hagent. cbn [negb]. split.
  - intros ->. simpl.
    now destruct (verifyFinalResults F (with_db db1 (call (CallAgent rid) st))).
  - intros Hne.
    assert (Hfail : forall error,
      let r' := (JBool false,
                 match resultId (log_error (QAIExecutionFailed error) st1) with
                 | Some rid0 =>
                     with_db (update_run_status F rid0 FAILED
                                (db (log_error (QAIExecutionFailed error) st1)))
                       (call (UpdateRunStatus rid0 FAILED)
                          (log_error (QAIExecutionFailed error) st1))
                 | None => log_error (QAIExecutionFailed error) st1
                 end) in
      fst r' = JBool false
      /\ calls (snd r') = calls st ++ [CallAgent rid; UpdateRunStatus rid FAILED]
      /\ hierarchy_reads (calls (snd r')) = hierarchy_reads (calls st)
      /\ (exists error, console (snd r') = console st ++ [QAIExecutionFailed error])
      /\ suites (db (snd r')) = suites db1
      /\ tests (db (snd r')) = tests db1
      /\ (results_update_error F = false ->
          map Results.id (results (db (snd r'))) = map Results.id (results db1)
          /\ forall x, In x (results (db (snd r'))) -> Results.id x = rid ->
               Results.run_status (Results.data x) = FAILED)).
    { intros error. simpl. rewrite Hid. simpl. repeat split.
      - now rewrite <- app_assoc.
      - unfold hierarchy_reads. rewrite <- app_assoc, flat_map_app. simpl.
        now rewrite app_nil_r.
      - now exists error.
      - unfold update_run_status. now destruct (results_update_error F).
      - unfold update_run_status. now destruct (results_update_error F).
      - now apply update_run_status_forced.
      - now apply update_run_status_forced. }
    destruct reply as [m| |data].
    + apply Hfail.
    + apply Hfail.
    + destruct (is_success (status_of data)) eqn:E.
      * apply is_success_iff in E. subst data. contradiction.
      * apply Hfail.
Qed.

(* ================================================================= *)
(** ** Counting rows by key *)

Section Counting.

Variables (A K : Type).
Variable keqb : K -> K -> bool.
Hypothesis keqb_eq : forall a b, keqb a b = true <-> a = b.
Variable f : A -> K.

Lemma list_sum_map_add (g h : K -> nat) (ks : list K) :
  list_sum (map (fun k => g k + h k) ks) =
  list_sum (map g ks) + list_sum (map h ks).
Proof.
  induction ks as [|k ks IH]; simpl; [reflexivity|]. rewrite IH. lia.
Qed.

Lemma indicator_sum (x : K) (ks : list K) :
  NoDup ks ->
  list_sum (map (fun k => if keqb x k then 1 else 0) ks) =
  if existsb (keqb x) ks then 1 else 0.
Proof.
  induction ks as [|k ks IH]; simpl; intros Hnd; [reflexivity|].
  inversion Hnd as [|? ? Hnotin Hnd']; subst.
  rewrite (IH Hnd'). destruct (keqb x k) eqn:E; simpl; [|reflexivity].
  apply keqb_eq in E. subst k.
  destruct (existsb (keqb x) ks) eqn:Ex; [|reflexivity].
  exfalso. apply existsb_exists in Ex. destruct Ex as [y [Hy Hxy]].
  apply keqb_eq in Hxy. subst y. contradiction.
Qed.

Lemma sum_by_key (l : list A) (ks : list K) :
  NoDup ks ->
  list_sum (map (fun k => List.length (filter (fun a => keqb (f a) k) l)) ks) =
  List.length (filter (fun a => existsb (keqb (f a)) ks) l).
Proof.
  intros Hnd. induction l as [|a l IH]; simpl.
  - induction ks as [|k ks IHk]; simpl; [reflexivity|].
    inversion Hnd; subst. now apply IHk.
  - transitivity
      (list_sum (map (fun k => (if keqb (f a) k then 1 else 0)
                               + List.length (filter (fun a0 => keqb (f a0) k) l)) ks)).
    + f_equal. apply map_ext. intros k. now destruct (keqb (f a) k).
    + rewrite list_sum_map_add, IH, (indicator_sum (f a) Hnd).
      now destruct (existsb (keqb (f a)) ks).
Qed.

End Counting.

Lemma filter_map_length (A B : Type) (g : A -> B) (p : B -> bool) (l : list A) :
  List.length (filter (fun x => p (g x)) l) = List.length (filter p (map g l)).
Proof.
  induction l as [|x l IH]; simpl; [reflexivity|].
  destruct (p (g x)); simpl; now rewrite IH.
Qed.

Lemma first_appearance_length (l : list jsstring) :
  List.length (first_appearance l) <= List.length l.
Proof.
  induction l as [|x l IH]; simpl; [lia|].
  pose proof (filter_length_le (fun y => negb (eqb y x)) (first_appearance l)).
  lia.
Qed.

(* ================================================================= *)
(** ** The tests of a run, read back *)

Lemma find_app_none (A : Type) (p : A -> bool) (l1 l2 : list A) :
  find p l1 = None -> find p (l1 ++ l2) = find p l2.
Proof.
  induction l1 as [|x l1 IH]; simpl; [reflexivity|].
  destruct (p x); [discriminate | exact IH].
Qed.

Lemma find_fresh_none (rows : list Results.row) rid :
  ~ In rid (map Results.id rows) ->
  find (fun r => Pos.eqb (Results.id r) rid) rows = None.
Proof.
  intros H. destruct (find _ rows) as [r|] eqn:E; [|reflexivity].
  apply find_some in E. destruct E as [Hin Hid]. apply Pos.eqb_eq in Hid.
  exfalso. apply H. rewrite <- Hid. now apply in_map.
Qed.

(** The total read back for a run whose suites have distinct ids: the number
    of tests attached to one of these suites. *)
Lemma readback_total_count (s : Store) (rid : positive) r :
  find (fun r => Pos.eqb (Results.id r) rid) (results s) = Some r ->
  NoDup (map Suites.id (suites_of s rid)) ->
  readback_total s rid =
  List.length
    (filter (fun t => existsb (Pos.eqb (Tests.suite_id (Tests.data t)))
                              (map Suites.id (suites_of s rid)))
            (tests s)).
Proof.
  intros Hfind Hnd. unfold readback_total, read_hierarchy. rewrite Hfind.
  unfold totalTests. simpl. rewrite fold_left_add_length, map_map. simpl.
  rewrite <- (sum_by_key Pos.eqb Pos.eqb_eq
                (fun t => Tests.suite_id (Tests.data t)) (tests s) Hnd).
  now rewrite map_map.
Qed.

Lemma batch_suite_id groups c r :
  In r (batch groups c) -> Tests.suite_id r = snd c.
Proof.
  unfold batch, testRecords. intros H. apply in_map_iff in H.
  destruct H as [s [<- _]]. reflexivity.
Qed.

Section Uploaded.

Variables (F : Faults) (scenarios : list Scenario)
          (groups : object (list Scenario)) (st : State).
Hypothesis accepted : results_insert_error F = None.
Hypothesis grouped : personaGroups scenarios = Some groups.
Hypothesis ok : store_ok (db st).

Local Abbreviation rid := (fresh_id (map Results.id (results (db st)))).
Local Abbreviation C :=
  (created F rid (limitedPersonas groups) (map Suites.id (suites (db st)))).
Local Abbreviation R := (flat_map (accepted_batch F groups) C).
Local Abbreviation st' := (uploadScenariosToDatabase F scenarios st).

Lemma uploaded_tests : tests (db st') = upsert_rows (tests (db st)) R.
Proof.
  pose proof (@upload_effect F scenarios groups st accepted grouped) as H.
  cbv zeta in H. tauto.
Qed.

Lemma uploaded_suites : suites (db st') = suites (db st) ++ map (suite_row rid) C.
Proof.
  pose proof (@upload_effect F scenarios groups st accepted grouped) as H.
  cbv zeta in H. tauto.
Qed.

Lemma uploaded_results :
  results (db st') =
  results (db st) ++ [ {| Results.id := rid; Results.data := prData st |} ].
Proof.
  pose proof (@upload_effect F scenarios groups st accepted grouped) as H.
  cbv zeta in H. tauto.
Qed.

Lemma uploaded_resultId : resultId st' = Some rid.
Proof.
  pose proof (@upload_effect F scenarios groups st accepted grouped) as H.
  cbv zeta in H. tauto.
Qed.

(** Every test row after the upload is either a row from before, whose
    name was not submitted and whose suite is an old one, or carries a
    record accepted for one of the new suites. *)
Lemma uploaded_row t :
  In t (tests (db st')) ->
  (In t (tests (db st))
   /\ ~ In (Tests.name (Tests.data t)) (map Tests.name R)
   /\ ~ In (Tests.suite_id (Tests.data t)) (map snd C))
  \/ (In (Tests.data t) R
      /\ In (Tests.suite_id (Tests.data t)) (map snd C)).
Proof.
  intros Hin. rewrite uploaded_tests in Hin.
  pose proof (@upsert_rows_row R (tests (db st)) t (unique_names ok) Hin) as H.
  destruct (find _ (rev R)) as [r|] eqn:E.
  - right. apply find_some in E. destruct E as [Hr _].
    apply in_rev in Hr. rewrite H. split; [assumption|].
    unfold R in Hr. apply in_flat_map in Hr. destruct Hr as [c [Hc Hr]].
    apply accepted_batch_In, batch_suite_id in Hr. rewrite Hr.
    now apply in_map.
  - left. repeat split; [assumption | |].
    + intros Hn. apply in_map_iff in Hn. destruct Hn as [r [Hr Hinr]].
      apply in_rev in Hinr. pose proof (find_none _ _ E r Hinr) as Hf.
      simpl in Hf. rewrite Hr, eqb_refl in Hf. discriminate.
    + intros Hs. apply in_map_iff in Hs. destruct Hs as [c [Hc Hinc]].
      apply created_fresh in Hinc. apply Hinc. rewrite Hc.
      now apply (tests_in_suites ok).
Qed.

Lemma uploaded_store_ok : store_ok (db st').
Proof.
  constructor.
  - rewrite uploaded_tests. apply upsert_rows_unique, (unique_names ok).
  - intros t Ht. rewrite uploaded_suites, map_app. apply in_or_app.
    destruct (uploaded_row t Ht) as [(Hold & _ & _)|[_ Hnew]].
    + left. now apply (tests_in_suites ok).
    + right. now rewrite map_map.
  - intros x Hx. rewrite uploaded_results, map_app. apply in_or_app.
    rewrite uploaded_suites in Hx. apply in_app_or in Hx.
    destruct Hx as [Hx|Hx].
    + left. now apply (suites_in_results ok).
    + right. apply in_map_iff in Hx. destruct Hx as [c [<- _]]. now left.
Qed.

Lemma uploaded_suites_of : suites_of (db st') rid = map (suite_row rid) C.
Proof.
  unfold suites_of. rewrite uploaded_suites, filter_app.
  rewrite filter_none, filter_all; [reflexivity | |].
  - intros x Hx. apply in_map_iff in Hx. destruct Hx as [c [<- _]].
    simpl. apply Pos.eqb_refl.
  - intros x Hx. apply Pos.eqb_neq. intros Heq.
    apply (fresh_id_fresh (map Results.id (results (db st)))).
    fold rid. rewrite <- Heq. now apply (suites_in_results ok).
Qed.

(** The total read back for the new run: the rows that carry a submitted
    name. *)
Lemma uploaded_readback :
  readback_total (db st') rid =
  List.length
    (filter (fun t => mem (Tests.name (Tests.data t)) (map Tests.name R))
            (tests (db st'))).
Proof.
  assert (Hfind : find (fun r => Pos.eqb (Results.id r) rid) (results (db st'))
                  = Some {| Results.id := rid; Results.data := prData st |}).
  { rewrite uploaded_results, find_app_none.
    - simpl. now rewrite Pos.eqb_refl.
    - apply find_fresh_none, fresh_id_fresh. }
  rewrite (@readback_total_count (db st') rid _ Hfind);
    rewrite uploaded_suites_of, map_map; simpl.
  2: apply created_ids_NoDup.
  f_equal. apply filter_ext_in. intros t Ht.
  destruct (uploaded_row t Ht) as [(_ & Hn & Hs)|[Hr Hs]].
  - apply mem_not_In in Hn. rewrite Hn.
    destruct (existsb _ _) eqn:E; [|reflexivity].
    exfalso. apply Hs. apply existsb_exists in E.
    destruct E as [i [Hi Heq]]. apply Pos.eqb_eq in Heq.
    rewrite Heq. exact Hi.
  - assert (Hn : mem (Tests.name (Tests.data t)) (map Tests.name R) = true)
      by (apply mem_In; now apply in_map).
    rewrite Hn. apply existsb_exists.
    exists (Tests.suite_id (Tests.data t)).
    split; [exact Hs | apply Pos.eqb_refl].
Qed.

End Uploaded.

(* ================================================================= *)
(** ** The cap on scenarios *)

Lemma cap_scenarios_firstn (parsedScenarios : list Scenario) :
  cap_scenarios parsedScenarios = firstn 4 parsedScenarios.
Proof.
  unfold cap_scenarios, slice0.
  destruct (Nat.ltb 4 (List.length parsedScenarios)) eqn:E; [reflexivity|].
  apply Nat.ltb_ge in E. symmetry. now apply firstn_all2.
Qed.

Lemma scenarios_of_length env parsedScenarios :
  List.length (scenarios_of env parsedScenarios) <= 4.
Proof.
  unfold scenarios_of. rewrite length_map, cap_scenarios_firstn.
  apply firstn_le_length.
Qed.

Lemma scenarios_of_In env parsedScenarios s' :
  In s' (scenarios_of env parsedScenarios) ->
  exists s, In s (firstn 4 parsedScenarios)
            /\ persona_key s' = persona_key s /\ description s' = description s.
Proof.
  unfold scenarios_of. rewrite cap_scenarios_firstn. intros H.
  apply in_map_iff in H. destruct H as [s [<- Hs]]. now exists s.
Qed.

Lemma list_sum_le (A : Type) (g h : A -> nat) (l : list A) :
  (forall x, In x l -> g x <= h x) ->
  list_sum (map g l) <= list_sum (map h l).
Proof.
  induction l as [|x l IH]; simpl; intros H; [lia|].
  pose proof (H x (or_introl eq_refl)).
  assert (list_sum (map g l) <= list_sum (map h l))
    by (apply IH; intros y Hy; apply H; now right).
  lia.
Qed.

Lemma personaGroups_NoDup scenarios groups :
  personaGroups scenarios = Some groups -> NoDup (map fst groups).
Proof.
  intros Hg. rewrite (@personaGroups_keys scenarios groups Hg).
  apply first_appearance_NoDup.
Qed.

(** All batches together hold no more records than there are scenarios. *)
Lemma batches_length F rid scenarios groups ids :
  personaGroups scenarios = Some groups ->
  List.length
    (flat_map (batch groups) (created F rid (limitedPersonas groups) ids))
  <= List.length scenarios.
Proof.
  intros Hg. set (C := created F rid (limitedPersonas groups) ids).
  rewrite length_flat_map.
  transitivity
    (list_sum (map (fun c => List.length (scenarios_with (fst c) scenarios)) C)).
  - apply list_sum_le. intros c _. unfold batch, testRecords.
    rewrite length_map, <- (length_map description),
      uniqueScenarios_descriptions.
    rewrite (@personaGroups_group_of scenarios groups (fst c) Hg).
    etransitivity; [apply first_appearance_length|]. now rewrite length_map.
  - rewrite <- (map_map fst (fun k => List.length (scenarios_with k scenarios))).
    unfold scenarios_with.
    rewrite (@sum_by_key Scenario jsstring eqb eqb_eq persona_key scenarios).
    + apply filter_length_le.
    + unfold C. rewrite created_personas. apply NoDup_filter.
      apply limitedPersonas_NoDup. now apply (@personaGroups_NoDup scenarios).
Qed.

Lemma accepted_batches_length F groups (C : list (jsstring * positive)) :
  List.length (flat_map (accepted_batch F groups) C)
  <= List.length (flat_map (batch groups) C).
Proof.
  rewrite !length_flat_map. apply list_sum_le. intros c _.
  unfold accepted_batch. destruct (tests_upsert_error F _); simpl; lia.
Qed.

(** The total read back for a new run is at most the number of scenarios. *)
Lemma upload_readback_le F scenarios st :
  results_insert_error F = None ->
  store_ok (db st) ->
  let rid := fresh_id (map Results.id (results (db st))) in
  let st' := uploadScenariosToDatabase F scenarios st in
  resultId st' = Some rid
  /\ readback_total (db st') rid <= List.length scenarios.
Proof.
  intros Hins Hok rid st'.
  destruct (personaGroups scenarios) as [groups|] eqn:Hg.
  - split; [now apply (@uploaded_resultId F scenarios groups)|].
    unfold st', rid.
    rewrite (@uploaded_readback F scenarios groups st Hins Hg Hok).
    set (R := flat_map (accepted_batch F groups) _).
    rewrite (filter_map_length (fun t => Tests.name (Tests.data t))
               (fun n => mem n (map Tests.name R))).
    transitivity (List.length (map Tests.name R)).
    + apply NoDup_incl_length.
      * apply NoDup_filter.
        apply (unique_names
                 (@uploaded_store_ok F scenarios groups st Hins Hg Hok)).
      * intros n Hn. apply filter_In in Hn. now apply mem_In.
    + rewrite length_map. unfold R.
      etransitivity; [apply accepted_batches_length|].
      now apply batches_length.
  - unfold st', uploadScenariosToDatabase, insert_result.
    rewrite Hins, Hg. fold rid. simpl. split; [reflexivity|].
    unfold readback_total, read_hierarchy. simpl.
    rewrite find_app_none by apply find_fresh_none, fresh_id_fresh.
    simpl. rewrite Pos.eqb_refl. unfold totalTests. simpl.
    unfold suites_of. simpl. rewrite filter_none; [simpl; lia|].
    intros x Hx. apply Pos.eqb_neq. intros Heq.
    apply (fresh_id_fresh (map Results.id (results (db st)))).
    fold rid. rewrite <- Heq. now apply (suites_in_results Hok).
Qed.

(** The requests of an upload name only personas and descriptions of the
    scenarios given, and submit no more records than there are scenarios;
    the rows it adds or overwrites are rows it requested. *)
Lemma upload_requests F scenarios st :
  exists ops,
    calls (uploadScenariosToDatabase F scenarios st) = calls st ++ ops
    /\ List.length (List.concat (test_batches ops)) <= List.length scenarios
    /\ (forall q, In q (suite_requests ops) ->
          exists s, In s scenarios
                    /\ Suites.name q = persona_key s +++ str " Agent Suite")
    /\ (forall r, In r (List.concat (test_batches ops)) ->
          exists s, In s scenarios /\ Tests.name r = description s)
    /\ (forall x, In x (suites (db (uploadScenariosToDatabase F scenarios st))) ->
          In x (suites (db st)) \/ In (Suites.data x) (suite_requests ops))
    /\ (forall t, In t (tests (db (uploadScenariosToDatabase F scenarios st))) ->
          In t (tests (db st))
          \/ In (Tests.data t) (List.concat (test_batches ops))).
Proof.
  destruct (results_insert_error F) as [e|] eqn:Hins.
  - rewrite (@upload_rejected F scenarios st e Hins). simpl.
    exists [InsertResult (prData st) None]. simpl.
    repeat split; try lia; try (intros ? []); tauto.
  - destruct (personaGroups scenarios) as [groups|] eqn:Hg.
    + pose proof (@upload_effect F scenarios groups st Hins Hg) as H.
      cbv zeta in H. destruct H as (_ & _ & Hs & Ht & [ops Hops] & _).
      destruct Hops as (Hc & Hsr & Htb & _).
      exists (InsertResult (prData st)
                (Some (fresh_id (map Results.id (results (db st))))) :: ops).
      split; [assumption|]. simpl. fold (test_batches ops) (suite_requests ops).
      rewrite Htb, Hsr, <- flat_map_concat_map.
      repeat split.
      * now apply batches_length.
      * intros q Hq. apply in_map_iff in Hq. destruct Hq as [p [<- Hp]].
        apply limitedPersonas_keys in Hp.
        rewrite (@personaGroups_keys scenarios groups Hg) in Hp.
        apply first_appearance_In, in_map_iff in Hp.
        destruct Hp as [s [<- Hs']]. now exists s.
      * intros r Hr. apply in_flat_map in Hr. destruct Hr as [c [_ Hr]].
        destruct (@batch_record scenarios groups c r Hg Hr)
          as [s (Hs' & _ & Hrs & _)].
        exists s. split; [assumption|]. now rewrite Hrs.
      * intros x Hx. rewrite Hs in Hx. apply in_app_or in Hx.
        destruct Hx as [Hx|Hx]; [now left | right].
        apply in_map_iff in Hx. destruct Hx as [c [<- Hc']]. simpl.
        apply in_map. now apply (@created_In F _ _ _ c Hc').
      * intros t Hin. rewrite Ht in Hin. apply upsert_rows_In in Hin.
        destruct Hin as [Hin|Hin]; [now left | right].
        apply in_flat_map in Hin. destruct Hin as [c [Hc' Hr]].
        apply in_flat_map. exists c. split; [assumption|].
        now apply accepted_batch_In in Hr.
    + unfold uploadScenariosToDatabase, insert_result. rewrite Hins, Hg. simpl.
      exists [InsertResult (prData st)
                (Some (fresh_id (map Results.id (results (db st)))))].
      simpl. repeat split; try lia; try (intros ? []); tauto.
Qed.

(** C10: the analysis keeps the first 4 generated scenarios, whatever their
    personas, before anything is grouped.  So one run submits at most 4 test
    records over all its suites, reads back at most 4 tests for its run, and
    requests suites and tests only for personas and descriptions of the first
    4 scenarios: a later scenario with a persona of its own has no suite
    requested or added. *)
Theorem C10_only_first_four_scenarios env F parsedScenarios st :
  let st' := snd (analyzePR env F parsedScenarios st) in
  fst (analyzePR env F parsedScenarios st)
  = map (fill_summary (or_default (DEPLOYMENT_URL env) (str "the app")))
        (firstn 4 parsedScenarios)
  /\ (exists ops,
        calls st' = calls st ++ ops
        /\ List.length (List.concat (test_batches ops)) <= 4
        /\ (forall q, In q (suite_requests ops) ->
              exists s, In s (firstn 4 parsedScenarios)
                        /\ Suites.name q = persona_key s +++ str " Agent Suite")
        /\ (forall r, In r (List.concat (test_batches ops)) ->
              exists s, In s (firstn 4 parsedScenarios)
                        /\ Tests.name r = description s)
        /\ (forall x, In x (suites (db st')) ->
              In x (suites (db st)) \/ In (Suites.data x) (suite_requests ops))
        /\ (forall t, In t (tests (db st')) ->
              In t (tests (db st))
              \/ In (Tests.data t) (List.concat (test_batches ops)))
        /\ (forall s5, In s5 (skipn 4 parsedScenarios) ->
              (forall s, In s (firstn 4 parsedScenarios) ->
                 persona_key s <> persona_key s5) ->
              forall q, In q (suite_requests ops) ->
                Suites.name q <> persona_key s5 +++ str " Agent Suite"))
  /\ (results_insert_error F = None -> store_ok (db st) ->
      exists rid, resultId st' = Some rid /\ readback_total (db st') rid <= 4).
Proof.
  intros st'. unfold st', analyzePR. simpl.
  pose proof (scenarios_of_length env parsedScenarios) as Hlen.
  repeat split.
  - unfold scenarios_of. now rewrite cap_scenarios_firstn.
  - destruct (upload_requests F (scenarios_of env parsedScenarios) st)
      as [ops (Hc & Hn & Hq & Hr & Hx & Ht)].
    assert (Hq' : forall q, In q (suite_requests ops) ->
              exists s, In s (firstn 4 parsedScenarios)
                        /\ Suites.name q = persona_key s +++ str " Agent Suite").
    { intros q Hin. destruct (Hq q Hin) as [s' [Hs' Hname]].
      destruct (@scenarios_of_In env parsedScenarios s' Hs') as [s (Hs & Hp & _)].
      exists s. split; [assumption|]. now rewrite <- Hp. }
    exists ops. repeat split; try assumption.
    + lia.
    + intros r Hin. destruct (Hr r Hin) as [s' [Hs' Hname]].
      destruct (@scenarios_of_In env parsedScenarios s' Hs') as [s (Hs & _ & Hd)].
      exists s. split; [assumption|]. now rewrite <- Hd.
    + intros s5 _ Hnew q Hin Hname.
      destruct (Hq' q Hin) as [s [Hs Heq]]. rewrite Hname in Heq.
      apply app_inv_tail in Heq. now apply (Hnew s Hs).
  - intros Hins Hok.
    destruct (@upload_readback_le F (scenarios_of env parsedScenarios) st Hins Hok)
      as [Hid Hle].
    eexists. split; [exact Hid|]. lia.
Qed.

(* ================================================================= *)
(** ** Reruns *)

Lemma batch_names groups c :
  map Tests.name (batch groups c) =
  first_appearance (map description (group_of groups (fst c))).
Proof. apply testRecords_names. Qed.

Lemma no_faults_names rid groups personas ids :
  map Tests.name
      (flat_map (accepted_batch no_faults groups)
                (created no_faults rid personas ids)) =
  flat_map (fun p => first_appearance (map description (group_of groups p)))
           personas.
Proof.
  revert ids. induction personas as [|p personas IH]; intros ids;
    [reflexivity|].
  simpl. rewrite map_app, IH. f_equal.
  unfold accepted_batch. simpl. apply batch_names.
Qed.

Lemma upsert_rows_same_names rs rows :
  incl (map Tests.name rs) (test_names rows) ->
  test_names (upsert_rows rows rs) = test_names rows.
Proof.
  intros Hincl. rewrite upsert_rows_names, filter_none; [apply app_nil_r|].
  intros k Hk. apply negb_false_iff, mem_In, Hincl.
  apply first_appearance_In. exact Hk.
Qed.

Lemma upsert_rows_has_names rs rows :
  incl (map Tests.name rs) (test_names (upsert_rows rows rs)).
Proof.
  intros k Hk. rewrite upsert_rows_names. apply in_or_app.
  destruct (mem k (test_names rows)) eqn:E.
  - left. now apply mem_In.
  - right. apply filter_In. split; [now apply first_appearance_In|].
    now rewrite E.
Qed.

(** An upload whose grouping throws leaves a run without suites. *)
Lemma upload_ungrouped F scenarios st :
  results_insert_error F = None ->
  personaGroups scenarios = None ->
  store_ok (db st) ->
  let rid := fresh_id (map Results.id (results (db st))) in
  let st' := uploadScenariosToDatabase F scenarios st in
  resultId st' = Some rid
  /\ results (db st') =
     results (db st) ++ [ {| Results.id := rid; Results.data := prData st |} ]
  /\ suites (db st') = suites (db st)
  /\ tests (db st') = tests (db st)
  /\ readback_total (db st') rid = 0.
Proof.
  intros Hins Hg Hok rid st'.
  unfold st', uploadScenariosToDatabase, insert_result.
  rewrite Hins, Hg. fold rid. simpl. repeat split.
  unfold readback_total, read_hierarchy. simpl.
  rewrite find_app_none by apply find_fresh_none, fresh_id_fresh.
  simpl. rewrite Pos.eqb_refl. unfold totalTests, suites_of. simpl.
  rewrite filter_none; [reflexivity|].
  intros x Hx. apply Pos.eqb_neq. intros Heq.
  apply (fresh_id_fresh (map Results.id (results (db st)))).
  fold rid. rewrite <- Heq. now apply (suites_in_results Hok).
Qed.

(* ================================================================= *)
(** ** Deduplication within a persona group, at the upload *)

(** With ordinary labels the grouping succeeds and the personas retained
    are the first four in order of first appearance. *)
Lemma ordinary_grouping scenarios :
  (forall s, In s scenarios -> ordinary_label (persona_key s)) ->
  exists groups,
    personaGroups scenarios = Some groups
    /\ limitedPersonas groups
       = firstn 4 (first_appearance (map persona_key scenarios)).
Proof.
  intros Hord.
  destruct (@reduce_Some scenarios []) as [groups Hg].
  { intros s Hs. apply (Hord s Hs). }
  exists groups. split; [exact Hg|].
  now apply limitedPersonas_ordinary.
Qed.

Lemma created_personas_NoDup F rid scenarios groups ids :
  personaGroups scenarios = Some groups ->
  NoDup (map fst (created F rid (limitedPersonas groups) ids)).
Proof.
  intros Hg. rewrite created_personas.
  apply NoDup_filter, limitedPersonas_NoDup.
  now apply (@personaGroups_NoDup scenarios).
Qed.

Lemma test_batches_uploaded (ops0 ops : list Op) r o :
  test_batches (ops0 ++ InsertResult r o :: ops)
  = test_batches ops0 ++ test_batches ops.
Proof. unfold test_batches. now rewrite flat_map_app. Qed.

(** C3, as stated, fails: the persona buyer has two scenarios with the
    description d3 and a record for d3 is submitted for its suite, but the
    later persona seller has a scenario with the same description, and the
    upsert on the name moves the one test named d3 to the suite of seller:
    no test is persisted for the suite of buyer. *)
Lemma C3_shared_description_leaves_the_suite :
  let st' := uploadScenariosToDatabase no_faults shared_description pipeline0 in
  scenarios_with (str "buyer") shared_description
  = [ scenario "d3" "buyer"; scenario "d3" "buyer" ]
  /\ map Suites.data (suites (db st'))
     = [ suiteRecord 1%positive (str "buyer");
         suiteRecord 1%positive (str "seller") ]
  /\ map Suites.id (suites (db st')) = [ 1%positive; 2%positive ]
  /\ test_batches (calls st')
     = [ [ testRecord 1%positive (scenario "d3" "buyer") ];
         [ testRecord 2%positive (scenario "d3" "seller") ] ]
  /\ tests_of (db st') 1%positive = []
  /\ map Tests.data (tests (db st'))
     = [ testRecord 2%positive (scenario "d3" "seller") ]
  /\ ~ (exists t, In t (tests_of (db st') 1%positive)
                  /\ Tests.name (Tests.data t) = str "d3").
Proof.
  vm_compute. repeat split. intros [t [[] _]].
Qed.

(** C3, amended: for a persona with an ordinary label among the first four
    personas of scenarios that all have ordinary labels, when the store
    (unique test names, intact references) accepts the run, the suite of the
    persona and its batch of tests, the upload creates a new suite for the
    persona and submits for it one record per distinct description of the
    group, in order of first appearance, each built from the last scenario
    of the group with that description.  Every test that the suite holds
    afterwards is one of these records; and for every description of the
    group that no scenario of another persona carries, exactly one test of
    that name is in the store afterwards: it belongs to the suite of the
    persona and holds the record built from the last scenario of the group
    with that description. *)
Theorem C3_one_test_per_description_last_kept F scenarios st p :
  let rid := fresh_id (map Results.id (results (db st))) in
  let st' := uploadScenariosToDatabase F scenarios st in
  let group := scenarios_with p scenarios in
  (forall s, In s scenarios -> ordinary_label (persona_key s)) ->
  In p (firstn 4 (first_appearance (map persona_key scenarios))) ->
  store_ok (db st) ->
  results_insert_error F = None ->
  suites_insert_error F (suiteRecord rid p) = None ->
  (forall sid, tests_upsert_error F (testRecords sid group) = None) ->
  exists sid,
    In (suite_row rid (p, sid)) (suites (db st'))
    /\ ~ In sid (map Suites.id (suites (db st)))
    /\ In (testRecords sid group) (test_batches (calls st'))
    /\ map Tests.name (testRecords sid group)
       = first_appearance (map description group)
    /\ (forall s, In s group ->
          List.length (filter (fun r => eqb (Tests.name r) (description s))
                              (testRecords sid group)) = 1)
    /\ (forall r, In r (testRecords sid group) ->
          exists s, last_with (Tests.name r) group = Some s
                    /\ r = testRecord sid s)
    /\ (forall t, In t (tests_of (db st') sid) ->
          In (Tests.data t) (testRecords sid group))
    /\ (forall s, In s group ->
          (forall s', In s' scenarios -> description s' = description s ->
                      persona_key s' = p) ->
          exists last t,
            last_with (description s) group = Some last
            /\ In t (tests_of (db st') sid)
            /\ Tests.data t = testRecord sid last
            /\ forall t', In t' (tests (db st')) ->
                  Tests.name (Tests.data t') = description s -> t' = t).
Proof.
  intros rid st' group Hord Hp Hok Hins Hsuite Htests.
  destruct (@ordinary_grouping scenarios Hord) as [groups [Hg Hlim]].
  rewrite <- Hlim in Hp.
  pose proof (@upload_effect F scenarios groups st Hins Hg) as H.
  cbv zeta in H. fold rid st' in H.
  destruct H as (_ & _ & Hs & Ht & [ops (Hc & _ & Htb & _)] & _).
  set (C := created F rid (limitedPersonas groups)
              (map Suites.id (suites (db st)))) in *.
  destruct (@created_of_accepted F rid (limitedPersonas groups)
              (map Suites.id (suites (db st))) p Hp Hsuite) as [sid Hc1].
  fold C in Hc1.
  assert (Hbatch : batch groups (p, sid) = testRecords sid group).
  { unfold batch. simpl.
    now rewrite (@personaGroups_group_of scenarios groups p Hg). }
  destruct (testRecords_one_per_description sid group)
    as (Hnames & Hnd & Hone & Hlast & _).
  exists sid.
  split.
  { rewrite Hs. apply in_or_app. right.
    apply (in_map (suite_row rid) C (p, sid) Hc1). }
  split.
  { apply (@created_fresh F rid (limitedPersonas groups)
             (map Suites.id (suites (db st))) (p, sid) Hc1). }
  split.
  { rewrite Hc, test_batches_uploaded. apply in_or_app. right.
    rewrite Htb, <- Hbatch. now apply in_map. }
  split; [exact Hnames|]. split; [exact Hone|]. split; [exact Hlast|].
  split.
  { intros t Hin. unfold tests_of in Hin. apply filter_In in Hin.
    destruct Hin as [Hin Hsid]. apply Pos.eqb_eq in Hsid.
    destruct (@uploaded_row F scenarios groups st Hins Hg Hok t Hin)
      as [(_ & _ & Hnot)|[HR _]].
    - exfalso. apply Hnot. rewrite Hsid.
      apply (in_map snd C (p, sid) Hc1).
    - apply in_flat_map in HR. destruct HR as [c' [Hc' Hr']].
      apply accepted_batch_In in Hr'.
      pose proof (@batch_suite_id groups c' _ Hr') as Hid.
      assert (Hcc : c' = (p, sid)).
      { apply (@NoDup_map_inj _ _ snd C); try assumption.
        - apply created_ids_NoDup.
        - simpl. now rewrite <- Hid. }
      subst c'. now rewrite Hbatch in Hr'. }
  intros s Hs_in Huniq.
  destruct (@last_with_In group s Hs_in) as [last Hl].
  destruct (@last_with_Some group _ last Hl) as [_ Hd].
  set (r := testRecord sid last).
  assert (Hname : Tests.name r = description s) by exact Hd.
  assert (Hr : In r (testRecords sid group)).
  { apply testRecords_In. exists last. split; [|reflexivity].
    rewrite Hname. exact Hl. }
  set (R := flat_map (accepted_batch F groups) C) in *.
  assert (HrR : In r R).
  { unfold R. apply in_flat_map. exists (p, sid). split; [exact Hc1|].
    unfold accepted_batch. now rewrite Hbatch, Htests. }
  assert (Hin : In (description s) (test_names (tests (db st')))).
  { rewrite Ht. apply upsert_rows_has_names. rewrite <- Hname.
    now apply in_map. }
  unfold test_names in Hin. apply in_map_iff in Hin.
  destruct Hin as [t [Htn Htin]].
  assert (Hdata : Tests.data t = r).
  { assert (Htin' := Htin). rewrite Ht in Htin'.
    pose proof (@upsert_rows_row R (tests (db st)) t (unique_names Hok) Htin')
      as Hrow.
    destruct (find _ (rev R)) as [r'|] eqn:Ef.
    - apply find_some in Ef. destruct Ef as [Hr' Hn'].
      apply eqb_eq in Hn'. rewrite Htn in Hn'. apply in_rev in Hr'.
      unfold R in Hr'. apply in_flat_map in Hr'.
      destruct Hr' as [c' [Hc' Hr']]. apply accepted_batch_In in Hr'.
      destruct (@batch_record scenarios groups c' r' Hg Hr')
        as [s' (Hs' & Hk' & Hrec & _)].
      assert (Hp' : fst c' = p).
      { rewrite <- Hk'. apply Huniq; [exact Hs'|].
        rewrite <- Hn', Hrec. reflexivity. }
      assert (Hcc : c' = (p, sid)).
      { apply (@NoDup_map_inj _ _ fst C); try assumption.
        apply (@created_personas_NoDup F rid scenarios groups _ Hg). }
      subst c'. rewrite Hbatch in Hr'. rewrite Hrow.
      apply (@NoDup_map_inj _ _ Tests.name (testRecords sid group));
        try assumption.
      now rewrite Hn', Hname.
    - exfalso. apply in_rev in HrR.
      pose proof (find_none _ _ Ef r HrR) as Hn. cbv beta in Hn.
      rewrite Htn, Hname, eqb_refl in Hn. discriminate. }
  exists last, t. split; [exact Hl|]. split.
  { unfold tests_of. apply filter_In. split; [exact Htin|].
    rewrite Hdata. simpl. apply Pos.eqb_refl. }
  split; [exact Hdata|].
  intros t' Ht' Hn'.
  pose proof (@uploaded_store_ok F scenarios groups st Hins Hg Hok) as Hok'.
  fold st' in Hok'.
  apply (@NoDup_map_inj _ _ (fun t => Tests.name (Tests.data t))
           (tests (db st'))); try assumption.
  - apply (unique_names Hok').
  - now rewrite Hn', Htn.
Qed.

(** C8, as stated, fails: admin and auditor both have a scenario with the
    description d1 and the grouping keeps a draft for it in both groups, but
    auditor is the fifth persona: it gets no suite, and the only record
    named d1 that is submitted is the one for the suite of admin. *)
Lemma C8_fifth_persona_is_not_submitted :
  let st' := uploadScenariosToDatabase no_faults beyond_the_cap pipeline0 in
  In (scenario "d1" "admin") beyond_the_cap
  /\ In (scenario "d1" "auditor") beyond_the_cap
  /\ own (groups_of beyond_the_cap) (str "auditor")
     = Some [ scenario "d1" "auditor" ]
  /\ personaGroups beyond_the_cap = Some (groups_of beyond_the_cap)
  /\ map Suites.name (suite_requests (calls st'))
     = [ str "admin Agent Suite"; str "guest Agent Suite";
         str "editor Agent Suite"; str "viewer Agent Suite" ]
  /\ filter (fun r => eqb (Tests.name r) (str "d1"))
            (List.concat (test_batches (calls st')))
     = [ testRecord 1%positive (scenario "d1" "admin") ]
  /\ ~ (exists rs r, In rs (test_batches (calls st')) /\ In r rs
                     /\ Tests.name r = str "d1"
                     /\ Tests.suite_id r <> 1%positive).
Proof.
  vm_compute. repeat split; try tauto.
  intros [rs [r (Hrs & Hr & Hn & Hs)]].
  repeat (destruct Hrs as [<-|Hrs];
          [destruct Hr as [<-|[]]; first [discriminate Hn | now apply Hs]|]).
  contradiction.
Qed.

(** C8, amended: deduplication never crosses persona groups, for the
    personas that are retained.  When all labels are ordinary, two scenarios
    with the same description carry different personas that are both among
    the first four, and the store accepts the run and the suites of the two
    personas, the grouping keeps a draft with that description in the group
    of each of the two personas, and the upload creates two different
    suites and submits for each of them a batch that holds a record with
    that description. *)
Theorem C8_no_dedup_across_personas F scenarios st s1 s2 :
  let rid := fresh_id (map Results.id (results (db st))) in
  let st' := uploadScenariosToDatabase F scenarios st in
  let kept := firstn 4 (first_appearance (map persona_key scenarios)) in
  (forall s, In s scenarios -> ordinary_label (persona_key s)) ->
  In s1 scenarios -> In s2 scenarios ->
  description s1 = description s2 ->
  persona_key s1 <> persona_key s2 ->
  In (persona_key s1) kept -> In (persona_key s2) kept ->
  results_insert_error F = None ->
  suites_insert_error F (suiteRecord rid (persona_key s1)) = None ->
  suites_insert_error F (suiteRecord rid (persona_key s2)) = None ->
  exists groups,
    personaGroups scenarios = Some groups
    /\ (exists x1 x2 g1 g2,
          own groups (persona_key s1) = Some g1
          /\ own groups (persona_key s2) = Some g2
          /\ In x1 (uniqueScenarios g1) /\ In x2 (uniqueScenarios g2)
          /\ description x1 = description s1
          /\ description x2 = description s1)
    /\ (exists sid1 sid2 rs1 rs2 r1 r2,
          sid1 <> sid2
          /\ In (suite_row rid (persona_key s1, sid1)) (suites (db st'))
          /\ In (suite_row rid (persona_key s2, sid2)) (suites (db st'))
          /\ In rs1 (test_batches (calls st'))
          /\ In rs2 (test_batches (calls st'))
          /\ In r1 rs1 /\ In r2 rs2
          /\ Tests.name r1 = description s1
          /\ Tests.name r2 = description s1
          /\ Tests.suite_id r1 = sid1 /\ Tests.suite_id r2 = sid2).
Proof.
  intros rid st' kept Hord H1 H2 Hd Hne Hk1 Hk2 Hins Ha1 Ha2.
  destruct (@ordinary_grouping scenarios Hord) as [groups [Hg Hlim]].
  unfold kept in Hk1, Hk2. rewrite <- Hlim in Hk1, Hk2.
  pose proof (@retained_groups_are_submitted F scenarios groups st s1 s2
                Hg H1 H2 Hd Hne) as [Hgroups Hsub].
  exists groups. split; [exact Hg|]. split; [exact Hgroups|].
  exact (Hsub Hins Hk1 Hk2 Ha1 Ha2).
Qed.

(** C4, as stated, fails: a rerun with the same scenarios inserts a second
    run record and gets a new run id. *)
Lemma C4_rerun_creates_a_new_run :
  let st1 := uploadScenariosToDatabase no_faults five_ordinary_personas pipeline0 in
  let st2 := uploadScenariosToDatabase no_faults five_ordinary_personas
               (new_pipeline (pr_link pipeline0) (pr_name pipeline0) (db st1)) in
  List.length (results (db st1)) = 1
  /\ List.length (results (db st2)) = 2
  /\ resultId st1 = Some 1%positive
  /\ resultId st2 = Some 2%positive
  /\ ~ (List.length (results (db st2)) = List.length (results (db st1))).
Proof.
  vm_compute. repeat split; discriminate.
Qed.

(** C4, amended: on a store with unique test names and intact references,
    uploading the same scenario list a second time without store errors
    leaves the test names as they were after the first upload, without
    duplicates and in the same number, and the total read back for the second
    run equals the total read back for the first; but the second upload does
    insert a new run record, with a new id, to which the tests then belong. *)
Theorem C4_rerun_upserts_tests scenarios link name s0 :
  store_ok s0 ->
  let st1 := uploadScenariosToDatabase no_faults scenarios
               (new_pipeline link name s0) in
  let st2 := uploadScenariosToDatabase no_faults scenarios
               (new_pipeline link name (db st1)) in
  NoDup (test_names (tests (db st2)))
  /\ test_names (tests (db st2)) = test_names (tests (db st1))
  /\ List.length (tests (db st2)) = List.length (tests (db st1))
  /\ (exists rid1 rid2,
        resultId st1 = Some rid1 /\ resultId st2 = Some rid2 /\ rid1 <> rid2
        /\ readback_total (db st2) rid2 = readback_total (db st1) rid1)
  /\ List.length (results (db st2)) = S (List.length (results (db st1))).
Proof.
  intros Hok st1 st2.
  set (p1 := new_pipeline link name s0) in *.
  set (p2 := new_pipeline link name (db st1)) in *.
  assert (Hins : results_insert_error no_faults = None) by reflexivity.
  assert (Hok1 : store_ok (db p1)) by exact Hok.
  set (rid1 := fresh_id (map Results.id (results (db p1)))).
  set (rid2 := fresh_id (map Results.id (results (db p2)))).
  assert (Hnames : test_names (tests (db st2)) = test_names (tests (db st1))
                   /\ store_ok (db st1)
                   /\ resultId st1 = Some rid1 /\ resultId st2 = Some rid2
                   /\ In rid1 (map Results.id (results (db p2)))
                   /\ readback_total (db st2) rid2 = readback_total (db st1) rid1
                   /\ List.length (results (db st2))
                      = S (List.length (results (db st1)))).
  { destruct (personaGroups scenarios) as [groups|] eqn:Hg.
    - pose proof (@uploaded_store_ok no_faults scenarios groups p1 Hins Hg Hok1)
        as Hok2.
      fold st1 in Hok2. assert (Hok2' : store_ok (db p2)) by exact Hok2.
      pose proof (@uploaded_tests no_faults scenarios groups p1 Hins Hg) as Ht1.
      pose proof (@uploaded_tests no_faults scenarios groups p2 Hins Hg) as Ht2.
      pose proof (@uploaded_readback no_faults scenarios groups p1 Hins Hg Hok1)
        as Hrb1.
      pose proof (@uploaded_readback no_faults scenarios groups p2 Hins Hg Hok2')
        as Hrb2.
      pose proof (@uploaded_results no_faults scenarios groups p1 Hins Hg) as Hr1.
      pose proof (@uploaded_results no_faults scenarios groups p2 Hins Hg) as Hr2.
      fold st1 rid1 in Ht1, Hrb1, Hr1. fold st2 rid2 in Ht2, Hrb2, Hr2.
      pose proof (no_faults_names rid1 groups (limitedPersonas groups)
                    (map Suites.id (suites (db p1)))) as HD1.
      pose proof (no_faults_names rid2 groups (limitedPersonas groups)
                    (map Suites.id (suites (db p2)))) as HD2.
      fold rid1 in Ht1, Hrb1. fold rid2 in Ht2, Hrb2.
      rewrite HD1 in Hrb1. rewrite HD2 in Hrb2.
      assert (Hsame : test_names (tests (db st2)) = test_names (tests (db st1))).
      { rewrite Ht2. change (tests (db p2)) with (tests (db st1)).
        apply upsert_rows_same_names. rewrite HD2, <- HD1, Ht1.
        apply upsert_rows_has_names. }
      repeat split.
      + exact Hsame.
      + apply (unique_names Hok2).
      + apply (tests_in_suites Hok2).
      + apply (suites_in_results Hok2).
      + now apply (@uploaded_resultId no_faults scenarios groups).
      + now apply (@uploaded_resultId no_faults scenarios groups).
      + change (results (db p2)) with (results (db st1)). rewrite Hr1, map_app.
        apply in_or_app. right. now left.
      + rewrite Hrb1, Hrb2.
        set (D := flat_map _ (limitedPersonas groups)).
        rewrite !(filter_map_length (fun t => Tests.name (Tests.data t))
                    (fun n => mem n D)).
        fold (test_names (tests (db st2))) (test_names (tests (db st1))).
        now rewrite Hsame.
      + rewrite Hr2. change (results (db p2)) with (results (db st1)).
        rewrite length_app. simpl. lia.
    - destruct (@upload_ungrouped no_faults scenarios p1 Hins Hg Hok1)
        as (Hid1 & Hr1 & Hs1 & Ht1 & Hrb1).
      fold st1 rid1 in Hid1, Hr1, Hs1, Ht1, Hrb1.
      assert (Hok2 : store_ok (db st1)).
      { constructor.
        - rewrite Ht1. apply (unique_names Hok1).
        - intros t Ht. rewrite Ht1 in Ht. rewrite Hs1.
          now apply (tests_in_suites Hok1).
        - intros x Hx. rewrite Hs1 in Hx. rewrite Hr1, map_app.
          apply in_or_app. left. now apply (suites_in_results Hok1). }
      assert (Hok2' : store_ok (db p2)) by exact Hok2.
      destruct (@upload_ungrouped no_faults scenarios p2 Hins Hg Hok2')
        as (Hid2 & Hr2 & Hs2 & Ht2 & Hrb2).
      fold st2 rid2 in Hid2, Hr2, Hs2, Ht2, Hrb2.
      repeat split; try assumption.
      + now rewrite Ht2.
      + apply (unique_names Hok2).
      + apply (tests_in_suites Hok2).
      + apply (suites_in_results Hok2).
      + change (results (db p2)) with (results (db st1)). rewrite Hr1, map_app.
        apply in_or_app. right. now left.
      + now rewrite Hrb1, Hrb2.
      + rewrite Hr2. change (results (db p2)) with (results (db st1)).
        rewrite length_app. simpl. lia. }
  destruct Hnames as (Hsame & Hok2 & Hid1 & Hid2 & Hin & Hrb & Hlen).
  repeat split.
  - rewrite Hsame. apply (unique_names Hok2).
  - exact Hsame.
  - unfold test_names in Hsame.
    rewrite <- (length_map (fun t => Tests.name (Tests.data t)) (tests (db st2))).
    rewrite Hsame. apply length_map.
  - exists rid1, rid2. repeat split; try assumption.
    intros Heq. apply (fresh_id_fresh (map Results.id (results (db p2)))).
    fold rid2. now rewrite <- Heq.
  - exact Hlen.
Qed.

(* ================================================================= *)
(** ** The theorems at concrete inputs *)

Ltac each_scenario :=
  let s := fresh "s" in
  let Hs := fresh "Hs" in
  intros s Hs; simpl in Hs;
  repeat (destruct Hs as [<-|Hs]; [vm_compute; split; reflexivity|]);
  contradiction.

Lemma first_four_ordinary_personas_witness :
  (forall s, In s five_ordinary_personas -> ordinary_label (persona_key s))
  /\ results_insert_error no_faults = None
  /\ 4 < List.length (first_appearance (map persona_key five_ordinary_personas))
  /\ exists rows,
       suites (db (uploadScenariosToDatabase no_faults five_ordinary_personas pipeline0))
       = suites (db pipeline0) ++ rows
       /\ map Suites.data rows
          = map (suiteRecord (fresh_id (map Results.id (results (db pipeline0)))))
                (filter (suite_accepted no_faults
                           (fresh_id (map Results.id (results (db pipeline0)))))
                        (firstn 4 (first_appearance
                                     (map persona_key five_ordinary_personas)))).
Proof.
  assert (H1 : forall s, In s five_ordinary_personas ->
                         ordinary_label (persona_key s)) by each_scenario.
  assert (H2 : results_insert_error no_faults = None) by reflexivity.
  assert (H3 : 4 < List.length
                     (first_appearance (map persona_key five_ordinary_personas)))
    by (vm_compute; lia).
  refine (conj H1 (conj H2 (conj H3 _))).
  exact (proj1 (proj2 (proj2
           (@first_four_ordinary_personas no_faults five_ordinary_personas pipeline0
              H1 H2 H3)))).
Defined.

Lemma C4_rerun_upserts_tests_witness :
  store_ok empty_store
  /\ let st1 := uploadScenariosToDatabase no_faults five_ordinary_personas pipeline0 in
     let st2 := uploadScenariosToDatabase no_faults five_ordinary_personas
                  (new_pipeline (pr_link pipeline0) (pr_name pipeline0) (db st1)) in
     test_names (tests (db st2)) = test_names (tests (db st1))
     /\ List.length (results (db st2)) = S (List.length (results (db st1))).
Proof.
  assert (H : store_ok empty_store).
  { constructor; simpl; [constructor | intros ? [] | intros ? []]. }
  split; [exact H|].
  pose proof (@C4_rerun_upserts_tests five_ordinary_personas
                (pr_link pipeline0) (pr_name pipeline0) empty_store H) as T.
  cbv zeta in T. cbv zeta. split; [apply T | apply T].
Defined.

Lemma C5_only_success_is_accepted_witness :
  let st := uploadScenariosToDatabase no_faults five_ordinary_personas pipeline0 in
  env_set (QAI_ENDPOINT env0) = true
  /\ resultId st = Some 1%positive
  /\ timing_out_agent 1%positive (db st) = (TimedOut, db st)
  /\ fst (runTests env0 no_faults timing_out_agent st) = JBool false
  /\ hierarchy_reads (calls (snd (runTests env0 no_faults timing_out_agent st)))
     = hierarchy_reads (calls st).
Proof.
  intros st.
  assert (H1 : env_set (QAI_ENDPOINT env0) = true) by reflexivity.
  assert (H2 : resultId st = Some 1%positive) by (vm_compute; reflexivity).
  assert (H3 : timing_out_agent 1%positive (db st) = (TimedOut, db st))
    by reflexivity.
  refine (conj H1 (conj H2 (conj H3 _))).
  split;
    apply (proj2 (@C5_only_success_is_accepted env0 no_faults timing_out_agent
                    st 1%positive TimedOut (db st) H1 H2 H3));
    discriminate.
Defined.

Lemma C6_no_run_no_dispatch_witness :
  results_insert_error rejecting_runs
  = Some (str "permission denied for table results")
  /\ fst (full env0 rejecting_runs timing_out_agent five_ordinary_personas pipeline0)
     = false
  /\ agent_calls
       (calls (snd (full env0 rejecting_runs timing_out_agent
                      five_ordinary_personas pipeline0))) = [].
Proof.
  assert (H : results_insert_error rejecting_runs
              = Some (str "permission denied for table results")) by reflexivity.
  refine (conj H _).
  split;
    apply (@C6_no_run_no_dispatch env0 rejecting_runs timing_out_agent
             five_ordinary_personas (pr_link pipeline0) (pr_name pipeline0)
             empty_store _ H).
Defined.

Lemma C7_failed_suite_is_skipped_witness :
  results_insert_error rejecting_guest = None
  /\ personaGroups five_ordinary_personas = Some (groups_of five_ordinary_personas)
  /\ In (str "guest") (limitedPersonas (groups_of five_ordinary_personas))
  /\ suites_insert_error rejecting_guest
       (suiteRecord (fresh_id (map Results.id (results (db pipeline0))))
                    (str "guest"))
     = Some (str "violates row-level security policy")
  /\ In (FailedCreateSuite (str "violates row-level security policy"))
        (console (uploadScenariosToDatabase rejecting_guest
                    five_ordinary_personas pipeline0)).
Proof.
  assert (H1 : results_insert_error rejecting_guest = None) by reflexivity.
  assert (H2 : personaGroups five_ordinary_personas
               = Some (groups_of five_ordinary_personas)) by reflexivity.
  assert (H3 : In (str "guest")
                  (limitedPersonas (groups_of five_ordinary_personas)))
    by (vm_compute; tauto).
  assert (H4 : suites_insert_error rejecting_guest
                 (suiteRecord (fresh_id (map Results.id (results (db pipeline0))))
                              (str "guest"))
               = Some (str "violates row-level security policy"))
    by reflexivity.
  refine (conj H1 (conj H2 (conj H3 (conj H4 _)))).
  exact (proj1 (@C7_failed_suite_is_skipped rejecting_guest
                  five_ordinary_personas (groups_of five_ordinary_personas)
                  pipeline0 (str "guest")
                  (str "violates row-level security policy") H1 H2 H3 H4)).
Defined.

Lemma C3_one_test_per_description_last_kept_witness :
  let st' := uploadScenariosToDatabase no_faults duplicate_in_group pipeline0 in
  (forall s, In s duplicate_in_group -> ordinary_label (persona_key s))
  /\ In (str "admin")
        (firstn 4 (first_appearance (map persona_key duplicate_in_group)))
  /\ store_ok (db pipeline0)
  /\ results_insert_error no_faults = None
  /\ suites_insert_error no_faults
       (suiteRecord (fresh_id (map Results.id (results (db pipeline0))))
                    (str "admin")) = None
  /\ (forall sid,
        tests_upsert_error no_faults
          (testRecords sid (scenarios_with (str "admin") duplicate_in_group))
        = None)
  /\ exists sid t,
       In (suite_row 1%positive (str "admin", sid)) (suites (db st'))
       /\ In (testRecords sid (scenarios_with (str "admin") duplicate_in_group))
             (test_batches (calls st'))
       /\ map Tests.name
             (testRecords sid (scenarios_with (str "admin") duplicate_in_group))
          = [ str "d1" ]
       /\ In t (tests_of (db st') sid)
       /\ Tests.data t
          = testRecord sid (with_summary (JStr (str "second draft"))
                                         (scenario "d1" "admin"))
       /\ forall t', In t' (tests (db st')) ->
             Tests.name (Tests.data t') = str "d1" -> t' = t.
Proof.
  intros st'.
  assert (H1 : forall s, In s duplicate_in_group ->
                         ordinary_label (persona_key s)) by each_scenario.
  assert (H2 : In (str "admin")
                  (firstn 4 (first_appearance
                               (map persona_key duplicate_in_group))))
    by (vm_compute; tauto).
  assert (H3 : store_ok (db pipeline0)).
  { constructor; simpl; [constructor | intros ? [] | intros ? []]. }
  assert (H4 : results_insert_error no_faults = None) by reflexivity.
  assert (H5 : suites_insert_error no_faults
                 (suiteRecord (fresh_id (map Results.id (results (db pipeline0))))
                              (str "admin")) = None) by reflexivity.
  assert (H6 : forall sid,
             tests_upsert_error no_faults
               (testRecords sid
                  (scenarios_with (str "admin") duplicate_in_group)) = None)
    by reflexivity.
  refine (conj H1 (conj H2 (conj H3 (conj H4 (conj H5 (conj H6 _)))))).
  destruct (@C3_one_test_per_description_last_kept no_faults duplicate_in_group
              pipeline0 (str "admin") H1 H2 H3 H4 H5 H6)
    as [sid (Hsuite & _ & Hbatch & Hnames & _ & _ & _ & Hkept)].
  set (first := with_summary (JStr (str "first draft")) (scenario "d1" "admin")).
  assert (Hin : In first (scenarios_with (str "admin") duplicate_in_group))
    by (vm_compute; tauto).
  assert (Honly : forall s', In s' duplicate_in_group ->
                    description s' = description first ->
                    persona_key s' = str "admin").
  { intros s' Hs'. simpl in Hs'.
    destruct Hs' as [<-|[<-|[<-|[]]]]; intros Hd;
      first [reflexivity | discriminate Hd]. }
  destruct (Hkept first Hin Honly) as [last [t (Hl & Ht & Hdata & Hone)]].
  vm_compute in Hl. injection Hl as <-.
  exists sid, t. split; [exact Hsuite|]. split; [exact Hbatch|].
  split; [exact Hnames|]. split; [exact Ht|]. split; [exact Hdata|].
  exact Hone.
Defined.

Lemma C8_no_dedup_across_personas_witness :
  let rid := fresh_id (map Results.id (results (db pipeline0))) in
  let st' := uploadScenariosToDatabase no_faults colliding pipeline0 in
  (forall s, In s colliding -> ordinary_label (persona_key s))
  /\ In (scenario "d3" "buyer") colliding
  /\ In (scenario "d3" "seller") colliding
  /\ description (scenario "d3" "buyer") = description (scenario "d3" "seller")
  /\ persona_key (scenario "d3" "buyer") <> persona_key (scenario "d3" "seller")
  /\ In (persona_key (scenario "d3" "buyer"))
        (firstn 4 (first_appearance (map persona_key colliding)))
  /\ In (persona_key (scenario "d3" "seller"))
        (firstn 4 (first_appearance (map persona_key colliding)))
  /\ results_insert_error no_faults = None
  /\ suites_insert_error no_faults
       (suiteRecord rid (persona_key (scenario "d3" "buyer"))) = None
  /\ suites_insert_error no_faults
       (suiteRecord rid (persona_key (scenario "d3" "seller"))) = None
  /\ exists groups,
       personaGroups colliding = Some groups
       /\ (exists x1 x2 g1 g2,
             own groups (persona_key (scenario "d3" "buyer")) = Some g1
             /\ own groups (persona_key (scenario "d3" "seller")) = Some g2
             /\ In x1 (uniqueScenarios g1) /\ In x2 (uniqueScenarios g2)
             /\ description x1 = description (scenario "d3" "buyer")
             /\ description x2 = description (scenario "d3" "buyer"))
       /\ (exists sid1 sid2 rs1 rs2 r1 r2,
             sid1 <> sid2
             /\ In (suite_row rid (persona_key (scenario "d3" "buyer"), sid1))
                   (suites (db st'))
             /\ In (suite_row rid (persona_key (scenario "d3" "seller"), sid2))
                   (suites (db st'))
             /\ In rs1 (test_batches (calls st'))
             /\ In rs2 (test_batches (calls st'))
             /\ In r1 rs1 /\ In r2 rs2
             /\ Tests.name r1 = description (scenario "d3" "buyer")
             /\ Tests.name r2 = description (scenario "d3" "buyer")
             /\ Tests.suite_id r1 = sid1 /\ Tests.suite_id r2 = sid2).
Proof.
  intros rid st'.
  assert (H0 : forall s, In s colliding -> ordinary_label (persona_key s))
    by each_scenario.
  assert (H2 : In (scenario "d3" "buyer") colliding) by (left; reflexivity).
  assert (H3 : In (scenario "d3" "seller") colliding)
    by (right; left; reflexivity).
  assert (H4 : description (scenario "d3" "buyer")
               = description (scenario "d3" "seller")) by reflexivity.
  assert (H5 : persona_key (scenario "d3" "buyer")
               <> persona_key (scenario "d3" "seller"))
    by (vm_compute; discriminate).
  assert (H6 : In (persona_key (scenario "d3" "buyer"))
                  (firstn 4 (first_appearance (map persona_key colliding))))
    by (vm_compute; tauto).
  assert (H7 : In (persona_key (scenario "d3" "seller"))
                  (firstn 4 (first_appearance (map persona_key colliding))))
    by (vm_compute; tauto).
  assert (H8 : results_insert_error no_faults = None) by reflexivity.
  assert (H9 : suites_insert_error no_faults
                 (suiteRecord rid (persona_key (scenario "d3" "buyer"))) = None)
    by reflexivity.
  assert (H10 : suites_insert_error no_faults
                  (suiteRecord rid (persona_key (scenario "d3" "seller"))) = None)
    by reflexivity.
  refine (conj H0 (conj H2 (conj H3 (conj H4 (conj H5 (conj H6 (conj H7
           (conj H8 (conj H9 (conj H10 _)))))))))).
  exact (@C8_no_dedup_across_personas no_faults colliding pipeline0
           (scenario "d3" "buyer") (scenario "d3" "seller")
           H0 H2 H3 H4 H5 H6 H7 H8 H9 H10).
Defined.

(* ================================================================= *)
(** ** Splitting and joining *)

Lemma js_split_not_nil sep s : js_split sep s <> [].
Proof.
  destruct s as [|c s]; simpl; [discriminate|].
  destruct (N.eqb c sep); [discriminate|].
  destruct (js_split sep s); discriminate.
Qed.

Lemma js_join_cons sep x a :
  a <> [] -> js_join sep (x :: a) = x +++ sep +++ js_join sep a.
Proof. destruct a; [congruence | reflexivity]. Qed.

Lemma js_join_split sep s : js_join [sep] (js_split sep s) = s.
Proof.
  induction s as [|c s IH]; [reflexivity|].
  simpl. destruct (N.eqb c sep) eqn:E.
  - apply N.eqb_eq in E. subst c.
    rewrite js_join_cons by apply js_split_not_nil. simpl. now rewrite IH.
  - pose proof (js_split_not_nil sep s) as Hne.
    destruct (js_split sep s) as [|l ls]; [congruence|].
    destruct ls as [|l' ls'].
    + simpl in *. now rewrite IH.
    + rewrite js_join_cons in * by discriminate.
      simpl. now rewrite <- IH.
Qed.

Lemma js_split_app sep a b :
  js_split sep (a ++ sep :: b) = js_split sep a ++ js_split sep b.
Proof.
  induction a as [|c a IH]; simpl.
  - now rewrite N.eqb_refl.
  - destruct (N.eqb c sep); [now rewrite IH|].
    rewrite IH. pose proof (js_split_not_nil sep a) as Hne.
    destruct (js_split sep a); [congruence | reflexivity].
Qed.

Lemma js_split_one sep s :
  ~ In sep s -> js_split sep s = [s].
Proof.
  induction s as [|c s IH]; intros H; [reflexivity|].
  simpl. destruct (N.eqb c sep) eqn:E.
  - apply N.eqb_eq in E. subst c. exfalso. apply H. now left.
  - rewrite IH; [reflexivity|]. intros Hin. apply H. now right.
Qed.

Lemma js_split_lines sep s l : In l (js_split sep s) -> ~ In sep l.
Proof.
  revert l. induction s as [|c s IH]; intros l; simpl.
  - intros [<-|[]]. tauto.
  - destruct (N.eqb c sep) eqn:E.
    + intros [<-|H]; [tauto | now apply IH].
    + apply N.eqb_neq in E. pose proof (js_split_not_nil sep s) as Hne.
      destruct (js_split sep s) as [|x xs]; [congruence|].
      intros [<-|H].
      * intros [Hc|Hin]; [congruence|]. apply (IH x); [now left | assumption].
      * apply IH. now right.
Qed.

Lemma js_join_app sep (a b : list jsstring) :
  a <> [] -> b <> [] ->
  js_join sep (a ++ b) = js_join sep a +++ sep +++ js_join sep b.
Proof.
  induction a as [|x a IH]; intros Ha Hb; [congruence|].
  destruct a as [|y a].
  - simpl. destruct b; [congruence | reflexivity].
  - change ((x :: y :: a) ++ b) with (x :: ((y :: a) ++ b)).
    rewrite !js_join_cons by (try discriminate; destruct a; discriminate).
    rewrite IH by (assumption || discriminate).
    now rewrite <- !app_assoc.
Qed.

Lemma js_split_join sep (a : list jsstring) :
  a <> [] -> (forall l, In l a -> ~ In sep l) ->
  js_split sep (js_join [sep] a) = a.
Proof.
  induction a as [|x a IH]; intros Hne Hl; [congruence|].
  destruct a as [|y a].
  - simpl. apply js_split_one, Hl. now left.
  - rewrite js_join_cons by discriminate.
    change (x +++ [sep] +++ js_join [sep] (y :: a))
      with (x ++ sep :: js_join [sep] (y :: a)).
    rewrite js_split_app, IH; try discriminate.
    + rewrite js_split_one; [reflexivity|]. apply Hl. now left.
    + intros l Hin. apply Hl. now right.
Qed.

(** The join of a tail of the lines is a tail of the text. *)
Lemma js_join_skipn sep (a : list jsstring) k :
  exists dropped, js_join sep a = dropped +++ js_join sep (skipn k a).
Proof.
  assert (E : js_join sep a = js_join sep (firstn k a ++ skipn k a))
    by now rewrite firstn_skipn.
  rewrite E. clear E.
  destruct (firstn k a) as [|x xs] eqn:Ef.
  - now exists [].
  - destruct (skipn k a) as [|y ys] eqn:Es.
    + rewrite app_nil_r. exists (js_join sep (x :: xs)). simpl.
      now rewrite app_nil_r.
    + rewrite js_join_app by discriminate.
      exists (js_join sep (x :: xs) +++ sep). now rewrite <- app_assoc.
Qed.

Lemma slice_neg_length (A : Type) n (a : list A) :
  List.length (slice_neg n a) <= n.
Proof. unfold slice_neg. rewrite length_skipn. lia. Qed.

Lemma slice_neg_all (A : Type) n (a : list A) :
  List.length a <= n -> slice_neg n a = a.
Proof.
  intros H. unfold slice_neg.
  replace (List.length a - n) with 0 by lia. reflexivity.
Qed.

Lemma slice_neg_not_nil (A : Type) n (a : list A) :
  0 < n -> a <> [] -> slice_neg n a <> [].
Proof.
  intros Hn Ha Hnil. apply (f_equal (@List.length A)) in Hnil.
  unfold slice_neg in Hnil. rewrite length_skipn in Hnil.
  destruct a as [|x a]; [congruence|]. cbn [List.length] in Hnil. lia.
Qed.

Lemma skipn_incl (A : Type) k (a : list A) x : In x (skipn k a) -> In x a.
Proof.
  intros H. rewrite <- (firstn_skipn k a). apply in_or_app. now right.
Qed.

(* ================================================================= *)
(** ** updateCodebaseSummary *)

(** X1: the summary written has at most 500 lines and is a tail of the old
    summary followed by the new entry. *)
Theorem summary_keeps_last_500_lines now st file :
  List.length (js_split 10 (updated_summary now st file)) <= 500
  /\ exists dropped,
       loadCodebaseSummary file +++ summary_entry now st
       = dropped +++ updated_summary now st file.
Proof.
  unfold updated_summary.
  set (text := loadCodebaseSummary file +++ summary_entry now st).
  split.
  - rewrite js_split_join.
    + apply slice_neg_length.
    + apply slice_neg_not_nil; [lia | apply js_split_not_nil].
    + intros l Hl. apply skipn_incl in Hl. now apply js_split_lines in Hl.
  - destruct (js_join_skipn nl (js_split 10 text)
                (List.length (js_split 10 text) - 500)) as [dropped H].
    exists dropped. unfold nl in *. now rewrite js_join_split in H.
Qed.

(** X2: while the old summary with the new entry has no more than 500
    lines, the file written is exactly that text. *)
Theorem summary_short_is_appended write_throws now st file :
  write_throws = false ->
  List.length (js_split 10 (loadCodebaseSummary file +++ summary_entry now st))
  <= 500 ->
  updateCodebaseSummary write_throws now st file
  = Some (loadCodebaseSummary file +++ summary_entry now st).
Proof.
  intros -> H. unfold updateCodebaseSummary, updated_summary.
  rewrite slice_neg_all by assumption. unfold nl. now rewrite js_join_split.
Qed.

(** X3: whatever is cut off, the entry just appended is kept whole at the
    end of the file, provided the timestamp and the pull-request name hold
    no line break. *)
Theorem summary_ends_with_new_entry now st file :
  ~ In 10%N now -> ~ In 10%N (pr_name st) ->
  exists kept, updated_summary now st file = kept +++ summary_entry now st.
Proof.
  intros Hnow Hname. unfold updated_summary, summary_entry, nl.
  set (A := str "=== " +++ now +++ str " ===").
  set (B := pr_name st +++ str " merged after QAI testing").
  assert (HA : ~ In 10%N A).
  { unfold A. rewrite !in_app_iff. intros [H|[H|H]]; try contradiction;
      vm_compute in H; intuition discriminate. }
  assert (HB : ~ In 10%N B).
  { unfold B. rewrite in_app_iff. intros [H|H]; try contradiction.
    vm_compute in H; intuition discriminate. }
  replace (loadCodebaseSummary file
           +++ [10%N] +++ str "=== " +++ now +++ str " ===" +++ [10%N]
           +++ pr_name st +++ str " merged after QAI testing" +++ [10%N])
    with (loadCodebaseSummary file ++ 10%N :: (A ++ 10%N :: (B ++ 10%N :: []))).
  2:{ unfold A, B. simpl. now rewrite <- !app_assoc. }
  rewrite !js_split_app, (@js_split_one 10%N A HA), (@js_split_one 10%N B HB).
  simpl js_split.
  set (L := js_split 10 (loadCodebaseSummary file)).
  assert (HL : L <> []) by apply js_split_not_nil.
  unfold slice_neg. rewrite !length_app. simpl List.length.
  set (k := List.length L + (1 + (1 + 1)) - 500).
  assert (Hk : k < List.length L) by (destruct L; [congruence | simpl in *; lia]).
  rewrite skipn_app. replace (k - List.length L) with 0 by lia.
  simpl skipn at 2.
  assert (HM : skipn k L <> []).
  { intros Hnil. apply (f_equal (@List.length jsstring)) in Hnil.
    rewrite length_skipn in Hnil. simpl in Hnil. lia. }
  rewrite js_join_app by (assumption || discriminate).
  exists (js_join [10%N] (skipn k L)). simpl.
  unfold A, B. now rewrite <- !app_assoc.
Qed.

(* ================================================================= *)
(** ** The constructor *)

(** X4: the constructor throws exactly when createClient throws (the
    Supabase URL or key is unset or empty, or the client rejects them), or
    the number must come from the event file (no GITHUB_EVENT_NUMBER,
    GITHUB_EVENT_PATH set) and that file cannot be read; otherwise the link
    of the run embeds the value of GITHUB_REPOSITORY unchanged (whatever its
    shape, empty when unset) between "https://github.com/" and "/pull/"
    followed by the text of the number, and the object starts without a
    result id.  A non-empty GITHUB_EVENT_NUMBER is used as it is, and a
    number from the event file that is a non-negative safe integer is
    written in decimal. *)
Theorem constructor_link print g event_number s :
  (construct print g event_number s = None <->
   env_set (SUPABASE_URL g) = false
   \/ env_set (SUPABASE_KEY g) = false
   \/ client_rejected g = true
   \/ (env_set (GITHUB_EVENT_NUMBER g) = false
       /\ env_set (GITHUB_EVENT_PATH g) = true /\ event_number = None))
  /\ (forall st, construct print g event_number s = Some st ->
        exists prNumber,
          getPRNumber g event_number = Some prNumber
          /\ pr_link st
             = str "https://github.com/"
               +++ match GITHUB_REPOSITORY g with Some r => r | None => [] end
               +++ str "/pull/" +++ to_string print prNumber
          /\ pr_name st = str "PR #" +++ to_string print prNumber
          /\ resultId st = None /\ db st = s
          /\ (forall n, GITHUB_EVENT_NUMBER g = Some n -> n <> [] ->
                prNumber = JStr n /\ pr_name st = str "PR #" +++ n)
          /\ (forall n, prNumber = JNum n ->
                (0 <= n <= 9007199254740991)%Z ->
                pr_name st = str "PR #" +++ decimal (Z.to_N n))).
Proof.
  unfold construct, createClient, getPRNumber. split.
  - destruct (env_set (SUPABASE_URL g)), (env_set (SUPABASE_KEY g)),
      (client_rejected g); simpl; try (split; [auto | reflexivity]);
      try (split; [auto 6 | reflexivity]).
    destruct (GITHUB_EVENT_NUMBER g) as [[|c n]|]; simpl;
      destruct (env_set (GITHUB_EVENT_PATH g)); simpl;
      try destruct event_number; simpl;
      split; try discriminate; try tauto;
      intros [H|[H|[H|(H1 & H2 & H3)]]]; discriminate.
  - intros st H.
    destruct (env_set (SUPABASE_URL g) && env_set (SUPABASE_KEY g)
              && negb (client_rejected g)); [|discriminate].
    assert (Hrepo : js_join (str "/") (repo g)
                    = match GITHUB_REPOSITORY g with Some r => r | None => [] end).
    { unfold repo. destruct (GITHUB_REPOSITORY g) as [r|]; [|reflexivity].
      apply (js_join_split 47). }
    destruct (match GITHUB_EVENT_NUMBER g with
              | Some (c :: n) => Some (JStr (c :: n))
              | _ => if env_set (GITHUB_EVENT_PATH g) then event_number
                     else Some JNull
              end) as [prNumber|] eqn:E; [|discriminate].
    injection H as <-. exists prNumber. simpl. rewrite Hrepo.
    split; [reflexivity|]. split; [reflexivity|]. split; [reflexivity|].
    split; [reflexivity|]. split; [reflexivity|]. split.
    + intros n Hn Hne. rewrite Hn in E. destruct n; [congruence|].
      injection E as <-. now split.
    + intros n -> Hn. unfold to_string, safe_integer.
      replace (Z.leb (Z.abs n) 9007199254740991) with true
        by (symmetry; apply Z.leb_le; lia).
      replace (Z.ltb n 0) with false by (symmetry; apply Z.ltb_ge; lia).
      now rewrite Zabs2N.abs_N_nonneg by lia.
Qed.

(* ================================================================= *)
(** ** createAgentFiles *)

Lemma uint_digits_inj d1 d2 : uint_digits d1 = uint_digits d2 -> d1 = d2.
Proof.
  revert d2. induction d1; intros d2 H; destruct d2; simpl in H;
    try discriminate; try reflexivity;
    injection H as H; f_equal; now apply IHd1.
Qed.

Lemma decimal_inj n m : decimal n = decimal m -> n = m.
Proof.
  unfold decimal. intros H. apply uint_digits_inj in H.
  rewrite <- (DecimalN.Unsigned.of_to n), <- (DecimalN.Unsigned.of_to m).
  now rewrite H.
Qed.

Lemma testCases_from_ids index scenarios x :
  In x (map tc_id (testCases_from index scenarios)) ->
  exists j, index < j /\ x = str "suite_" +++ decimal (N.of_nat j).
Proof.
  revert index. induction scenarios as [|s l IH]; intros index; simpl;
    [contradiction|].
  intros [<-|H].
  - exists (index + 1). split; [lia | reflexivity].
  - destruct (IH (S index) H) as [j [Hj Hx]]. exists j. split; [lia | exact Hx].
Qed.

Lemma testCases_from_NoDup index scenarios :
  NoDup (map tc_id (testCases_from index scenarios)).
Proof.
  revert index. induction scenarios as [|s l IH]; intros index;
    cbn [testCases_from map tc_id]; constructor; [|apply IH].
  intros H. apply testCases_from_ids in H. destruct H as [j [Hj Heq]].
  apply app_inv_head, decimal_inj in Heq. lia.
Qed.

(** X5: test-cases.json lists one suite per scenario, in the order of the
    scenarios; the suite at position i has the id "suite_" followed by i + 1
    in decimal and carries that scenario's description, priority, type and
    steps; no two ids are equal. *)
Theorem testCases_one_per_scenario scenarios :
  List.length (testCases scenarios) = List.length scenarios
  /\ NoDup (map tc_id (testCases scenarios))
  /\ forall i scenario,
       nth_error scenarios i = Some scenario ->
       exists c,
         nth_error (testCases scenarios) i = Some c
         /\ tc_id c = str "suite_" +++ decimal (N.of_nat (i + 1))
         /\ tc_description c = description scenario
         /\ tc_priority c = priority scenario
         /\ tc_type c = type scenario
         /\ tc_steps c = steps scenario.
Proof.
  unfold testCases. repeat split.
  - generalize 0. induction scenarios as [|s l IH]; intros n; simpl;
      [reflexivity | now rewrite IH].
  - apply testCases_from_NoDup.
  - assert (H : forall index i scenario,
               nth_error scenarios i = Some scenario ->
               exists c,
                 nth_error (testCases_from index scenarios) i = Some c
                 /\ tc_id c = str "suite_" +++ decimal (N.of_nat (index + i + 1))
                 /\ tc_description c = description scenario
                 /\ tc_priority c = priority scenario
                 /\ tc_type c = type scenario
                 /\ tc_steps c = steps scenario).
    { induction scenarios as [|s l IH]; intros index i scenario Hi.
      - destruct i; discriminate.
      - destruct i as [|i]; simpl in Hi.
        + injection Hi as <-. eexists. split; [reflexivity|].
          simpl. rewrite Nat.add_0_r. repeat split.
        + destruct (IH (S index) i scenario Hi) as [c (Hc & Hid & Hrest)].
          exists c. split; [exact Hc|]. split; [|exact Hrest].
          rewrite Hid. do 3 f_equal. lia. }
    intros i scenario Hi. exact (H 0 i scenario Hi).
Qed.

(* ================================================================= *)
(** ** updateTestResults *)

Lemma last_result_snoc U d rs r :
  last_result U d (rs ++ [r]) =
  if update_accepted U r && eqb d (description (scenario_of r))
  then Some r else last_result U d rs.
Proof. unfold last_result. now rewrite rev_app_distr. Qed.

Lemma last_written_snoc U d rs r :
  last_written U d (rs ++ [r]) =
  if update_accepted U r && eqb d (description (scenario_of r))
     && negb (is_undefined (success r))
  then Some r else last_written U d rs.
Proof. unfold last_written. now rewrite rev_app_distr. Qed.

Lemma update_test_rows U rows errors r :
  fst (update_test U (rows, errors) r) = map (fun t => apply_result U t r) rows.
Proof.
  unfold update_test, apply_result, update_accepted.
  destruct (tests_update_error U r); simpl; [symmetry; apply map_id|].
  reflexivity.
Qed.

Lemma update_tests_rows U results_ rows errors :
  fst (fold_left (update_test U) results_ (rows, errors)) =
  map (apply_results U results_) rows.
Proof.
  revert rows errors. induction results_ as [|r rs IH]; intros rows errors.
  - simpl. symmetry. apply map_id.
  - cbn [fold_left].
    destruct (update_test U (rows, errors) r) as [rows1 errors1] eqn:E.
    rewrite IH. pose proof (update_test_rows U rows errors r) as H.
    rewrite E in H. cbn [fst] in H. subst rows1.
    rewrite map_map. reflexivity.
Qed.

Lemma updateTestResults_tests U rid results_ s :
  tests (fst (updateTestResults U rid results_ s)) =
  map (apply_results U results_) (tests s)
  /\ suites (fst (updateTestResults U rid results_ s)) = suites s.
Proof.
  unfold updateTestResults.
  pose proof (update_tests_rows U results_ (tests s) []) as H.
  destruct (fold_left (update_test U) results_ (tests s, [])) as [rows errors].
  simpl in H. subst rows.
  destruct (overallUpdate _) as [[st c]|]; destruct rid as [rid|];
    try destruct (results_update_rejected U); simpl; split; reflexivity.
Qed.

(** One result leaves the id, suite, name, summary and steps of a row. *)
Lemma apply_result_frame U t r :
  Tests.id (apply_result U t r) = Tests.id t
  /\ Tests.suite_id (Tests.data (apply_result U t r))
     = Tests.suite_id (Tests.data t)
  /\ Tests.name (Tests.data (apply_result U t r)) = Tests.name (Tests.data t)
  /\ Tests.summary (Tests.data (apply_result U t r))
     = Tests.summary (Tests.data t)
  /\ Tests.steps (Tests.data (apply_result U t r)) = Tests.steps (Tests.data t).
Proof.
  unfold apply_result.
  destruct (update_accepted U r && eqb _ _); repeat split.
Qed.

Lemma apply_results_frame U results_ t :
  Tests.id (apply_results U results_ t) = Tests.id t
  /\ Tests.suite_id (Tests.data (apply_results U results_ t))
     = Tests.suite_id (Tests.data t)
  /\ Tests.name (Tests.data (apply_results U results_ t))
     = Tests.name (Tests.data t)
  /\ Tests.summary (Tests.data (apply_results U results_ t))
     = Tests.summary (Tests.data t)
  /\ Tests.steps (Tests.data (apply_results U results_ t))
     = Tests.steps (Tests.data t).
Proof.
  unfold apply_results. revert t.
  induction results_ as [|r rs IH]; intros t; [repeat split|].
  cbn [fold_left].
  destruct (IH (apply_result U t r)) as (H1 & H2 & H3 & H4 & H5).
  destruct (apply_result_frame U t r) as (G1 & G2 & G3 & G4 & G5).
  repeat split; congruence.
Qed.

Lemma apply_results_snoc U rs r t :
  apply_results U (rs ++ [r]) t = apply_result U (apply_results U rs t) r.
Proof. unfold apply_results. now rewrite fold_left_app. Qed.

(** The status comes from the last accepted result with the name of the
    row, the outcome from the last one that carries a [success] member. *)
Lemma apply_results_status U results_ t :
  match last_result U (Tests.name (Tests.data t)) results_ with
  | Some r =>
      Tests.run_status (Tests.data (apply_results U results_ t))
      = (if truthy (success r) then PASSED else FAILED)
  | None => apply_results U results_ t = t
  end.
Proof.
  induction results_ as [|r rs IH] using rev_ind; [reflexivity|].
  rewrite last_result_snoc, apply_results_snoc. unfold apply_result.
  destruct (apply_results_frame U rs t) as (_ & _ & Hn & _). rewrite Hn.
  destruct (update_accepted U r && eqb _ _); [reflexivity|].
  exact IH.
Qed.

Lemma apply_results_outcome U results_ t :
  outcome (apply_results U results_ t) =
  match last_written U (Tests.name (Tests.data t)) results_ with
  | Some w => written_success U (success w) None
  | None => outcome t
  end.
Proof.
  induction results_ as [|r rs IH] using rev_ind; [reflexivity|].
  rewrite last_written_snoc, apply_results_snoc. unfold apply_result.
  destruct (apply_results_frame U rs t) as (_ & _ & Hn & _). rewrite Hn.
  destruct (update_accepted U r && eqb _ _); cbn [andb]; [|exact IH].
  unfold outcome in *. cbn [set_result Tests.data Tests.test_success].
  destruct (success r) eqn:E; cbn [is_undefined negb written_success];
    rewrite ?E; try reflexivity.
  exact IH.
Qed.

(** X6: what the per-test updates leave.  The suites are not touched and
    every test keeps its position, id, suite, name, summary and steps.  A
    test with no accepted result of its name is left as it was.  Otherwise
    its status is PASSED or FAILED as the [success] of the last accepted
    result with its name is truthy or not, whatever kind of value that is,
    and its outcome is written by the last such result that carries a
    [success] member: a boolean is stored, null clears the outcome, another
    value is stored as the store casts it; results without the member leave
    the outcome alone and still set the status to FAILED. *)
Theorem updateTestResults_sets_last_outcome U rid results_ s :
  let s' := fst (updateTestResults U rid results_ s) in
  suites s' = suites s
  /\ List.length (tests s') = List.length (tests s)
  /\ forall i t,
       nth_error (tests s) i = Some t ->
       exists t',
         nth_error (tests s') i = Some t'
         /\ Tests.id t' = Tests.id t
         /\ Tests.suite_id (Tests.data t') = Tests.suite_id (Tests.data t)
         /\ Tests.name (Tests.data t') = Tests.name (Tests.data t)
         /\ Tests.summary (Tests.data t') = Tests.summary (Tests.data t)
         /\ Tests.steps (Tests.data t') = Tests.steps (Tests.data t)
         /\ match last_result U (Tests.name (Tests.data t)) results_ with
            | Some r =>
                Tests.run_status (Tests.data t')
                = (if truthy (success r) then PASSED else FAILED)
                /\ match last_written U (Tests.name (Tests.data t)) results_ with
                   | Some w =>
                       match success w with
                       | JBool b => outcome t' = Some b
                       | JNull => outcome t' = None
                       | JUndefined => False
                       | v => outcome t' = Some (cast_boolean U v)
                       end
                   | None =>
                       outcome t' = outcome t /\ success r = JUndefined
                   end
            | None => t' = t
            end.
Proof.
  intros s'. destruct (updateTestResults_tests U rid results_ s) as [Ht Hs].
  fold s' in Ht, Hs. split; [assumption|]. split.
  - rewrite Ht. apply length_map.
  - intros i t Hi. rewrite Ht.
    exists (apply_results U results_ t).
    split; [apply map_nth_error; exact Hi|].
    destruct (apply_results_frame U results_ t) as (H1 & H2 & H3 & H4 & H5).
    repeat (split; [assumption|]).
    pose proof (apply_results_status U results_ t) as Hst.
    pose proof (apply_results_outcome U results_ t) as Hout.
    destruct (last_result U (Tests.name (Tests.data t)) results_) as [r|] eqn:El;
      [|exact Hst].
    split; [exact Hst|].
    destruct (last_written U (Tests.name (Tests.data t)) results_) as [w|] eqn:Ew.
    + unfold last_written in Ew. apply find_some in Ew. destruct Ew as [_ Ew].
      apply andb_true_iff in Ew. destruct Ew as [_ Ew].
      destruct (success w); try discriminate; exact Hout.
    + split; [exact Hout|].
      unfold last_result in El. unfold last_written in Ew.
      apply find_some in El. destruct El as [Hin Hr].
      pose proof (find_none _ _ Ew r Hin) as Hn. cbv beta in Hn.
      rewrite Hr in Hn. cbn [andb] in Hn.
      destruct (success r); try discriminate; reflexivity.
Qed.

Lemma set_result_consistent U b t : consistent (set_result U (JBool b) t).
Proof. unfold consistent. now destruct b. Qed.

Lemma apply_results_consistent U results_ t :
  Forall boolean_result results_ ->
  consistent t -> consistent (apply_results U results_ t).
Proof.
  unfold apply_results. revert t.
  induction results_ as [|r rs IH]; intros t Hb Hc; [exact Hc|].
  inversion Hb as [|? ? [b Hr] Hrs]; subst. cbn [fold_left].
  apply IH; [exact Hrs|]. unfold apply_result.
  destruct (update_accepted U r && eqb _ _); [|exact Hc].
  rewrite Hr. apply set_result_consistent.
Qed.

(** X7: the update keeps the test names as they are, and a store with
    unique names and intact references stays so.  Outcome and status of the
    tests keep agreeing when every reported [success] is a boolean; they do
    not in general: a test whose last accepted result has [success] null is
    left with no outcome and the status FAILED. *)
Theorem updateTestResults_keeps_store_in_order U rid results_ s :
  let s' := fst (updateTestResults U rid results_ s) in
  test_names (tests s') = test_names (tests s)
  /\ (store_ok s -> store_ok s')
  /\ (Forall boolean_result results_ ->
      Forall consistent (tests s) -> Forall consistent (tests s'))
  /\ (forall i t t' r,
        nth_error (tests s) i = Some t ->
        nth_error (tests s') i = Some t' ->
        last_result U (Tests.name (Tests.data t)) results_ = Some r ->
        success r = JNull ->
        outcome t' = None
        /\ Tests.run_status (Tests.data t') = FAILED
        /\ ~ consistent t').
Proof.
  intros s'. destruct (updateTestResults_tests U rid results_ s) as [Ht Hs].
  fold s' in Ht, Hs.
  assert (Hn : test_names (tests s') = test_names (tests s)).
  { rewrite Ht. unfold test_names. rewrite map_map. apply map_ext. intros t.
    apply (apply_results_frame U results_ t). }
  assert (Hr : map Results.id (results s') = map Results.id (results s)).
  { unfold s', updateTestResults.
    destruct (fold_left (update_test U) results_ (tests s, [])) as [rows errors].
    destruct (overallUpdate _) as [[st c]|]; destruct rid as [rid|];
      try destruct (results_update_rejected U); simpl; try reflexivity.
    rewrite map_map. apply map_ext. intros r. now destruct (Pos.eqb _ _). }
  split; [exact Hn|]. split; [|split].
  - intros Hok. constructor.
    + rewrite Hn. now apply unique_names.
    + intros t Hin. rewrite Hs. rewrite Ht in Hin. apply in_map_iff in Hin.
      destruct Hin as [t0 [<- Hin0]].
      destruct (apply_results_frame U results_ t0) as (_ & Hsuite & _).
      rewrite Hsuite. now apply tests_in_suites.
    + intros x Hx. rewrite Hs in Hx. rewrite Hr. now apply suites_in_results.
  - intros Hb H. rewrite Ht. apply Forall_map. eapply Forall_impl; [|exact H].
    intros t Hc. now apply apply_results_consistent.
  - intros i t t' r Hi Hi' Hl Hnull.
    rewrite Ht in Hi'. rewrite (map_nth_error _ _ _ Hi) in Hi'.
    injection Hi' as <-.
    pose proof (apply_results_status U results_ t) as Hst.
    pose proof (apply_results_outcome U results_ t) as Hout.
    rewrite Hl, Hnull in Hst. cbn [truthy] in Hst.
    assert (Hw : last_written U (Tests.name (Tests.data t)) results_ = Some r).
    { unfold last_result in Hl. unfold last_written.
      revert Hl. induction (rev results_) as [|x l IH]; [discriminate|].
      cbn [find]. destruct (update_accepted U x && eqb _ _) eqn:E.
      - intros [= ->]. now rewrite Hnull.
      - cbn [andb]. exact IH. }
    rewrite Hw, Hnull in Hout. cbn [written_success] in Hout.
    split; [exact Hout|]. split; [exact Hst|].
    unfold consistent. unfold outcome in Hout. rewrite Hout, Hst.
    discriminate.
Qed.

Lemma all_passed_count ts :
  all_passed ts = Nat.eqb (List.length (passed_of ts)) (List.length ts).
Proof.
  unfold all_passed, passed_of, outcome.
  induction ts as [|t ts IH]; [reflexivity|]. simpl.
  pose proof (filter_length_le
                (fun t => is_true (Tests.test_success (Tests.data t))) ts) as Hle.
  destruct (is_true (Tests.test_success (Tests.data t))); simpl.
  - exact IH.
  - symmetry. apply Nat.eqb_neq. lia.
Qed.

Lemma overallUpdate_Some ts :
  ts <> [] ->
  overallUpdate (Some ts) =
  Some (if all_passed ts then PASSED else FAILED,
        {| passed := List.length (passed_of ts);
           failed := List.length ts - List.length (passed_of ts);
           total := List.length ts |}).
Proof.
  intros Hne. unfold overallUpdate. rewrite all_passed_count.
  destruct ts as [|t ts]; [congruence|]. reflexivity.
Qed.

Lemma find_map_id (g : Results.row -> Results.row) rid rows :
  (forall r, Results.id (g r) = Results.id r) ->
  find (fun r => Pos.eqb (Results.id r) rid) (map g rows) =
  option_map g (find (fun r => Pos.eqb (Results.id r) rid) rows).
Proof.
  intros Hg. rewrite find_map. f_equal.
  induction rows as [|r rows IH]; simpl; [reflexivity|].
  rewrite Hg. destruct (Pos.eqb (Results.id r) rid); [reflexivity | exact IH].
Qed.

Lemma find_by_id rows rid :
  In rid (map Results.id rows) ->
  exists r, find (fun r => Pos.eqb (Results.id r) rid) rows = Some r
            /\ Results.id r = rid.
Proof.
  intros H. destruct (find _ rows) as [r|] eqn:E.
  - exists r. split; [reflexivity|]. apply find_some in E.
    now apply Pos.eqb_eq.
  - exfalso. apply in_map_iff in H. destruct H as [r [Hid Hin]].
    pose proof (find_none _ _ E r Hin) as Hn. simpl in Hn.
    rewrite Hid, Pos.eqb_refl in Hn. discriminate.
Qed.

Lemma NoDup_map_filter (A B : Type) (key : A -> B) (keep : A -> bool)
    (rows : list A) :
  NoDup (map key rows) -> NoDup (map key (filter keep rows)).
Proof.
  induction rows as [|x rows IH]; simpl; intros H; [constructor|].
  inversion H as [|? ? Hnotin Hnd]; subst.
  destruct (keep x); simpl; [constructor|]; auto.
  intros Hin. apply Hnotin. apply in_map_iff in Hin.
  destruct Hin as [y [Hy Hin]]. apply filter_In in Hin.
  rewrite <- Hy. apply in_map. tauto.
Qed.

Lemma filter_comm (A : Type) (p q : A -> bool) (l : list A) :
  filter p (filter q l) = filter q (filter p l).
Proof.
  rewrite !filter_filter. apply filter_ext. intros x. apply andb_comm.
Qed.

(** The counts of the nested read are counts over the tests of the run. *)
Lemma snapshot_counts s rid r :
  find (fun r => Pos.eqb (Results.id r) rid) (results s) = Some r ->
  NoDup (map Suites.id (suites s)) ->
  exists result,
    read_hierarchy s rid = Some result
    /\ Hierarchy.run_row result = r
    /\ totalTests result = List.length (run_tests s rid)
    /\ passedTests result = List.length (passed_of (run_tests s rid)).
Proof.
  intros Hfind Hnd.
  assert (Hnd' : NoDup (map Suites.id (suites_of s rid)))
    by now apply NoDup_map_filter.
  unfold read_hierarchy. rewrite Hfind. eexists. split; [reflexivity|].
  split; [reflexivity|].
  unfold totalTests, passedTests, run_tests. simpl.
  rewrite !fold_left_add_length, !map_map. simpl. split.
  - rewrite <- (sum_by_key Pos.eqb Pos.eqb_eq
                  (fun t => Tests.suite_id (Tests.data t)) (tests s) Hnd').
    now rewrite map_map.
  - unfold passed_of.
    rewrite (filter_comm (fun t => is_true (Tests.test_success (Tests.data t)))).
    rewrite <- (sum_by_key Pos.eqb Pos.eqb_eq
                  (fun t => Tests.suite_id (Tests.data t))
                  (filter (fun t => is_true (Tests.test_success (Tests.data t)))
                          (tests s)) Hnd').
    rewrite map_map. f_equal. apply map_ext. intros x.
    unfold tests_of. now rewrite filter_comm.
Qed.

Lemma updateTestResults_results cast rid results_ s :
  let s' := fst (updateTestResults (no_update_faults cast) (Some rid) results_ s) in
  let ts := run_tests s' rid in
  results s' =
  match ts with
  | [] => results s
  | _ :: _ =>
      map (fun r => if Pos.eqb (Results.id r) rid
                    then set_overall (if all_passed ts then PASSED else FAILED)
                           {| passed := List.length (passed_of ts);
                              failed := List.length ts - List.length (passed_of ts);
                              total := List.length ts |} r
                    else r) (results s)
  end.
Proof.
  intros s' ts. unfold ts, s', updateTestResults.
  destruct (fold_left (update_test (no_update_faults cast)) results_ (tests s, []))
    as [rows errors].
  unfold selected_tests. simpl suites_select_null. simpl tests_select_null.
  cbv iota. simpl results_update_rejected.
  set (s1 := {| results := results s; suites := suites s; tests := rows |}).
  change (filter _ (tests s1)) with (run_tests s1 rid).
  destruct (run_tests s1 rid) as [|t l] eqn:E.
  - simpl. unfold run_tests. simpl. unfold run_tests in E. simpl in E.
    now rewrite E.
  - rewrite overallUpdate_Some by discriminate. simpl.
    unfold run_tests. simpl. unfold run_tests in E. simpl in E.
    unfold suites_of in *. simpl in *. now rewrite E.
Qed.

(** X8: with no store error, the run-level update: when the run has at
    least one test, every row with the run's id gets the status PASSED if all
    these tests have outcome true and FAILED otherwise, together with the
    counts passed, failed = total - passed and total, and no other row
    changes; when the run has no test, or the pipeline has no result id, the
    results are not written at all. *)
Theorem updateTestResults_rolls_up cast rid results_ s :
  let s' := fst (updateTestResults (no_update_faults cast) (Some rid) results_ s) in
  let ts := run_tests s' rid in
  (ts = [] -> results s' = results s)
  /\ (ts <> [] ->
      map Results.id (results s') = map Results.id (results s)
      /\ forall r, In r (results s') ->
           (Results.id r = rid ->
            Results.run_status (Results.data r)
            = (if all_passed ts then PASSED else FAILED)
            /\ Results.overall_result (Results.data r)
               = Some {| passed := List.length (passed_of ts);
                         failed := List.length ts - List.length (passed_of ts);
                         total := List.length ts |})
           /\ (Results.id r <> rid -> In r (results s)))
  /\ (forall U,
        results (fst (updateTestResults U None results_ s)) = results s).
Proof.
  intros s' ts. pose proof (updateTestResults_results cast rid results_ s) as H.
  cbv zeta in H. fold s' in H. fold ts in H.
  repeat split.
  - intros Hnil. now rewrite Hnil in H.
  - destruct ts as [|t l]; [congruence|]. rewrite H, map_map.
    apply map_ext. intros r. now destruct (Pos.eqb _ _).
  - destruct ts as [|t l] eqn:E; [congruence|]. rewrite H in H1.
    apply in_map_iff in H1. destruct H1 as [r0 [Hr0 Hin]].
    destruct (Pos.eqb (Results.id r0) rid) eqn:Eid; subst r; [reflexivity|].
    apply Pos.eqb_neq in Eid. contradiction.
  - destruct ts as [|t l] eqn:E; [congruence|]. rewrite H in H1.
    apply in_map_iff in H1. destruct H1 as [r0 [Hr0 Hin]].
    destruct (Pos.eqb (Results.id r0) rid) eqn:Eid; subst r; [reflexivity|].
    apply Pos.eqb_neq in Eid. contradiction.
  - intros Hne. destruct ts as [|t l] eqn:E; [congruence|]. rewrite H in H1.
    apply in_map_iff in H1. destruct H1 as [r0 [Hr0 Hin]].
    destruct (Pos.eqb (Results.id r0) rid) eqn:Eid; subst r; [|assumption].
    apply Pos.eqb_eq in Eid. simpl in Hne. contradiction.
  - intros U. unfold updateTestResults.
    destruct (fold_left (update_test U) results_ (tests s, [])) as [rows errors].
    now destruct (overallUpdate _) as [[st c]|].
Qed.

Lemma filter_map_comm (A B : Type) (f : A -> B) (p : B -> bool) (l : list A) :
  filter p (map f l) = map f (filter (fun x => p (f x)) l).
Proof.
  induction l as [|x l IH]; simpl; [reflexivity|].
  destruct (p (f x)); simpl; now rewrite IH.
Qed.

(** The tests of a run after the update are its tests before, updated. *)
Lemma run_tests_updated U resultId results_ s rid :
  run_tests (fst (updateTestResults U resultId results_ s)) rid =
  map (apply_results U results_) (run_tests s rid).
Proof.
  destruct (updateTestResults_tests U resultId results_ s) as [Ht Hs].
  unfold run_tests, suites_of. rewrite Hs, Ht, filter_map_comm.
  f_equal. apply filter_ext. intros t.
  destruct (apply_results_frame U results_ t) as (_ & Hsuite & _).
  now rewrite Hsuite.
Qed.

(** X9: rolling up and then reading back agree.  On a store whose suites
    have distinct ids, for a run that exists and has at least one test, the
    verdict computed from the hierarchy read after updateTestResults (no
    store error) is a pass exactly when every test of the run has outcome
    true: the stored status no longer overrides the outcomes. *)
Theorem update_then_verify cast rid results_ s :
  NoDup (map Suites.id (suites s)) ->
  In rid (map Results.id (results s)) ->
  run_tests s rid <> [] ->
  let s' := fst (updateTestResults (no_update_faults cast) (Some rid) results_ s) in
  verdict (Data (read_hierarchy s' rid)) = JBool (all_passed (run_tests s' rid)).
Proof.
  intros Hnd Hin Hne s'.
  destruct (updateTestResults_tests (no_update_faults cast) (Some rid) results_ s)
    as [Ht Hs].
  pose proof (updateTestResults_results cast rid results_ s) as Hr.
  cbv zeta in Hr. fold s' in Ht, Hs, Hr.
  set (ts := run_tests s' rid) in *.
  assert (Hts : ts <> []).
  { unfold ts, s'.
    rewrite (run_tests_updated (no_update_faults cast) (Some rid) results_ s rid).
    intros Hnil. apply map_eq_nil in Hnil. contradiction. }
  destruct (find_by_id (results s) rid Hin) as [r0 [Hfind Hid]].
  set (g := fun r => if Pos.eqb (Results.id r) rid
                     then set_overall (if all_passed ts then PASSED else FAILED)
                            {| passed := List.length (passed_of ts);
                               failed := List.length ts - List.length (passed_of ts);
                               total := List.length ts |} r
                     else r) in *.
  assert (Hr' : results s' = map g (results s)).
  { rewrite Hr. destruct ts; [congruence | reflexivity]. }
  assert (Hfind' : find (fun r => Pos.eqb (Results.id r) rid) (results s')
                   = Some (g r0)).
  { rewrite Hr', find_map_id, Hfind; [reflexivity|].
    intros r. unfold g. now destruct (Pos.eqb _ _). }
  assert (Hnd' : NoDup (map Suites.id (suites s'))) by now rewrite Hs.
  destruct (snapshot_counts s' rid Hfind' Hnd')
    as [result (Hread & Hrow & Htot & Hpass)].
  rewrite Hread. simpl. f_equal. unfold overallSuccess.
  rewrite Hrow, Htot, Hpass. fold ts.
  unfold g. rewrite Hid, Pos.eqb_refl. simpl.
  rewrite all_passed_count.
  destruct (Nat.eqb (List.length (passed_of ts)) (List.length ts)) eqn:E;
    simpl; [reflexivity|].
  reflexivity.
Qed.

(* ================================================================= *)
(** ** runTests, in general *)

(** X10: the test phase writes neither suites nor tests and calls the agent
    at most once: either it makes no call and leaves both tables as they
    are, or it calls the agent once, with the pipeline's result id, and both
    tables are as the agent left them.  The result id is never changed. *)
Theorem runTests_writes_only_the_run_status env F agent st :
  let r := runTests env F agent st in
  resultId (snd r) = resultId st
  /\ ((agent_calls (calls (snd r)) = agent_calls (calls st)
       /\ suites (db (snd r)) = suites (db st)
       /\ tests (db (snd r)) = tests (db st))
      \/ (exists rid,
            resultId st = Some rid
            /\ env_set (QAI_ENDPOINT env) = true
            /\ agent_calls (calls (snd r)) = agent_calls (calls st) ++ [rid]
            /\ suites (db (snd r)) = suites (snd (agent rid (db st)))
            /\ tests (db (snd r)) = tests (snd (agent rid (db st))))).
Proof.
  assert (Hcatch : forall error,
    let st1 := log_error (QAIExecutionFailed error) st in
    let r := (JBool false,
              match resultId st1 with
              | Some rid0 =>
                  with_db (update_run_status F rid0 FAILED (db st1))
                    (call (UpdateRunStatus rid0 FAILED) st1)
              | None => st1
              end) in
    resultId (snd r) = resultId st
    /\ agent_calls (calls (snd r)) = agent_calls (calls st)
    /\ suites (db (snd r)) = suites (db st)
    /\ tests (db (snd r)) = tests (db st)).
  { intros error. simpl. destruct (resultId st) as [rid|] eqn:Hid; simpl;
      rewrite ?Hid; unfold agent_calls; rewrite ?flat_map_app; simpl;
      rewrite ?app_nil_r; unfold update_run_status;
      destruct (results_update_error F); auto. }
  unfold runTests, runTests_try.
  destruct (env_set (QAI_ENDPOINT env)) eqn:Henv; cbn [negb].
  2:{ destruct (Hcatch MissingEndpoint) as (H1 & H2). split; [exact H1|].
      left. exact H2. }
  destruct (resultId st) as [rid|] eqn:Hid.
  2:{ destruct (Hcatch NoResultId) as (H1 & H2).
      split; [exact H1|]. left. exact H2. }
  destruct (agent rid (db st)) as [reply db1] eqn:Hagent.
  assert (Hfail : forall error,
    let st1 := log_error (QAIExecutionFailed error)
                 (with_db db1 (call (CallAgent rid) st)) in
    let r := (JBool false,
              match resultId st1 with
              | Some rid0 =>
                  with_db (update_run_status F rid0 FAILED (db st1))
                    (call (UpdateRunStatus rid0 FAILED) st1)
              | None => st1
              end) in
    resultId (snd r) = Some rid
    /\ agent_calls (calls (snd r)) = agent_calls (calls st) ++ [rid]
    /\ suites (db (snd r)) = suites db1
    /\ tests (db (snd r)) = tests db1).
  { intros error. simpl. rewrite Hid. simpl. unfold agent_calls.
    rewrite !flat_map_app. simpl. rewrite app_nil_r.
    unfold update_run_status. destruct (results_update_error F); auto. }
  assert (Hgoal : forall r : jsval * State,
            (resultId (snd r) = Some rid
             /\ agent_calls (calls (snd r)) = agent_calls (calls st) ++ [rid]
             /\ suites (db (snd r)) = suites db1
             /\ tests (db (snd r)) = tests db1) ->
            resultId (snd r) = Some rid
            /\ ((agent_calls (calls (snd r)) = agent_calls (calls st)
                 /\ suites (db (snd r)) = suites (db st)
                 /\ tests (db (snd r)) = tests (db st))
                \/ (exists rid0,
                      Some rid = Some rid0 /\ true = true
                      /\ agent_calls (calls (snd r)) = agent_calls (calls st) ++ [rid0]
                      /\ suites (db (snd r)) = suites (snd (agent rid0 (db st)))
                      /\ tests (db (snd r)) = tests (snd (agent rid0 (db st)))))).
  { intros r (H1 & H2 & H3 & H4). split; [assumption|]. right. exists rid.
    rewrite Hagent. simpl. auto. }
  destruct reply as [m| |data].
  - apply Hgoal, Hfail.
  - apply Hgoal, Hfail.
  - destruct (is_success (status_of data)).
    + apply Hgoal. unfold verifyFinalResults. simpl.
      destruct (read F (with_db db1 (call (CallAgent rid) st))); simpl;
        rewrite ?Hid; unfold agent_calls; rewrite !flat_map_app; simpl;
        rewrite app_nil_r; auto.
    + apply Hgoal, Hfail.
Qed.

(** X11: a pass is earned.  The test phase returns a truthy value only when
    the endpoint is configured, the pipeline has a result id, the agent
    answered with status "success", the final read was not disturbed and
    found the run, and the verdict computed from that hierarchy is a pass. *)
Theorem runTests_pass_is_earned env F agent st :
  truthy (fst (runTests env F agent st)) = true ->
  exists rid db1 result,
    env_set (QAI_ENDPOINT env) = true
    /\ resultId st = Some rid
    /\ agent rid (db st) = (Responded (Some (JStr (str "success"))), db1)
    /\ hierarchy_read F = ReadOk
    /\ read_hierarchy db1 rid = Some result
    /\ overallSuccess result = true
    /\ db (snd (runTests env F agent st)) = db1
    /\ status_updates (calls (snd (runTests env F agent st)))
       = status_updates (calls st).
Proof.
  unfold runTests, runTests_try.
  destruct (env_set (QAI_ENDPOINT env)) eqn:Henv; cbn [negb];
    [|simpl; discriminate].
  destruct (resultId st) as [rid|] eqn:Hid; [|simpl; discriminate].
  destruct (agent rid (db st)) as [reply db1] eqn:Hagent.
  destruct reply as [m| |data]; try (simpl; discriminate).
  destruct (is_success (status_of data)) eqn:Hs; [|simpl; discriminate].
  apply is_success_iff in Hs. subst data.
  unfold verifyFinalResults, read. simpl. rewrite Hid.
  destruct (hierarchy_read F) eqn:Hread; simpl; try discriminate.
  destruct (read_hierarchy db1 rid) as [result|] eqn:Hres; simpl;
    [|discriminate].
  intros Hv. exists rid, db1, result. repeat split; try assumption.
  unfold status_updates. rewrite !flat_map_app. simpl.
  now rewrite !app_nil_r.
Qed.

(** X12: without a configured endpoint the agent is not called; the phase
    logs the missing endpoint and returns false, and a run that was created
    is marked FAILED (by an update the store may reject). *)
Theorem runTests_without_endpoint env F agent st :
  env_set (QAI_ENDPOINT env) = false ->
  let r := runTests env F agent st in
  fst r = JBool false
  /\ agent_calls (calls (snd r)) = agent_calls (calls st)
  /\ hierarchy_reads (calls (snd r)) = hierarchy_reads (calls st)
  /\ console (snd r) = console st ++ [QAIExecutionFailed MissingEndpoint]
  /\ (forall rid, resultId st = Some rid ->
        calls (snd r) = calls st ++ [UpdateRunStatus rid FAILED]
        /\ (results_update_error F = false ->
            forall x, In x (results (db (snd r))) -> Results.id x = rid ->
              Results.run_status (Results.data x) = FAILED))
  /\ (resultId st = None -> calls (snd r) = calls st /\ db (snd r) = db st).
Proof.
  intros Henv. unfold runTests, runTests_try. rewrite Henv. cbn [negb].
  destruct (resultId st) as [rid|] eqn:Hid; simpl; rewrite Hid; simpl;
    unfold agent_calls, hierarchy_reads; rewrite ?flat_map_app; simpl;
    rewrite ?app_nil_r; repeat split; try discriminate; auto.
  - now injection H as <-.
  - injection H as <-. intros HF. now apply update_run_status_forced.
Qed.

(** X13: when the agent reports success but the final read throws, returns
    no data or does not find the run, the phase does not report a pass, and
    it leaves the store as the agent left it: the run's status is not set to
    FAILED on this path. *)
Theorem runTests_unreadable_hierarchy env F agent st rid db1 :
  env_set (QAI_ENDPOINT env) = true ->
  resultId st = Some rid ->
  agent rid (db st) = (Responded (Some (JStr (str "success"))), db1) ->
  hierarchy_read F <> ReadOk \/ read_hierarchy db1 rid = None ->
  let r := runTests env F agent st in
  truthy (fst r) = false
  /\ db (snd r) = db1
  /\ status_updates (calls (snd r)) = status_updates (calls st)
  /\ calls (snd r) = calls st ++ [CallAgent rid; ReadHierarchy (Some rid)].
Proof.
  intros Henv Hid Hagent Hread. unfold runTests, runTests_try.
  rewrite Henv, Hid, Hagent. cbn [negb].
  assert (Hs : is_success (status_of (Some (JStr (str "success")))) = true)
    by reflexivity.
  rewrite Hs. unfold verifyFinalResults, read. simpl. rewrite Hid.
  unfold status_updates.
  destruct (hierarchy_read F) as [| |m] eqn:E; simpl.
  - destruct Hread as [Hread|Hread]; [congruence|]. rewrite Hread. simpl.
    repeat split; rewrite ?flat_map_app; simpl;
      rewrite ?app_nil_r, <- ?app_assoc; reflexivity.
  - repeat split; rewrite ?flat_map_app; simpl;
      rewrite ?app_nil_r, <- ?app_assoc; reflexivity.
  - repeat split; rewrite ?flat_map_app; simpl;
      rewrite ?app_nil_r, <- ?app_assoc; reflexivity.
Qed.

(* ================================================================= *)
(** ** main *)

Lemma runTests_no_result_id env F agent st :
  resultId st = None ->
  runTests env F agent st =
  (JBool false,
   log_error (QAIExecutionFailed
                (if env_set (QAI_ENDPOINT env) then NoResultId else MissingEndpoint))
             st).
Proof.
  intros Hid. unfold runTests, runTests_try. rewrite Hid.
  destruct (env_set (QAI_ENDPOINT env)); simpl; now rewrite Hid.
Qed.

Lemma construct_fresh print g event_number s this :
  construct print g event_number s = Some this ->
  resultId this = None /\ db this = s /\ calls this = [] /\ console this = [].
Proof.
  unfold construct. destruct (createClient g); [|discriminate].
  destruct (getPRNumber g event_number); [|discriminate].
  intros H. injection H as <-. repeat split.
Qed.

Lemma createAgentFiles_returned env write_throws scenarios :
  snd (createAgentFiles env write_throws scenarios) = true ->
  write_throws system_prompt_txt = false
  /\ write_throws options_json = false
  /\ write_throws test_cases_json = false
  /\ fst (createAgentFiles env write_throws scenarios)
     = [ SavedSystemPrompt;
         SavedOptions (or_default (DEPLOYMENT_URL env)
                                  (str "https://staging.example.com"));
         SavedTestCases (testCases scenarios) ].
Proof.
  unfold createAgentFiles.
  destruct (write_throws system_prompt_txt), (write_throws options_json),
    (write_throws test_cases_json); simpl; intros H;
    try discriminate; repeat split.
Qed.

Lemma runTests_resultId env F agent st :
  resultId (snd (runTests env F agent st)) = resultId st.
Proof.
  assert (Hcatch : forall error st0,
    resultId st0 = resultId st ->
    resultId
      (match resultId (log_error (QAIExecutionFailed error) st0) with
       | Some rid0 =>
           with_db (update_run_status F rid0 FAILED
                      (db (log_error (QAIExecutionFailed error) st0)))
             (call (UpdateRunStatus rid0 FAILED)
                (log_error (QAIExecutionFailed error) st0))
       | None => log_error (QAIExecutionFailed error) st0
       end) = resultId st).
  { intros error st0 H. simpl. destruct (resultId st0) eqn:E; simpl;
      now rewrite E. }
  unfold runTests, runTests_try.
  destruct (env_set (QAI_ENDPOINT env)); cbn [negb].
  - destruct (resultId st) as [rid|] eqn:Hid.
    + destruct (agent rid (db st)) as [reply db1].
      destruct reply as [m| |data].
      * cbn [snd]. apply Hcatch. exact Hid.
      * cbn [snd]. apply Hcatch. exact Hid.
      * destruct (is_success (status_of data)).
        -- unfold verifyFinalResults.
           destruct (read F (with_db db1 (call (CallAgent rid) st))); exact Hid.
        -- cbn [snd]. apply Hcatch. exact Hid.
    + cbn [snd]. apply Hcatch. exact Hid.
  - cbn [snd]. apply Hcatch. reflexivity.
Qed.

Lemma runTests_truthy_has_result_id env F agent st :
  truthy (fst (runTests env F agent st)) = true -> resultId st <> None.
Proof.
  intros H Hid. rewrite (runTests_no_result_id env F agent st Hid) in H.
  discriminate.
Qed.

(** X14: the test action on its own can neither dispatch nor pass.  The
    process constructs a new pipeline, which has no result id, so whatever
    the environment, the saved scenarios, the store and the agent are, it
    exits with code 1, calls neither the agent nor the store, and leaves the
    store, the codebase summary and the saved scenarios as they were.  What
    it does write are the agent files, before anything else: when the
    pipeline is constructed and the saved scenarios are readable, it writes
    system-prompt.txt, options.json and test-cases.json, in this order and
    up to the first write that throws, and no other file. *)
Theorem main_test_action_always_fails
    print env g event_number F agent write_throws now generated s fs :
  let e := main print env g event_number F agent write_throws now
                (Some (str "test")) generated s fs in
  exit_code e = 1
  /\ files e = fs
  /\ (forall st, pipeline e = Some st ->
        db st = s /\ calls st = [] /\ resultId st = None)
  /\ saved e
     = match construct print g event_number s, scenarios_file fs with
       | Some _, Some scenarios =>
           fst (createAgentFiles env write_throws scenarios)
       | _, _ => []
       end
  /\ (forall this scenarios,
        construct print g event_number s = Some this ->
        scenarios_file fs = Some scenarios ->
        write_throws system_prompt_txt = false ->
        write_throws options_json = false ->
        write_throws test_cases_json = false ->
        saved e
        = [ SavedSystemPrompt;
            SavedOptions (or_default (DEPLOYMENT_URL env)
                                     (str "https://staging.example.com"));
            SavedTestCases (testCases scenarios) ]).
Proof.
  unfold main. change (action_of (Some (str "test"))) with Test. cbv iota.
  destruct (construct print g event_number s) as [this|] eqn:Hc.
  2:{ simpl. repeat split; discriminate. }
  destruct (construct_fresh print g event_number s Hc) as (Hid & Hdb & Hcalls & _).
  destruct (scenarios_file fs) as [scenarios|].
  2:{ simpl. split; [reflexivity|]. split; [reflexivity|]. split.
      - intros st H. injection H as <-. auto.
      - split; [reflexivity | discriminate]. }
  unfold runTests_saving.
  destruct (createAgentFiles env write_throws scenarios)
    as [written returned] eqn:Hfiles.
  assert (Hall : forall this0 scenarios0,
            Some this = Some this0 -> Some scenarios = Some scenarios0 ->
            write_throws system_prompt_txt = false ->
            write_throws options_json = false ->
            write_throws test_cases_json = false ->
            written
            = [ SavedSystemPrompt;
                SavedOptions (or_default (DEPLOYMENT_URL env)
                                         (str "https://staging.example.com"));
                SavedTestCases (testCases scenarios0) ]).
  { intros this0 scenarios0 _ [= <-] H1 H2 H3.
    unfold createAgentFiles in Hfiles. rewrite H1, H2, H3 in Hfiles.
    now injection Hfiles as <- _. }
  destruct returned.
  - rewrite (runTests_no_result_id env F agent this Hid). simpl.
    split; [reflexivity|]. split; [reflexivity|]. split; [|split].
    + intros st H. injection H as <-. simpl. auto.
    + reflexivity.
    + exact Hall.
  - simpl. split; [reflexivity|]. split; [reflexivity|]. split; [|split].
    + intros st H. injection H as <-. auto.
    + reflexivity.
    + exact Hall.
Qed.

(** X15: the full action.  When the sources or the generator fail, or the
    scenarios cannot be saved, the process exits with code 1 before anything
    is stored, requested or written.  Otherwise the scenarios are saved; the
    exit code is 0 or 1; on exit code 1 the codebase summary is left as it
    was; exit code 0 is only reached when the run record was created and the
    three agent files were written, and then the codebase summary is the
    last file written, with the new entry, unless that write throws, in
    which case the summary is left as it was. *)
Theorem main_full_action
    print env g event_number F agent write_throws now argv2 generated s fs this :
  action_of argv2 = Full ->
  construct print g event_number s = Some this ->
  let e := main print env g event_number F agent write_throws now argv2
                generated s fs in
  (generated = None \/ write_throws test_scenarios_json = true ->
   exit_code e = 1 /\ pipeline e = Some this /\ files e = fs /\ saved e = [])
  /\ (forall parsedScenarios,
        generated = Some parsedScenarios ->
        write_throws test_scenarios_json = false ->
        let scenarios := scenarios_of env parsedScenarios in
        scenarios_file (files e) = Some scenarios
        /\ (exit_code e = 0 \/ exit_code e = 1)
        /\ (exit_code e = 1 ->
            summary_file (files e) = summary_file fs
            /\ forall text, ~ In (SavedSummary text) (saved e))
        /\ (exit_code e = 0 ->
            results_insert_error F = None
            /\ exists st,
                 pipeline e = Some st
                 /\ resultId st
                    = Some (fresh_id (map Results.id (results s)))
                 /\ (write_throws codebase_summary_txt = false ->
                     summary_file (files e)
                     = Some (updated_summary now st (summary_file fs))
                     /\ saved e
                        = [ SavedScenarios scenarios;
                            SavedSystemPrompt;
                            SavedOptions
                              (or_default (DEPLOYMENT_URL env)
                                          (str "https://staging.example.com"));
                            SavedTestCases (testCases scenarios);
                            SavedSummary
                              (updated_summary now st (summary_file fs)) ])
                 /\ (write_throws codebase_summary_txt = true ->
                     summary_file (files e) = summary_file fs
                     /\ saved e
                        = [ SavedScenarios scenarios;
                            SavedSystemPrompt;
                            SavedOptions
                              (or_default (DEPLOYMENT_URL env)
                                          (str "https://staging.example.com"));
                            SavedTestCases (testCases scenarios) ]))).
Proof.
  intros Hact Hc. unfold main. rewrite Hc, Hact. cbv iota.
  destruct (construct_fresh print g event_number s Hc) as (Hid & Hdb & _).
  unfold analyzePR_saving. split.
  - intros [->|Hw]; [simpl; repeat split|].
    destruct generated; [rewrite Hw|]; simpl; repeat split.
  - intros parsedScenarios -> Hw. rewrite Hw. unfold analyzePR.
    set (scenarios := scenarios_of env parsedScenarios).
    set (st1 := uploadScenariosToDatabase F scenarios this).
    unfold runTests_saving.
    destruct (createAgentFiles env write_throws scenarios)
      as [written returned] eqn:Hfiles.
    assert (Hnot : forall text, ~ In (SavedSummary text)
                                     (SavedScenarios scenarios :: written)).
    { intros text [H|H]; [discriminate|].
      unfold createAgentFiles in Hfiles.
      destruct (write_throws system_prompt_txt), (write_throws options_json),
        (write_throws test_cases_json); injection Hfiles as <- _;
        simpl in H; intuition discriminate. }
    destruct returned.
    2:{ cbn [exit_code files pipeline summary_file scenarios_file saved].
        split; [reflexivity|]. split; [now right|]. split; [|discriminate].
        intros _. split; [reflexivity | exact Hnot]. }
    pose proof (createAgentFiles_returned env write_throws scenarios) as Hret.
    rewrite Hfiles in Hret. cbn [fst snd] in Hret.
    destruct (Hret eq_refl) as (_ & _ & _ & ->). clear Hret.
    destruct (runTests env F agent st1) as [testSuccess st2] eqn:Hrun.
    pose proof (runTests_resultId env F agent st1) as Hsame.
    rewrite Hrun in Hsame. cbn [snd] in Hsame.
    destruct (truthy testSuccess) eqn:Ht;
      cbn [exit_code files pipeline summary_file scenarios_file saved].
    + assert (Hins : results_insert_error F = None).
      { destruct (results_insert_error F) as [e|] eqn:Hins; [|reflexivity].
        exfalso.
        assert (Hv : truthy (fst (runTests env F agent st1)) = true)
          by now rewrite Hrun.
        apply runTests_truthy_has_result_id in Hv. apply Hv.
        unfold st1. rewrite (@upload_rejected F _ this e Hins). exact Hid. }
      split; [reflexivity|]. split; [now left|]. split; [discriminate|].
      intros _. split; [exact Hins|]. exists st2.
      split; [reflexivity|]. split; [|split].
      * rewrite Hsame. unfold st1, uploadScenariosToDatabase, insert_result.
        rewrite Hins, Hdb.
        destruct (personaGroups scenarios) as [groups|]; [|reflexivity].
        match goal with |- resultId (createSuites ?F ?rid ?gs ?ps ?st0) = _ =>
          pose proof (@createSuites_effect F rid gs ps st0
                        (@limitedPersonas_keys gs)) as Hl end.
        destruct Hl as (_ & _ & _ & Hrid & _). rewrite Hrid. reflexivity.
      * intros Hs. unfold updateCodebaseSummary, summary_saved. rewrite Hs.
        split; reflexivity.
      * intros Hs. unfold updateCodebaseSummary, summary_saved. rewrite Hs.
        split; reflexivity.
    + split; [reflexivity|]. split; [now right|]. split; [|discriminate].
      intros _. split; [reflexivity | exact Hnot].
Qed.

(* ================================================================= *)
(** ** uploadScenariosToDatabase, in general *)

Lemma testRecord_pending sid s t : Tests.data t = testRecord sid s -> pending t.
Proof. intros H. unfold pending. rewrite H. repeat split. Qed.

Lemma upload_tests_cases F scenarios st t :
  In t (tests (db (uploadScenariosToDatabase F scenarios st))) ->
  In t (tests (db st))
  \/ exists sid s, In s scenarios /\ Tests.data t = testRecord sid s.
Proof.
  destruct (results_insert_error F) as [e|] eqn:Hins.
  - rewrite (@upload_rejected F scenarios st e Hins). simpl. tauto.
  - destruct (personaGroups scenarios) as [groups|] eqn:Hg.
    + rewrite (@uploaded_tests F scenarios groups st Hins Hg). intros Hin.
      apply upsert_rows_In in Hin. destruct Hin as [Hin|Hin]; [now left|].
      right. apply in_flat_map in Hin. destruct Hin as [c [_ Hr]].
      apply accepted_batch_In in Hr.
      destruct (@batch_record scenarios groups c _ Hg Hr) as [s (Hs & _ & Hrs & _)].
      now exists (snd c), s.
    + unfold uploadScenariosToDatabase, insert_result. rewrite Hins, Hg.
      simpl. tauto.
Qed.

(** X16: the upload keeps the store in order, whatever the scenarios and
    whatever the store rejects: unique test names and intact references are
    preserved, tests whose outcome and status agreed still agree, and every
    test row afterwards is either a row from before or a pending test built
    from one of the scenarios. *)
Theorem upload_keeps_store_in_order F scenarios st :
  let st' := uploadScenariosToDatabase F scenarios st in
  (store_ok (db st) -> store_ok (db st'))
  /\ (Forall consistent (tests (db st)) -> Forall consistent (tests (db st')))
  /\ (forall t, In t (tests (db st')) ->
        In t (tests (db st))
        \/ (pending t /\ exists s, In s scenarios
                                   /\ Tests.name (Tests.data t) = description s
                                   /\ Tests.summary (Tests.data t) = summary s)).
Proof.
  intros st'. split; [|split].
  - intros Hok. unfold st'.
    destruct (results_insert_error F) as [e|] eqn:Hins.
    + now rewrite (@upload_rejected F scenarios st e Hins).
    + destruct (personaGroups scenarios) as [groups|] eqn:Hg.
      * now apply (@uploaded_store_ok F scenarios groups).
      * destruct (@upload_ungrouped F scenarios st Hins Hg Hok)
          as (_ & Hr & Hs & Ht & _).
        constructor.
        -- rewrite Ht. apply (unique_names Hok).
        -- intros t Hin. rewrite Ht in Hin. rewrite Hs.
           now apply (tests_in_suites Hok).
        -- intros x Hx. rewrite Hs in Hx. rewrite Hr, map_app.
           apply in_or_app. left. now apply (suites_in_results Hok).
  - intros Hc. apply Forall_forall. intros t Hin.
    apply upload_tests_cases in Hin. destruct Hin as [Hin|[sid [s [_ Hd]]]].
    + rewrite Forall_forall in Hc. now apply Hc.
    + unfold consistent. now rewrite Hd.
  - intros t Hin. apply upload_tests_cases in Hin.
    destruct Hin as [Hin|[sid [s [Hs Hd]]]]; [now left | right].
    split; [now apply (@testRecord_pending sid s t)|].
    exists s. rewrite Hd. repeat split. assumption.
Qed.

Lemma created_length F rid personas ids :
  List.length (created F rid personas ids) <= List.length personas.
Proof.
  rewrite <- (length_map fst), created_personas. apply filter_length_le.
Qed.

Lemma NoDup_map_injective (A B : Type) (f : A -> B) (l : list A) :
  (forall x y, f x = f y -> x = y) -> NoDup l -> NoDup (map f l).
Proof.
  intros Hf. induction l as [|x l IH]; simpl; intros H; constructor;
    inversion H as [|? ? Hnotin Hnd]; subst; [|now apply IH].
  intros Hin. apply in_map_iff in Hin. destruct Hin as [y [Hy Hin]].
  apply Hf in Hy. now subst.
Qed.

Lemma suite_name_inj (p q : jsstring) :
  p +++ str " Agent Suite" = q +++ str " Agent Suite" -> p = q.
Proof. apply app_inv_tail. Qed.

(** X17: a run never has more than 4 suites.  After an upload that created
    the run record on a store with intact references, the suites of the new
    run are at most 4, each is named after the persona of one of the
    scenarios, and no two of them have the same name. *)
Theorem at_most_four_suites_per_run F scenarios st :
  results_insert_error F = None ->
  store_ok (db st) ->
  let rid := fresh_id (map Results.id (results (db st))) in
  let st' := uploadScenariosToDatabase F scenarios st in
  let run_suites := suites_of (db st') rid in
  resultId st' = Some rid
  /\ List.length run_suites <= 4
  /\ NoDup (map (fun x => Suites.name (Suites.data x)) run_suites)
  /\ forall x, In x run_suites ->
       exists s, In s scenarios
                 /\ Suites.name (Suites.data x)
                    = persona_key s +++ str " Agent Suite".
Proof.
  intros Hins Hok rid st' run_suites.
  destruct (personaGroups scenarios) as [groups|] eqn:Hg.
  - unfold run_suites, st', rid.
    rewrite (@uploaded_suites_of F scenarios groups st Hins Hg Hok).
    set (C := created F _ (limitedPersonas groups) _).
    assert (HC : map fst C = filter (suite_accepted F rid) (limitedPersonas groups))
      by apply created_personas.
    assert (Hnd : NoDup (map fst C)).
    { rewrite HC. apply NoDup_filter, limitedPersonas_NoDup.
      now apply (@personaGroups_NoDup scenarios). }
    repeat split.
    + now apply (@uploaded_resultId F scenarios groups).
    + rewrite length_map. etransitivity; [apply created_length|].
      apply limitedPersonas_length.
    + rewrite map_map. simpl.
      rewrite <- (map_map fst (fun p => p +++ str " Agent Suite")).
      apply NoDup_map_injective.
      * intros p q. apply suite_name_inj.
      * exact Hnd.
    + intros x Hx. apply in_map_iff in Hx. destruct Hx as [c [<- Hc]].
      pose proof (@created_In F _ (limitedPersonas groups) _ c Hc) as [Hp _].
      apply limitedPersonas_keys in Hp.
      rewrite (@personaGroups_keys scenarios groups Hg) in Hp.
      apply first_appearance_In, in_map_iff in Hp.
      destruct Hp as [s [Hk Hs]]. exists s. split; [assumption|].
      simpl. now rewrite Hk.
  - destruct (@upload_ungrouped F scenarios st Hins Hg Hok)
      as (Hid & _ & Hs & _ & _).
    assert (Hnil : run_suites = []).
    { unfold run_suites, suites_of, st'. rewrite Hs.
      apply filter_none. intros x Hx. apply Pos.eqb_neq. intros Heq.
      apply (fresh_id_fresh (map Results.id (results (db st)))).
      fold rid. rewrite <- Heq. now apply (suites_in_results Hok). }
    rewrite Hnil. simpl. repeat split; try assumption; try lia;
      try constructor; contradiction.
Qed.

Lemma reduce_inherited (l : list Scenario) (g : object (list Scenario)) s :
  (forall k, In k (map fst g) -> is_inherited k = false) ->
  In s l -> is_inherited (persona_key s) = true ->
  reduce group_step l g = None.
Proof.
  revert g. induction l as [|x l IH]; intros g Hg Hin Hs; [contradiction|].
  simpl. unfold group_step, get.
  destruct (own g (persona_key x)) as [arr|] eqn:Eown.
  - apply IH; try assumption.
    + intros k Hk. rewrite set_keys in Hk. apply in_app_or in Hk.
      destruct Hk as [Hk|Hk]; [now apply Hg|].
      destruct (mem (persona_key x) (map fst g)) eqn:Em; [contradiction|].
      apply own_None in Em. congruence.
    + destruct Hin as [->|Hin]; [|assumption].
      exfalso. apply own_Some_In in Eown. apply (in_map fst) in Eown.
      simpl in Eown. apply Hg in Eown. congruence.
  - destruct (is_inherited (persona_key x)) eqn:Ex; [reflexivity|].
    apply IH; try assumption.
    + intros k Hk. rewrite set_keys in Hk. apply in_app_or in Hk.
      destruct Hk as [Hk|Hk]; [now apply Hg|].
      destruct (mem (persona_key x) (map fst g)); [contradiction|].
      destruct Hk as [<-|[]]. exact Ex.
    + destruct Hin as [->|Hin]; [congruence | assumption].
Qed.

(** X18: one persona label that names a member of Object.prototype (such as
    "constructor") stops the whole upload after the run record: the grouping
    throws, so no suite and no test is written for any persona, nothing else
    is requested, and the only trace is the logged error; the pipeline still
    holds the id of the run it created. *)
Theorem upload_stops_on_inherited_label F scenarios st s :
  In s scenarios ->
  is_inherited (persona_key s) = true ->
  results_insert_error F = None ->
  let rid := fresh_id (map Results.id (results (db st))) in
  let st' := uploadScenariosToDatabase F scenarios st in
  resultId st' = Some rid
  /\ results (db st')
     = results (db st) ++ [ {| Results.id := rid; Results.data := prData st |} ]
  /\ suites (db st') = suites (db st)
  /\ tests (db st') = tests (db st)
  /\ calls st' = calls st ++ [InsertResult (prData st) (Some rid)]
  /\ console st' = console st ++ [DatabaseUploadError TypeError].
Proof.
  intros Hin Hs Hins rid st'.
  assert (Hg : personaGroups scenarios = None).
  { unfold personaGroups. apply (reduce_inherited scenarios [] s);
      [intros k [] | assumption | assumption]. }
  unfold st', uploadScenariosToDatabase, insert_result. rewrite Hins, Hg.
  fold rid. simpl. repeat split.
Qed.

Lemma no_faults_accepted_batch groups c :
  accepted_batch no_faults groups c = batch groups c.
Proof. reflexivity. Qed.

(** X19: an upload resets what it writes.  On a store with unique test
    names and intact references, after an upload without store errors every
    scenario of a retained persona has a test row named by its description,
    and every such row is pending (no outcome, status RUNNING, no steps) and
    belongs to a suite of the new run, whatever outcome and suite a test of
    that name had before. *)
Theorem upload_resets_outcomes scenarios groups st s :
  store_ok (db st) ->
  personaGroups scenarios = Some groups ->
  In s scenarios ->
  In (persona_key s) (limitedPersonas groups) ->
  let rid := fresh_id (map Results.id (results (db st))) in
  let st' := uploadScenariosToDatabase no_faults scenarios st in
  (exists t, In t (tests (db st')) /\ Tests.name (Tests.data t) = description s)
  /\ forall t, In t (tests (db st')) ->
       Tests.name (Tests.data t) = description s ->
       pending t
       /\ In (Tests.suite_id (Tests.data t))
             (map Suites.id (suites_of (db st') rid)).
Proof.
  intros Hok Hg Hs Hp rid st'.
  assert (Hins : results_insert_error no_faults = None) by reflexivity.
  set (C := created no_faults rid (limitedPersonas groups)
              (map Suites.id (suites (db st)))).
  set (R := flat_map (accepted_batch no_faults groups) C).
  assert (Ht : tests (db st') = upsert_rows (tests (db st)) R)
    by apply (@uploaded_tests no_faults scenarios groups st Hins Hg).
  assert (Hname : In (description s) (map Tests.name R)).
  { destruct (@created_of_accepted no_faults rid (limitedPersonas groups)
                (map Suites.id (suites (db st))) _ Hp eq_refl) as [sid Hc].
    destruct (@batch_has_description scenarios groups s sid Hg Hs)
      as [r (Hr & Hn & _)].
    rewrite <- Hn. apply in_map. unfold R. apply in_flat_map.
    exists (persona_key s, sid). split; [exact Hc|].
    now rewrite no_faults_accepted_batch. }
  split.
  - apply (upsert_rows_has_names R (tests (db st))) in Hname.
    rewrite <- Ht in Hname. unfold test_names in Hname.
    apply in_map_iff in Hname. destruct Hname as [t [Hn Hin]]. now exists t.
  - intros t Hin Hn.
    destruct (@uploaded_row no_faults scenarios groups st Hins Hg Hok t Hin)
      as [(_ & Hnot & _)|[Hr Hsuite]].
    + exfalso. apply Hnot. now rewrite Hn.
    + split.
      * apply in_flat_map in Hr. destruct Hr as [c [_ Hr]].
        apply accepted_batch_In in Hr.
        destruct (@batch_record scenarios groups c _ Hg Hr)
          as [s0 (_ & _ & Hrec & _)].
        now apply (@testRecord_pending (snd c) s0 t).
      * unfold st', rid.
        rewrite (@uploaded_suites_of no_faults scenarios groups st Hins Hg Hok).
        rewrite map_map. exact Hsuite.
Qed.

Lemma list_sum_zero (A : Type) (f : A -> nat) (l : list A) :
  (forall x, In x l -> f x = 0) -> list_sum (map f l) = 0.
Proof.
  induction l as [|x l IH]; simpl; intros H; [reflexivity|].
  rewrite (H x (or_introl eq_refl)), IH; [reflexivity|].
  intros y Hy. apply H. now right.
Qed.

Lemma pending_not_passed ts :
  (forall t, In t ts -> pending t) -> passed_of ts = [].
Proof.
  intros H. unfold passed_of. apply filter_none. intros t Ht.
  destruct (H t Ht) as [Hn _]. now rewrite Hn.
Qed.

(** What the final read finds right after an upload: the new run, still
    RUNNING, whose tests are all pending. *)
Lemma upload_new_run F scenarios st :
  results_insert_error F = None ->
  store_ok (db st) ->
  let rid := fresh_id (map Results.id (results (db st))) in
  let st' := uploadScenariosToDatabase F scenarios st in
  find (fun r => Pos.eqb (Results.id r) rid) (results (db st'))
  = Some {| Results.id := rid; Results.data := prData st |}
  /\ forall x t, In x (suites_of (db st') rid) ->
       In t (tests_of (db st') (Suites.id x)) -> pending t.
Proof.
  intros Hins Hok rid st'.
  assert (Hfind : forall rows,
            rows = results (db st)
                   ++ [ {| Results.id := rid; Results.data := prData st |} ] ->
            find (fun r => Pos.eqb (Results.id r) rid) rows
            = Some {| Results.id := rid; Results.data := prData st |}).
  { intros rows ->. rewrite find_app_none.
    - simpl. now rewrite Pos.eqb_refl.
    - apply find_fresh_none, fresh_id_fresh. }
  destruct (personaGroups scenarios) as [groups|] eqn:Hg.
  - split.
    + apply Hfind. apply (@uploaded_results F scenarios groups st Hins Hg).
    + intros x t Hx Ht. unfold st', rid in Hx.
      rewrite (@uploaded_suites_of F scenarios groups st Hins Hg Hok) in Hx.
      apply in_map_iff in Hx. destruct Hx as [c [<- Hc]].
      unfold tests_of in Ht. apply filter_In in Ht. destruct Ht as [Hin Hid].
      apply Pos.eqb_eq in Hid. simpl in Hid.
      destruct (@uploaded_row F scenarios groups st Hins Hg Hok t Hin)
        as [(_ & _ & Hnot)|[Hr _]].
      * exfalso. apply Hnot. rewrite Hid. now apply in_map.
      * apply in_flat_map in Hr. destruct Hr as [c' [_ Hr]].
        apply accepted_batch_In in Hr.
        destruct (@batch_record scenarios groups c' _ Hg Hr)
          as [s0 (_ & _ & Hrec & _)].
        now apply (@testRecord_pending (snd c') s0 t).
  - destruct (@upload_ungrouped F scenarios st Hins Hg Hok)
      as (_ & Hr & Hs & _ & _).
    split; [now apply Hfind|].
    intros x t Hx _. exfalso. unfold suites_of in Hx. fold st' in Hs.
    rewrite Hs in Hx. apply filter_In in Hx. destruct Hx as [Hx Heq].
    apply Pos.eqb_eq in Heq.
    apply (fresh_id_fresh (map Results.id (results (db st)))).
    fold rid. rewrite <- Heq. now apply (suites_in_results Hok).
Qed.

(** X20: a run does not pass by being uploaded.  Right after an upload that
    created the run record (on a store with unique test names and intact
    references), the hierarchy read back for the new run has status RUNNING
    and no passed test, and its verdict is a failure, also when the run has
    no test at all: a pass needs the agent, or someone else, to write to the
    store. *)
Theorem new_run_does_not_pass_by_itself F scenarios st :
  results_insert_error F = None ->
  store_ok (db st) ->
  let rid := fresh_id (map Results.id (results (db st))) in
  let st' := uploadScenariosToDatabase F scenarios st in
  exists result,
    read_hierarchy (db st') rid = Some result
    /\ stored_status result = RUNNING
    /\ passedTests result = 0
    /\ verdict (Data (Some result)) = JBool false.
Proof.
  intros Hins Hok rid st'.
  destruct (@upload_new_run F scenarios st Hins Hok) as [Hfind Hpend].
  fold rid st' in Hfind, Hpend.
  unfold read_hierarchy. rewrite Hfind. eexists. split; [reflexivity|].
  assert (Hp : passedTests
                 {| Hierarchy.run_row :=
                      {| Results.id := rid; Results.data := prData st |};
                    Hierarchy.suites :=
                      Some (map (fun x =>
                                   {| Hierarchy.suite_row := x;
                                      Hierarchy.tests :=
                                        Some (tests_of (db st') (Suites.id x)) |})
                                (suites_of (db st') rid)) |} = 0).
  { unfold passedTests. simpl. rewrite fold_left_add_length, map_map. simpl.
    apply list_sum_zero. intros x Hx. simpl.
    rewrite pending_not_passed; [reflexivity|].
    intros t Ht. now apply (Hpend x t). }
  repeat split.
  - exact Hp.
  - simpl. f_equal. unfold overallSuccess. rewrite Hp. simpl.
    now destruct (totalTests _).
Qed.

Lemma trimStart_head s :
  trimStart s = []
  \/ exists c r, trimStart s = c :: r /\ is_whitespace c = false /\ In c s.
Proof.
  induction s as [|c s IH]; simpl; [now left|].
  destruct (is_whitespace c) eqn:E.
  - destruct IH as [IH|(c' & r & H1 & H2 & H3)]; [now left|].
    right. exists c', r. auto.
  - right. exists c, s. auto.
Qed.

Lemma trimStart_not_blank c s :
  In c s -> is_whitespace c = false -> trimStart s <> [].
Proof.
  induction s as [|x s IH]; simpl; [tauto|].
  intros [->|Hin] Hc.
  - now rewrite Hc.
  - destruct (is_whitespace x); [now apply IH | discriminate].
Qed.

Lemma trim_not_blank c s :
  In c s -> is_whitespace c = false -> trim s <> [].
Proof.
  intros Hin Hc. unfold trim, trimEnd.
  destruct (trimStart_head s) as [H|(c' & r & H1 & H2 & _)].
  - exfalso. now apply (@trimStart_not_blank c s).
  - rewrite H1. intros Hnil.
    apply (f_equal (@rev N)) in Hnil. rewrite rev_involutive in Hnil.
    revert Hnil. apply (@trimStart_not_blank c').
    + simpl. apply in_or_app. right. now left.
    + exact H2.
Qed.

Lemma summary_template_given deploymentUrl s :
  summary_given (JStr (summary_template deploymentUrl s)) = true.
Proof.
  destruct (summary_given (JStr (summary_template deploymentUrl s))) eqn:E;
    [reflexivity|].
  apply summary_given_iff in E. simpl in E. exfalso. revert E.
  apply (@trim_not_blank 79%N); [|reflexivity].
  unfold summary_template. apply in_or_app. left. vm_compute. now left.
Qed.

Lemma fill_summary_given deploymentUrl s :
  summary_given (summary (fill_summary deploymentUrl s)) = true.
Proof.
  unfold fill_summary. destruct (summary_given (summary s)) eqn:E; simpl.
  - exact E.
  - apply summary_template_given.
Qed.

(** X21: what the analysis hands on is already normal.  Every scenario of
    the list the analysis keeps carries a summary that is a string and not
    blank after trimming (the synthesized text never is), and normalising
    that list again, for any deployment, gives the same list: at most four
    scenarios, none with a summary to replace. *)
Theorem analysis_is_normal (env env' : Env) (parsedScenarios : list Scenario) :
  Forall (fun s => exists text, summary s = JStr text /\ trim text <> [])
         (scenarios_of env parsedScenarios)
  /\ scenarios_of env' (scenarios_of env parsedScenarios)
     = scenarios_of env parsedScenarios.
Proof.
  assert (Hgiven : forall s, In s (scenarios_of env parsedScenarios) ->
                             summary_given (summary s) = true).
  { intros s Hs. unfold scenarios_of in Hs. apply in_map_iff in Hs.
    destruct Hs as [s0 [<- _]]. apply fill_summary_given. }
  split.
  - apply Forall_forall. intros s Hs. specialize (Hgiven s Hs).
    destruct (summary s) as [| |b|n|text|] eqn:E;
      try (unfold summary_given in Hgiven; simpl in Hgiven;
           rewrite ?andb_false_r in Hgiven; discriminate).
    exists text. split; [reflexivity|]. intros Hb.
    assert (Hf : summary_given (JStr text) = false)
      by (apply summary_given_iff; exact Hb).
    congruence.
  - unfold scenarios_of at 1. rewrite cap_scenarios_firstn.
    rewrite firstn_all2 by apply scenarios_of_length.
    rewrite <- (map_id (scenarios_of env parsedScenarios)) at 2.
    apply map_ext_in. intros s Hs. unfold fill_summary.
    rewrite (Hgiven s Hs). apply with_summary_same.
Qed.

Lemma createSuites_suiteIds F rid groups personas st :
  (forall p, In p personas -> In p (map fst groups)) ->
  suiteIds (createSuites F rid groups personas st)
  = fold_left (fun o c => set o (fst c) (snd c))
      (created F rid personas (map Suites.id (suites (db st))))
      (suiteIds st).
Proof.
  revert st. induction personas as [|p personas IH]; intros st Hkeys;
    [reflexivity|].
  assert (Hp : In p (map fst groups)) by (apply Hkeys; now left).
  assert (Hrest : forall q, In q personas -> In q (map fst groups))
    by (intros q Hq; apply Hkeys; now right).
  cbn [createSuites]. rewrite (get_own_key _ _ Hp).
  unfold insert_suite. cbn [created].
  destruct (suites_insert_error F (suiteRecord rid p)) as [e|] eqn:Eins.
  - rewrite (IH _ Hrest). reflexivity.
  - unfold upsert_tests.
    destruct (tests_upsert_error F _) as [e|] eqn:Eup;
      rewrite (IH _ Hrest); simpl; now rewrite map_app.
Qed.

(** X22: the pipeline's map from persona label to suite id mirrors the
    store.  After an upload that created the run record (on a store with
    intact references), a label has an entry in [suiteIds] exactly when the
    store holds a suite of the new run named after that label, and the entry
    is that suite's id. *)
Theorem suiteIds_mirror_the_store F scenarios groups st p sid :
  results_insert_error F = None ->
  personaGroups scenarios = Some groups ->
  store_ok (db st) ->
  let rid := fresh_id (map Results.id (results (db st))) in
  let st' := uploadScenariosToDatabase F scenarios st in
  own (suiteIds st') p = Some sid
  <-> In {| Suites.id := sid; Suites.data := suiteRecord rid p |}
         (suites_of (db st') rid).
Proof.
  intros Hins Hg Hok rid st'.
  set (C := created F rid (limitedPersonas groups)
              (map Suites.id (suites (db st)))).
  assert (HC : NoDup (map fst C)).
  { unfold C. rewrite created_personas.
    apply NoDup_filter, limitedPersonas_NoDup.
    now apply (@personaGroups_NoDup scenarios). }
  assert (Hids : suiteIds st' = fold_left (fun o c => set o (fst c) (snd c)) C []).
  { unfold st', uploadScenariosToDatabase, insert_result. rewrite Hins, Hg.
    rewrite createSuites_suiteIds; [reflexivity|].
    intros q Hq. now apply limitedPersonas_keys. }
  unfold st', rid.
  rewrite (@uploaded_suites_of F scenarios groups st Hins Hg Hok).
  fold rid C. fold st'. rewrite Hids.
  pose proof (@fold_own (jsstring * positive) positive positive
                fst (fun _ c => snd c) (fun x => x) snd
                (fun _ _ => eq_refl) C [] p) as Hown.
  assert (Hmap : forall o : option positive, option_map (fun x => x) o = o)
    by (now intros [x|]).
  rewrite Hmap in Hown. rewrite Hown. clear Hown Hmap.
  split.
  - destruct (find _ (rev C)) as [c|] eqn:Ef; [|discriminate].
    intros [= <-]. apply find_some in Ef. destruct Ef as [Hin Hk].
    apply eqb_eq in Hk. apply in_rev in Hin.
    apply in_map_iff. exists c. split; [|exact Hin].
    unfold suite_row. now rewrite Hk.
  - intros Hin. apply in_map_iff in Hin. destruct Hin as [c [Hc Hin]].
    unfold suite_row in Hc. injection Hc as Hs Hn.
    apply suite_name_inj in Hn.
    destruct (find (fun a => eqb (fst a) p) (rev C)) as [c'|] eqn:Ef.
    + apply find_some in Ef. destruct Ef as [Hin' Hk].
      apply eqb_eq in Hk. apply in_rev in Hin'.
      assert (c' = c).
      { apply (@NoDup_map_inj _ _ fst C); try assumption. congruence. }
      subst c'. now rewrite Hs.
    + exfalso. apply in_rev in Hin.
      pose proof (find_none _ _ Ef c Hin) as Hne. simpl in Hne.
      rewrite Hn, eqb_refl in Hne. discriminate.
Qed.

(* ================================================================= *)
(** ** The properties above at concrete inputs *)

Lemma empty_store_ok : store_ok empty_store.
Proof. constructor; simpl; [constructor | intros ? [] | intros ? []]. Qed.

Lemma summary_short_is_appended_witness :
  false = false
  /\ List.length (js_split 10 (loadCodebaseSummary None
                               +++ summary_entry (str "2026-01-01T00:00:00.000Z")
                                                 pipeline0)) <= 500
  /\ updateCodebaseSummary false (str "2026-01-01T00:00:00.000Z") pipeline0 None
     = Some (loadCodebaseSummary None
             +++ summary_entry (str "2026-01-01T00:00:00.000Z") pipeline0).
Proof.
  assert (H1 : false = false) by reflexivity.
  assert (H2 : List.length
                 (js_split 10 (loadCodebaseSummary None
                               +++ summary_entry (str "2026-01-01T00:00:00.000Z")
                                                 pipeline0)) <= 500)
    by (vm_compute; lia).
  refine (conj H1 (conj H2 _)).
  exact (@summary_short_is_appended false (str "2026-01-01T00:00:00.000Z")
           pipeline0 None H1 H2).
Defined.

Lemma summary_ends_with_new_entry_witness :
  ~ In 10%N (str "2026-01-01T00:00:00.000Z")
  /\ ~ In 10%N (pr_name pipeline0)
  /\ exists kept,
       updated_summary (str "2026-01-01T00:00:00.000Z") pipeline0
                       (Some (str "first line"))
       = kept +++ summary_entry (str "2026-01-01T00:00:00.000Z") pipeline0.
Proof.
  assert (H1 : ~ In 10%N (str "2026-01-01T00:00:00.000Z"))
    by (vm_compute; intuition discriminate).
  assert (H2 : ~ In 10%N (pr_name pipeline0))
    by (vm_compute; intuition discriminate).
  refine (conj H1 (conj H2 _)).
  exact (@summary_ends_with_new_entry (str "2026-01-01T00:00:00.000Z")
           pipeline0 (Some (str "first line")) H1 H2).
Defined.

Lemma update_then_verify_witness :
  NoDup (map Suites.id (suites (db uploaded0)))
  /\ In 1%positive (map Results.id (results (db uploaded0)))
  /\ run_tests (db uploaded0) 1%positive <> []
  /\ verdict (Data (read_hierarchy
                      (fst (updateTestResults (no_update_faults truthy)
                              (Some 1%positive)
                              [ {| success := JBool true;
                                   scenario_of := scenario "d1" "admin" |} ]
                              (db uploaded0)))
                      1%positive))
     = JBool (all_passed
                (run_tests
                   (fst (updateTestResults (no_update_faults truthy)
                           (Some 1%positive)
                           [ {| success := JBool true;
                                scenario_of := scenario "d1" "admin" |} ]
                           (db uploaded0)))
                   1%positive)).
Proof.
  assert (H1 : NoDup (map Suites.id (suites (db uploaded0))))
    by (vm_compute; repeat constructor; simpl; intuition discriminate).
  assert (H2 : In 1%positive (map Results.id (results (db uploaded0))))
    by (vm_compute; tauto).
  assert (H3 : run_tests (db uploaded0) 1%positive <> [])
    by (vm_compute; discriminate).
  refine (conj H1 (conj H2 (conj H3 _))).
  exact (@update_then_verify truthy 1%positive
           [ {| success := JBool true; scenario_of := scenario "d1" "admin" |} ]
           (db uploaded0) H1 H2 H3).
Defined.

Lemma runTests_pass_is_earned_witness :
  truthy (fst (runTests env0 no_faults passing_agent uploaded0)) = true
  /\ exists rid db1 result,
       env_set (QAI_ENDPOINT env0) = true
       /\ resultId uploaded0 = Some rid
       /\ passing_agent rid (db uploaded0)
          = (Responded (Some (JStr (str "success"))), db1)
       /\ hierarchy_read no_faults = ReadOk
       /\ read_hierarchy db1 rid = Some result
       /\ overallSuccess result = true
       /\ db (snd (runTests env0 no_faults passing_agent uploaded0)) = db1
       /\ status_updates (calls (snd (runTests env0 no_faults passing_agent
                                         uploaded0)))
          = status_updates (calls uploaded0).
Proof.
  assert (H : truthy (fst (runTests env0 no_faults passing_agent uploaded0))
              = true) by (vm_compute; reflexivity).
  refine (conj H _).
  exact (@runTests_pass_is_earned env0 no_faults passing_agent uploaded0 H).
Defined.

Lemma runTests_without_endpoint_witness :
  env_set (QAI_ENDPOINT env_without_endpoint) = false
  /\ fst (runTests env_without_endpoint no_faults passing_agent uploaded0)
     = JBool false
  /\ agent_calls (calls (snd (runTests env_without_endpoint no_faults
                                passing_agent uploaded0)))
     = agent_calls (calls uploaded0).
Proof.
  assert (H : env_set (QAI_ENDPOINT env_without_endpoint) = false)
    by reflexivity.
  refine (conj H _).
  pose proof (@runTests_without_endpoint env_without_endpoint no_faults
                passing_agent uploaded0 H) as T.
  cbv zeta in T. split; apply T.
Defined.

Lemma runTests_unreadable_hierarchy_witness :
  env_set (QAI_ENDPOINT env0) = true
  /\ resultId uploaded0 = Some 1%positive
  /\ idle_agent 1%positive (db uploaded0)
     = (Responded (Some (JStr (str "success"))), db uploaded0)
  /\ (hierarchy_read unreadable <> ReadOk
      \/ read_hierarchy (db uploaded0) 1%positive = None)
  /\ truthy (fst (runTests env0 unreadable idle_agent uploaded0)) = false
  /\ db (snd (runTests env0 unreadable idle_agent uploaded0)) = db uploaded0.
Proof.
  assert (H1 : env_set (QAI_ENDPOINT env0) = true) by reflexivity.
  assert (H2 : resultId uploaded0 = Some 1%positive)
    by (vm_compute; reflexivity).
  assert (H3 : idle_agent 1%positive (db uploaded0)
               = (Responded (Some (JStr (str "success"))), db uploaded0))
    by reflexivity.
  assert (H4 : hierarchy_read unreadable <> ReadOk
               \/ read_hierarchy (db uploaded0) 1%positive = None)
    by (left; discriminate).
  refine (conj H1 (conj H2 (conj H3 (conj H4 _)))).
  pose proof (@runTests_unreadable_hierarchy env0 unreadable idle_agent
                uploaded0 1%positive (db uploaded0) H1 H2 H3 H4) as T.
  cbv zeta in T. split; apply T.
Defined.

Lemma main_full_action_witness :
  let e := main object_text env0 github0 None no_faults passing_agent writable
             (str "2026-01-01T00:00:00.000Z") None
             (Some five_ordinary_personas) empty_store no_files in
  action_of None = Full
  /\ construct object_text github0 None empty_store = Some pipeline0
  /\ exit_code e = 0
  /\ exists st,
       pipeline e = Some st
       /\ resultId st = Some 1%positive
       /\ summary_file (files e)
          = Some (updated_summary (str "2026-01-01T00:00:00.000Z") st None)
       /\ List.length (saved e) = 5.
Proof.
  intros e.
  assert (H1 : action_of None = Full) by reflexivity.
  assert (H2 : construct object_text github0 None empty_store = Some pipeline0)
    by reflexivity.
  assert (H3 : exit_code e = 0) by (vm_compute; reflexivity).
  refine (conj H1 (conj H2 (conj H3 _))).
  pose proof (@main_full_action object_text env0 github0 None no_faults
                passing_agent writable (str "2026-01-01T00:00:00.000Z") None
                (Some five_ordinary_personas) empty_store no_files pipeline0
                H1 H2) as T.
  cbv zeta in T. destruct T as [_ T].
  destruct (T five_ordinary_personas eq_refl eq_refl) as (_ & _ & _ & T0).
  destruct (T0 H3) as (_ & st & Hp & Hid & Hw & _).
  destruct (Hw eq_refl) as [Hs Hsaved].
  exists st. split; [exact Hp|]. split; [exact Hid|]. split; [exact Hs|].
  unfold e. rewrite Hsaved. reflexivity.
Defined.

Lemma at_most_four_suites_per_run_witness :
  results_insert_error no_faults = None
  /\ store_ok (db pipeline0)
  /\ List.length (suites_of (db uploaded0)
                    (fresh_id (map Results.id (results (db pipeline0))))) <= 4.
Proof.
  assert (H1 : results_insert_error no_faults = None) by reflexivity.
  assert (H2 : store_ok (db pipeline0)) by exact empty_store_ok.
  refine (conj H1 (conj H2 _)).
  pose proof (@at_most_four_suites_per_run no_faults five_ordinary_personas
                pipeline0 H1 H2) as T.
  cbv zeta in T. apply T.
Defined.

Lemma upload_stops_on_inherited_label_witness :
  In (scenario "d2" "constructor") inherited_persona
  /\ is_inherited (persona_key (scenario "d2" "constructor")) = true
  /\ results_insert_error no_faults = None
  /\ suites (db (uploadScenariosToDatabase no_faults inherited_persona pipeline0))
     = suites (db pipeline0)
  /\ tests (db (uploadScenariosToDatabase no_faults inherited_persona pipeline0))
     = tests (db pipeline0).
Proof.
  assert (H1 : In (scenario "d2" "constructor") inherited_persona)
    by (right; left; reflexivity).
  assert (H2 : is_inherited (persona_key (scenario "d2" "constructor")) = true)
    by (vm_compute; reflexivity).
  assert (H3 : results_insert_error no_faults = None) by reflexivity.
  refine (conj H1 (conj H2 (conj H3 _))).
  pose proof (@upload_stops_on_inherited_label no_faults inherited_persona
                pipeline0 (scenario "d2" "constructor") H1 H2 H3) as T.
  cbv zeta in T. split; apply T.
Defined.

Lemma upload_resets_outcomes_witness :
  store_ok (db pipeline0)
  /\ personaGroups five_ordinary_personas = Some (groups_of five_ordinary_personas)
  /\ In (scenario "d2" "guest") five_ordinary_personas
  /\ In (persona_key (scenario "d2" "guest"))
        (limitedPersonas (groups_of five_ordinary_personas))
  /\ exists t, In t (tests (db uploaded0))
               /\ Tests.name (Tests.data t) = description (scenario "d2" "guest").
Proof.
  assert (H1 : store_ok (db pipeline0)) by exact empty_store_ok.
  assert (H2 : personaGroups five_ordinary_personas
               = Some (groups_of five_ordinary_personas)) by reflexivity.
  assert (H3 : In (scenario "d2" "guest") five_ordinary_personas)
    by (right; left; reflexivity).
  assert (H4 : In (persona_key (scenario "d2" "guest"))
                  (limitedPersonas (groups_of five_ordinary_personas)))
    by (vm_compute; tauto).
  refine (conj H1 (conj H2 (conj H3 (conj H4 _)))).
  exact (proj1 (@upload_resets_outcomes five_ordinary_personas
                  (groups_of five_ordinary_personas) pipeline0
                  (scenario "d2" "guest") H1 H2 H3 H4)).
Defined.

Lemma new_run_does_not_pass_by_itself_witness :
  results_insert_error no_faults = None
  /\ store_ok (db pipeline0)
  /\ exists result,
       read_hierarchy (db uploaded0)
                      (fresh_id (map Results.id (results (db pipeline0))))
       = Some result
       /\ stored_status result = RUNNING
       /\ passedTests result = 0
       /\ verdict (Data (Some result)) = JBool false.
Proof.
  assert (H1 : results_insert_error no_faults = None) by reflexivity.
  assert (H2 : store_ok (db pipeline0)) by exact empty_store_ok.
  refine (conj H1 (conj H2 _)).
  exact (@new_run_does_not_pass_by_itself no_faults five_ordinary_personas
           pipeline0 H1 H2).
Defined.

Lemma suiteIds_mirror_the_store_witness :
  results_insert_error no_faults = None
  /\ personaGroups five_ordinary_personas = Some (groups_of five_ordinary_personas)
  /\ store_ok (db pipeline0)
  /\ (own (suiteIds uploaded0) (str "guest") = Some 2%positive
      <-> In {| Suites.id := 2%positive;
                Suites.data :=
                  suiteRecord (fresh_id (map Results.id (results (db pipeline0))))
                              (str "guest") |}
             (suites_of (db uploaded0)
                        (fresh_id (map Results.id (results (db pipeline0)))))).
Proof.
  assert (H1 : results_insert_error no_faults = None) by reflexivity.
  assert (H2 : personaGroups five_ordinary_personas
               = Some (groups_of five_ordinary_personas)) by reflexivity.
  assert (H3 : store_ok (db pipeline0)) by exact empty_store_ok.
  refine (conj H1 (conj H2 (conj H3 _))).
  exact (@suiteIds_mirror_the_store no_faults five_ordinary_personas
           (groups_of five_ordinary_personas) pipeline0 (str "guest")
           2%positive H1 H2 H3).
Defined.

(* ================================================================= *)
(** ** The stand-alone test script *)

Lemma is_true_truthy v : TestScript.is_true v = true -> truthy v = true.
Proof. destruct v as [| |[|]|n|s|]; simpl; congruence. Qed.

(** X23: the stand-alone script counts with two different tests.  The
    summary always adds up (passed + failed = total) and its failed count is
    the number of tests listed as failed, but the verdict asks for
    [success === true] while the counts ask for a truthy [success]: a
    verdict of all passed implies no failed test, and a verdict of failure
    with no failed test happens exactly when every [success] is truthy and
    one of them is not the boolean true. *)
Theorem script_verdict_and_counts (results : list TestScript.Result) :
  TestScript.passed (TestScript.summary results)
  + TestScript.failed (TestScript.summary results)
  = TestScript.total (TestScript.summary results)
  /\ TestScript.failed (TestScript.summary results)
     = List.length (TestScript.failedTests results)
  /\ (TestScript.allPassed results = true ->
      TestScript.failed (TestScript.summary results) = 0)
  /\ (TestScript.allPassed results = false
      /\ TestScript.failed (TestScript.summary results) = 0
      <-> (forall r, In r results -> truthy (TestScript.success r) = true)
          /\ exists r, In r results /\ TestScript.success r <> JBool true).
Proof.
  assert (Hzero : TestScript.failed (TestScript.summary results) = 0
                  <-> forall r, In r results ->
                                truthy (TestScript.success r) = true).
  { simpl. split.
    - intros H r Hr. apply length_zero_iff_nil in H.
      destruct (truthy (TestScript.success r)) eqn:E; [reflexivity|].
      exfalso.
      assert (Hin : In r (filter (fun r => negb (truthy (TestScript.success r)))
                                 results))
        by (apply filter_In; split; [exact Hr | now rewrite E]).
      now rewrite H in Hin.
    - intros H. rewrite filter_none; [reflexivity|].
      intros r Hr. now rewrite (H r Hr). }
  split; [|split; [|split; [|split]]].
  - clear Hzero. simpl. induction results as [|r l IH]; simpl; [reflexivity|].
    destruct (truthy (TestScript.success r)); simpl; lia.
  - reflexivity.
  - intros Hall. apply Hzero. intros r Hr.
    unfold TestScript.allPassed in Hall.
    rewrite forallb_forall in Hall. now apply is_true_truthy, Hall.
  - intros [Hall Hf]. split; [now apply Hzero|].
    unfold TestScript.allPassed in Hall. clear -Hall.
    induction results as [|r l IH]; simpl in Hall; [discriminate|].
    destruct (TestScript.is_true (TestScript.success r)) eqn:E.
    + destruct (IH Hall) as [x [Hx Hne]]. exists x. split; [now right | exact Hne].
    + exists r. split; [now left|]. intros Heq. rewrite Heq in E. discriminate.
  - intros [Ht [r [Hr Hne]]]. split; [|now apply Hzero].
    destruct (TestScript.allPassed results) eqn:Hall; [|reflexivity].
    exfalso. unfold TestScript.allPassed in Hall.
    rewrite forallb_forall in Hall. specialize (Hall r Hr).
    apply Hne. destruct (TestScript.success r) as [| |[|]|n|s|];
      simpl in Hall; congruence.
Qed.

(* ================================================================= *)
(** ** The stand-alone summary script *)

Lemma starts_with_prefix (sep s : jsstring) :
  SummaryScript.starts_with sep s = true -> exists rest, s = sep +++ rest.
Proof.
  revert s. induction sep as [|a sep' IH]; intros s H; simpl in H.
  - now exists s.
  - destruct s as [|b s']; [discriminate|].
    apply andb_true_iff in H. destruct H as [Hab H].
    apply N.eqb_eq in Hab. subst b.
    destruct (IH s' H) as [rest ->]. now exists rest.
Qed.

Lemma split_from_not_nil (sep : jsstring) k (s : jsstring) :
  SummaryScript.split_from sep k s <> [].
Proof.
  revert k. induction s as [|c s IH]; intros k; simpl; [discriminate|].
  destruct k as [|k]; [|apply IH].
  destruct (SummaryScript.starts_with sep (c :: s)); [discriminate|].
  destruct (SummaryScript.split_from sep 0 s); discriminate.
Qed.

Lemma split_from_skip (sep pre rest : jsstring) :
  SummaryScript.split_from sep (List.length pre) (pre +++ rest)
  = SummaryScript.split_from sep 0 rest.
Proof. induction pre as [|c pre IH]; simpl; [reflexivity | exact IH]. Qed.

Lemma split_cases (sep s : jsstring) :
  sep <> [] ->
  s = [] /\ SummaryScript.split sep s = [[]]
  \/ (exists rest,
        s = sep +++ rest
        /\ SummaryScript.split sep s = [] :: SummaryScript.split sep rest)
  \/ (exists c s' p ps,
        s = c :: s'
        /\ SummaryScript.split sep s' = p :: ps
        /\ SummaryScript.split sep s = (c :: p) :: ps).
Proof.
  intros Hsep. destruct s as [|c s']; [now left|]. right.
  unfold SummaryScript.split. cbn [SummaryScript.split_from].
  destruct (SummaryScript.starts_with sep (c :: s')) eqn:E.
  - left. destruct (starts_with_prefix _ _ E) as [rest Hrest].
    exists rest. split; [exact Hrest|]. f_equal.
    destruct sep as [|a sep']; [congruence|].
    simpl in Hrest. injection Hrest as _ ->.
    simpl. rewrite Nat.sub_0_r. apply split_from_skip.
  - right. destruct (SummaryScript.split_from sep 0 s') as [|p ps] eqn:Es.
    + exfalso. now apply (@split_from_not_nil sep 0 s').
    + now exists c, s', p, ps.
Qed.

(** Splitting and joining again gives the string back; the sections after
    the first are the sections of the rest of the string. *)
Lemma split_spec (sep : jsstring) (n : nat) :
  sep <> [] ->
  forall s : jsstring, List.length s <= n ->
    js_join sep (SummaryScript.split sep s) = s
    /\ forall p q ps, SummaryScript.split sep s = p :: q :: ps ->
         s = p +++ sep +++ js_join sep (q :: ps)
         /\ SummaryScript.split sep (js_join sep (q :: ps)) = q :: ps.
Proof.
  intros Hsep. induction n as [|n IH]; intros s Hn.
  - destruct s; [|simpl in Hn; lia]. split; [reflexivity|].
    intros p q ps H. discriminate.
  - destruct (@split_cases sep s Hsep)
      as [[-> Hs]|[[rest [-> Hs]]|[c [s' [p' [ps' (-> & Hs' & Hs)]]]]]].
    + rewrite Hs. split; [reflexivity|]. intros p q ps H. discriminate.
    + assert (Hrest : List.length rest <= n).
      { rewrite length_app in Hn. destruct sep; [congruence|].
        simpl in Hn. lia. }
      destruct (IH rest Hrest) as [Hj _]. rewrite Hs. split.
      * rewrite js_join_cons by apply (@split_from_not_nil sep 0).
        now rewrite Hj.
      * intros p q ps H. injection H as <- Hq.
        rewrite <- Hq, Hj. now split.
    + assert (Hlen : List.length s' <= n) by (simpl in Hn; lia).
      destruct (IH s' Hlen) as [Hj Ht]. rewrite Hs. rewrite Hs' in Hj, Ht.
      split.
      * destruct ps' as [|q ps']; [simpl in *; now rewrite Hj|].
        rewrite js_join_cons by discriminate.
        rewrite js_join_cons in Hj by discriminate.
        rewrite <- Hj. reflexivity.
      * intros p q ps H. injection H as <- Hps.
        destruct (Ht p' q ps (f_equal (cons p') Hps)) as [H1 H2].
        split; [|exact H2]. rewrite H1 at 1. reflexivity.
Qed.

Lemma join_split (sep s : jsstring) :
  sep <> [] -> js_join sep (SummaryScript.split sep s) = s.
Proof. intros Hsep. apply (@split_spec sep (List.length s) Hsep). lia. Qed.

Lemma split_skipn (sep : jsstring) (k : nat) :
  sep <> [] ->
  forall s : jsstring, k < List.length (SummaryScript.split sep s) ->
    SummaryScript.split sep (js_join sep (skipn k (SummaryScript.split sep s)))
    = skipn k (SummaryScript.split sep s)
    /\ (0 < k ->
        exists dropped,
          s = dropped +++ sep
              +++ js_join sep (skipn k (SummaryScript.split sep s))).
Proof.
  intros Hsep. induction k as [|k IH]; intros s Hk.
  - simpl. rewrite join_split by exact Hsep. split; [reflexivity | lia].
  - destruct (SummaryScript.split sep s) as [|p [|q ps]] eqn:Es;
      simpl in Hk; try lia.
    destruct (@split_spec sep (List.length s) Hsep s (le_n _)) as [_ Ht].
    destruct (Ht p q ps Es) as [Hs Hsplit].
    cbn [skipn]. rewrite <- Hsplit.
    assert (Hk' : k < List.length
                        (SummaryScript.split sep (js_join sep (q :: ps))))
      by (rewrite Hsplit; simpl; lia).
    destruct (IH _ Hk') as [H1 H2]. split; [exact H1|].
    intros _. destruct k as [|k].
    + exists p. simpl skipn. rewrite join_split by exact Hsep. exact Hs.
    + destruct H2 as [d Hd]; [lia|]. exists (p +++ sep +++ d).
      rewrite <- !app_assoc. rewrite <- Hd. exact Hs.
Qed.

Lemma concat_with_markers (sections : list jsstring) :
  List.concat (SummaryScript.with_markers 0 sections)
  = js_join SummaryScript.marker sections.
Proof.
  assert (H : forall i l,
            List.concat (SummaryScript.with_markers (S i) l)
            = List.concat (map (fun s => SummaryScript.marker +++ s) l)).
  { intros i l. revert i. induction l as [|x l IH]; intros i; simpl;
      [reflexivity|]. now rewrite IH. }
  destruct sections as [|x l]; [reflexivity|].
  cbn [SummaryScript.with_markers Nat.eqb List.concat]. rewrite H. clear H.
  revert x. induction l as [|y l IH]; intros x.
  - simpl. now rewrite app_nil_r.
  - rewrite js_join_cons by discriminate. cbn [map List.concat].
    rewrite <- IH. now rewrite <- app_assoc.
Qed.

Lemma marker_not_empty : SummaryScript.marker <> [].
Proof. discriminate. Qed.

(** X24: the summary script does not shorten a summary of few entries.
    When the old summary with the new entry holds at most 24 markers
    "=== UPDATE " (25 sections), the file written is that text unchanged,
    however long it is: the limit of 10000 characters has no effect on
    it. *)
Theorem script_keeps_short_histories (existingSummary updateEntry : jsstring) :
  List.length (SummaryScript.split SummaryScript.marker
                 (existingSummary +++ updateEntry)) <= 25 ->
  SummaryScript.finalSummary existingSummary updateEntry
  = existingSummary +++ updateEntry.
Proof.
  intros H. unfold SummaryScript.finalSummary.
  destruct (SummaryScript.too_long _); [|reflexivity].
  cbv zeta. rewrite (@slice_neg_all _ 25 _ H), concat_with_markers.
  apply join_split, marker_not_empty.
Qed.

(** X25: when the summary script cuts, it cuts through an entry.  If the
    old summary with the new entry counts as too long and has more than 25
    sections, the file written is the text that follows one of the markers
    "=== UPDATE ": the oldest entry kept has lost its marker, and the file
    is left with exactly 25 sections, that is 24 markers. *)
Theorem script_cut_drops_a_marker (existingSummary updateEntry : jsstring) :
  SummaryScript.too_long (existingSummary +++ updateEntry) = true ->
  25 < List.length (SummaryScript.split SummaryScript.marker
                      (existingSummary +++ updateEntry)) ->
  let final := SummaryScript.finalSummary existingSummary updateEntry in
  (exists dropped,
     existingSummary +++ updateEntry
     = dropped +++ SummaryScript.marker +++ final)
  /\ List.length (SummaryScript.split SummaryScript.marker final) = 25.
Proof.
  intros Hlong Hn final. unfold final, SummaryScript.finalSummary.
  rewrite Hlong. cbv zeta. rewrite concat_with_markers. unfold slice_neg.
  set (s := existingSummary +++ updateEntry) in *.
  set (k := List.length (SummaryScript.split SummaryScript.marker s) - 25).
  assert (Hk : k < List.length (SummaryScript.split SummaryScript.marker s))
    by (unfold k; lia).
  destruct (@split_skipn SummaryScript.marker k marker_not_empty s Hk)
    as [H1 H2].
  split.
  - apply H2. unfold k. lia.
  - rewrite H1, length_skipn. unfold k. lia.
Qed.

Lemma script_keeps_short_histories_witness :
  List.length (SummaryScript.split SummaryScript.marker
                 (str "first line"
                  +++ SummaryScript.updateEntry object_text (str "2026-01-01T00:00:00.000Z")
                        (JNum 7) (str "Add login") None)) <= 25
  /\ SummaryScript.finalSummary (str "first line")
       (SummaryScript.updateEntry object_text (str "2026-01-01T00:00:00.000Z")
          (JNum 7) (str "Add login") None)
     = str "first line"
       +++ SummaryScript.updateEntry object_text (str "2026-01-01T00:00:00.000Z")
             (JNum 7) (str "Add login") None.
Proof.
  assert (H : List.length
                (SummaryScript.split SummaryScript.marker
                   (str "first line"
                    +++ SummaryScript.updateEntry object_text (str "2026-01-01T00:00:00.000Z")
                          (JNum 7) (str "Add login") None)) <= 25)
    by (vm_compute; lia).
  refine (conj H _).
  exact (@script_keeps_short_histories (str "first line")
           (SummaryScript.updateEntry object_text (str "2026-01-01T00:00:00.000Z")
              (JNum 7) (str "Add login") None) H).
Defined.

Lemma script_cut_drops_a_marker_witness :
  SummaryScript.too_long
    (SummaryScript.sixty_updates
     +++ SummaryScript.updateEntry object_text (str "2026-01-01T00:00:00.000Z")
           (JNum 7) (str "Add login") None) = true
  /\ 25 < List.length
            (SummaryScript.split SummaryScript.marker
               (SummaryScript.sixty_updates
                +++ SummaryScript.updateEntry object_text (str "2026-01-01T00:00:00.000Z")
                      (JNum 7) (str "Add login") None))
  /\ List.length
       (SummaryScript.split SummaryScript.marker
          (SummaryScript.finalSummary SummaryScript.sixty_updates
             (SummaryScript.updateEntry object_text (str "2026-01-01T00:00:00.000Z")
                (JNum 7) (str "Add login") None))) = 25.
Proof.
  assert (H1 : SummaryScript.too_long
                 (SummaryScript.sixty_updates
                  +++ SummaryScript.updateEntry object_text (str "2026-01-01T00:00:00.000Z")
                        (JNum 7) (str "Add login") None) = true)
    by (vm_compute; reflexivity).
  assert (H2 : 25 < List.length
                      (SummaryScript.split SummaryScript.marker
                         (SummaryScript.sixty_updates
                          +++ SummaryScript.updateEntry object_text
                                (str "2026-01-01T00:00:00.000Z")
                                (JNum 7) (str "Add login") None)))
    by (vm_compute; lia).
  refine (conj H1 (conj H2 _)).
  exact (proj2 (@script_cut_drops_a_marker SummaryScript.sixty_updates
                  (SummaryScript.updateEntry object_text (str "2026-01-01T00:00:00.000Z")
                     (JNum 7) (str "Add login") None) H1 H2)).
Defined.
